(** * Interview platform: the candidate-facing test-run path

    A shallow embedding of the TypeScript client of the interview platform
    (lib/api-client.ts, hooks/use-interview.ts,
    components/interview/test-terminal.tsx and the code editor), together
    with the properties of the test-run path that the specification of the
    execution sandbox states about it.

    Conventions of the embedding:
    - a JS string is a [string]; an optional property ([error?: string]) is
      an [option]; truthiness tests ([if (test.input)]) are the boolean
      functions of module [Js];
    - JS numbers that the client only compares and prints (test numbers,
      milliseconds, task counters, scores) are integers [Z], printed in
      decimal as a template literal prints an integral number; where the
      client computes with them (the average of the scores) the arithmetic
      is that of binary64 doubles, [spec_float] of the Standard Library;
    - an [async] function is a function from the outcome of the awaited
      calls to a completion ([Return] or [Throw]) and the new hook state;
      [console.error] appends to an explicit log. *)

From Stdlib Require Import String Ascii List ZArith SpecFloat Bool Lia DecimalString.
Import ListNotations.
Local Open Scope string_scope.
#[local] Set Warnings "-register-all".


(* ===================================================================== *)
(** ** JavaScript values used by the client *)
(* ===================================================================== *)

Module Js.

(** The characters written [\n] and [\x1b] in the source. *)
Definition LF : string := String (ascii_of_nat 10) EmptyString.
Definition ESC : string := String (ascii_of_nat 27) EmptyString.

(** [if (s)] on a string: every string but the empty one is truthy. *)
Definition truthy_string (s : string) : bool := negb (s =? "").

(** [if (o)] on an optional string: [undefined] and [""] are falsy. *)
Definition truthy_opt (o : option string) : bool :=
  match o with
  | Some s => truthy_string s
  | None => false
  end.

(** [if (n)] on a number: zero is falsy. *)
Definition truthy_number (n : Z) : bool := negb (n =? 0)%Z.

(** A JS number in arithmetic: a binary64 double, with the sum and the
    quotient of IEEE 754 (53 bits of precision, round to nearest, ties to
    even). *)
Definition double : Set := spec_float.

(** The double of an integral number. *)
Definition double_of_Z (n : Z) : double := binary_normalize 53 1024 n 0 false.

(** [a + b] and [a / b]. *)
Definition double_add (a b : double) : double := SFadd 53 1024 a b.

Definition double_div (a b : double) : double := SFdiv 53 1024 a b.

(** [`${n}`] for an integral number. *)
Definition number_to_string (n : Z) : string :=
  NilZero.string_of_int (Z.to_int n).

(** [`${o}`] for an optional string that was tested truthy before. *)
Definition text_of (o : option string) : string :=
  match o with
  | Some s => s
  | None => "undefined"
  end.

(** [a || b] where [a] is an optional string. *)
Definition or_else (a : option string) (b : string) : string :=
  match a with
  | Some s => if truthy_string s then s else b
  | None => b
  end.

(** A thrown value: [new Error(message)], or what [fetch] and
    [res.json()] reject with. *)
Record error : Set := { name : string; message : string }.

Definition Error (msg : string) : error :=
  {| name := "Error"; message := msg |}.

(** How an awaited call completes. *)
Inductive completion (A : Type) : Type :=
| Return (a : A)
| Throw (e : error).
Arguments Return {A} a.
Arguments Throw {A} e.

(** A JSON value: what [JSON.stringify] is given and [res.json()] gives. *)
Inductive json : Type :=
| JNull
| JBool (b : bool)
| JNum (n : Z)
| JStr (s : string)
| JArr (items : list json)
| JObj (members : list (string * json)).

Definition keys (j : json) : list string :=
  match j with
  | JObj members => map fst members
  | _ => []
  end.

Fixpoint assoc {A : Type} (k : string) (l : list (string * A)) : option A :=
  match l with
  | [] => None
  | (k', v) :: rest => if k' =? k then Some v else assoc k rest
  end.

(** Property access [j.k]; [None] is [undefined]. *)
Definition get (k : string) (j : json) : option json :=
  match j with
  | JObj members => assoc k members
  | _ => None
  end.

Definition has_key (k : string) (j : json) : bool :=
  existsb (String.eqb k) (keys j).

(** One argument of a [console.error] call. *)
Inductive log_arg : Type :=
| LText (s : string)
| LError (e : error).

Definition console := list (list log_arg).

End Js.

Import Js.

(* ===================================================================== *)
(** ** lib/api-client.ts *)
(* ===================================================================== *)

Module ApiClient.

Inductive ProgrammingLanguage : Set := python | javascript | cpp.
Inductive InterviewDirection : Set :=
  frontend | backend | fullstack | data_science | devops.
Inductive Difficulty : Set := easy | medium | hard.
Inductive TaskLanguage : Set := ru | en.
Inductive TaskType : Set :=
  algorithm | system_design | code_review | debugging | practical.

(** The string literal each member of the union is at run time. *)
Definition language_tag (l : ProgrammingLanguage) : string :=
  match l with
  | python => "python"
  | javascript => "javascript"
  | cpp => "cpp"
  end.

Module Task.
Record t : Type := {
  id : string;
  title : string;
  description : string;
  task_type : TaskType;
  difficulty : Difficulty;
  examples : list (string * string * option string);
  constraints : option (list string);
  time_limit_minutes : Z;
  starter_code : option (list (string * string))
}.
End Task.

Inductive Role : Set := user | assistant.

Module ChatMessage.
Record t : Set := { role : Role; content : string }.
End ChatMessage.

Module InterviewState.
Record t : Set := {
  interview_id : string;
  status : string;
  current_task : Z;
  total_tasks : Z;
  direction : InterviewDirection;
  language : ProgrammingLanguage;
  task_language : TaskLanguage;
  difficulty : Difficulty;
  started_at : string
}.
End InterviewState.

Module TestResult.
Record t : Set := {
  test_number : Z;
  passed : bool;
  input : string;
  expected : string;
  actual : string;
  error : option string;
  execution_time_ms : Z
}.
End TestResult.

Module ExecutionResult.
(** [success] is declared [boolean] and the two measurements [number];
    the terminal still tests [success] against [undefined] and the
    editor builds a result without the measurements, so the embedding
    keeps those cases. *)
Record t : Set := {
  success : option bool;
  output : option string;
  error : option string;
  execution_time_ms : option Z;
  memory_used_mb : option Z;
  test_results : option (list TestResult.t)
}.
End ExecutionResult.

(** *** The interface declarations, as data

    The shape of a TypeScript interface: its properties in order, with
    the [?] marker and the declared type. *)

Inductive ts_type : Set :=
| TBoolean
| TNumber
| TString
| TArray (elem : ts_type)
| TRef (interface_name : string).

Record property : Set := {
  pname : string;
  optional : bool;
  ptype : ts_type
}.

Definition TestResult_decl : list property :=
  [ {| pname := "test_number"; optional := false; ptype := TNumber |};
    {| pname := "passed"; optional := false; ptype := TBoolean |};
    {| pname := "input"; optional := false; ptype := TString |};
    {| pname := "expected"; optional := false; ptype := TString |};
    {| pname := "actual"; optional := false; ptype := TString |};
    {| pname := "error"; optional := true; ptype := TString |};
    {| pname := "execution_time_ms"; optional := false; ptype := TNumber |} ].

Definition ExecutionResult_decl : list property :=
  [ {| pname := "success"; optional := false; ptype := TBoolean |};
    {| pname := "output"; optional := true; ptype := TString |};
    {| pname := "error"; optional := true; ptype := TString |};
    {| pname := "execution_time_ms"; optional := false; ptype := TNumber |};
    {| pname := "memory_used_mb"; optional := false; ptype := TNumber |};
    {| pname := "test_results"; optional := true;
       ptype := TArray (TRef "TestResult") |} ].

(** The interfaces reachable from the return type of [runTests]. *)
Definition interface (name : string) : option (list property) :=
  if name =? "ExecutionResult" then Some ExecutionResult_decl
  else if name =? "TestResult" then Some TestResult_decl
  else None.

(** [runTests(...): Promise<ExecutionResult>]. *)
Definition runTests_return_type : ts_type := TRef "ExecutionResult".

(** *** HTTP *)

(** [process.env.NEXT_PUBLIC_API_URL || "http://localhost:8000"]; the
    variable of the environment is a parameter ([None] when it is not
    set). *)
Definition API_BASE (NEXT_PUBLIC_API_URL : option string) : string :=
  or_else NEXT_PUBLIC_API_URL "http://localhost:8000".

(** The second argument of [fetch]; [signal] is the abort signal a caller
    may pass to cancel the request. *)
Record request : Type := {
  url : string;
  method : string;
  headers : list (string * string);
  body : json;
  signal : option nat
}.

(** What the client reads of a response: [res.ok], [res.status],
    [res.text()] and the outcome of [res.json()] ([None] when the body
    does not parse).  The payload type is a parameter: the client returns
    it as it is and never inspects it. *)
Record response (P : Type) : Type := {
  ok : bool;
  status : Z;
  text : string;
  parsed : option P
}.
Arguments ok {P} r.
Arguments status {P} r.
Arguments text {P} r.
Arguments parsed {P} r.

Definition json_of {P : Type} (res : response P) : completion P :=
  match parsed res with
  | Some p => Return p
  | None =>
      Throw {| name := "SyntaxError"; message := "Unexpected token" |}
  end.

(** [JSON.stringify({ interview_id, task_id, code, language })]: the
    object that is serialised. *)
Definition runTests_body (interview_id task_id code : string)
    (language : ProgrammingLanguage) : json :=
  JObj [ ("interview_id", JStr interview_id);
         ("task_id", JStr task_id);
         ("code", JStr code);
         ("language", JStr (language_tag language)) ].

Definition runTests_request (NEXT_PUBLIC_API_URL : option string)
    (interview_id task_id code : string) (language : ProgrammingLanguage)
    : request :=
  {| url := API_BASE NEXT_PUBLIC_API_URL ++ "/api/interview/run-tests";
     method := "POST";
     headers := [("Content-Type", "application/json")];
     body := runTests_body interview_id task_id code language;
     signal := None |}.

Section Calls.
Context {P : Type}.
Variable NEXT_PUBLIC_API_URL : option string.

(** [fetch]: the request is answered, or the promise is rejected. *)
Variable fetch : request -> completion (response P).

Definition runTests (interview_id task_id code : string)
    (language : ProgrammingLanguage) : completion P :=
  match fetch (runTests_request NEXT_PUBLIC_API_URL interview_id task_id
                 code language) with
  | Throw e => Throw e
  | Return res =>
      if negb (ok res) then Throw (Error "Failed to run tests")
      else json_of res
  end.

End Calls.

End ApiClient.

Import ApiClient.

(* ===================================================================== *)
(** ** components/interview/test-terminal.tsx *)
(* ===================================================================== *)

Module TestTerminal.

(** The body of the [forEach] callback: what one test case appends to
    [terminalOutput]. *)
Definition append_test (terminalOutput : string) (test : TestResult.t)
    : string :=
  let terminalOutput :=
    if TestResult.passed test then
      terminalOutput ++
        (ESC ++ "[32m✓ Test " ++
         number_to_string (TestResult.test_number test) ++
         ": PASSED" ++ ESC ++ "[0m" ++ LF)
    else
      let terminalOutput :=
        terminalOutput ++
          (ESC ++ "[31m✗ Test " ++
           number_to_string (TestResult.test_number test) ++
           ": FAILED" ++ ESC ++ "[0m" ++ LF) in
      let terminalOutput :=
        if truthy_string (TestResult.input test)
        then terminalOutput ++ ("  Input: " ++ TestResult.input test ++ LF)
        else terminalOutput in
      let terminalOutput :=
        if truthy_string (TestResult.expected test)
        then terminalOutput ++
               ("  Expected: " ++ TestResult.expected test ++ LF)
        else terminalOutput in
      let terminalOutput :=
        if truthy_string (TestResult.actual test)
        then terminalOutput ++ ("  Actual: " ++ TestResult.actual test ++ LF)
        else terminalOutput in
      if truthy_opt (TestResult.error test)
      then terminalOutput ++
             ("  Error: " ++ text_of (TestResult.error test) ++ LF)
      else terminalOutput
  in
  if truthy_number (TestResult.execution_time_ms test)
  then terminalOutput ++
         ("  Time: " ++
          number_to_string (TestResult.execution_time_ms test) ++
          "ms" ++ LF)
  else terminalOutput.

(** The effect that computes the terminal text from the props; the result
    is the argument of [setOutput]. *)
Definition output (executionResult : option ExecutionResult.t)
    (isRunning : bool) : string :=
  match executionResult with
  | Some executionResult =>
      let terminalOutput := "" in
      let terminalOutput :=
        if truthy_opt (ExecutionResult.error executionResult)
        then terminalOutput ++
               (ESC ++ "[31mError: " ++
                text_of (ExecutionResult.error executionResult) ++
                ESC ++ "[0m" ++ LF)
        else terminalOutput in
      let terminalOutput :=
        if truthy_opt (ExecutionResult.output executionResult)
        then terminalOutput ++
               text_of (ExecutionResult.output executionResult)
        else terminalOutput in
      let terminalOutput :=
        match ExecutionResult.test_results executionResult with
        | Some ((_ :: _) as test_results) =>
            fold_left append_test test_results
              (terminalOutput ++ (LF ++ LF ++ "=== Test Results ===" ++ LF))
        | _ => terminalOutput
        end in
      match ExecutionResult.success executionResult with
      | Some success =>
          terminalOutput ++
            (LF ++ LF ++ ESC ++ "[" ++ (if success then "32" else "31") ++
             "mOverall: " ++ (if success then "SUCCESS" else "FAILED") ++
             ESC ++ "[0m" ++ LF)
      | None => terminalOutput
      end
  | None => if isRunning then "Running tests..." ++ LF else ""
  end.

(** The stop button is rendered only while a run is in progress and only
    when the parent passed an [onStop] callback; pressing it calls that
    callback and nothing else. *)
Definition stop_button {Callback : Type} (isRunning : bool)
    (onStop : option Callback) : option Callback :=
  if isRunning then onStop else None.

End TestTerminal.

(* ===================================================================== *)
(** ** hooks/use-interview.ts *)
(* ===================================================================== *)

Module LoadingAction.
Inductive t : Set := start | submit | tests | hint | nextTask | finish.
End LoadingAction.

Module UseInterview.

(** *** The [apiClient] object the hook calls

    Each method is taken with the completion of the promise it returns.
    [generateTask] may resolve to [null] ([None]); [sendChatMessage] hands
    the chunks of the answer to [onChunk] before it completes. *)

Record StartData : Set := {
  candidate_name : string;
  candidate_email : string;
  direction : InterviewDirection;
  language : ProgrammingLanguage;
  difficulty : Difficulty;
  task_language : TaskLanguage;
  use_task_bank : option bool
}.

Record SubmitResult : Set := {
  task_id : string;
  execution_result : option ExecutionResult.t;
  evaluation_score : Z;
  anti_cheat_is_suspicious : bool
}.

Record HintResult : Set := {
  hint : string;
  hint_number : Z;
  hints_remaining : Z
}.

Record FinishResult : Set := {
  finished_interview_id : string;
  finished_status : string
}.

Record client : Type := {
  api_startInterview : StartData -> completion InterviewState.t;
  api_generateTask :
    string -> Z -> option double -> completion (option Task.t);
  api_submitCode :
    string -> string -> string -> ProgrammingLanguage ->
    completion SubmitResult;
  api_runTests :
    string -> string -> string -> ProgrammingLanguage ->
    completion ExecutionResult.t;
  api_getHint : string -> string -> string -> completion (option HintResult);
  api_sendChatMessage :
    string -> string -> string -> option string ->
    list string * completion unit;
  api_finishInterview : string -> completion FinishResult
}.

(** *** The state cells of the hook *)

Record state : Type := {
  interview : option InterviewState.t;
  currentTask : option Task.t;
  taskNumber : Z;
  code : string;
  chatMessages : list ChatMessage.t;
  isLoading : bool;
  hintsUsed : Z;
  taskScores : list Z;
  loadingAction : option LoadingAction.t;
  chatLoading : bool;
  isChatStreaming : bool
}.

(** The arguments of the [useState] calls. *)
Definition initial : state :=
  {| interview := None;
     currentTask := None;
     taskNumber := 1;
     code := "";
     chatMessages := [];
     isLoading := false;
     hintsUsed := 0;
     taskScores := [];
     loadingAction := None;
     chatLoading := false;
     isChatStreaming := false |}.

(** *** A monad for the bodies of the callbacks

    A callback runs on the hook state and the console; it returns or
    throws. *)

Definition world : Type := state * console.

Definition M (A : Type) : Type := world -> completion A * world.

Definition ret {A : Type} (a : A) : M A := fun w => (Return a, w).

Definition throw {A : Type} (e : error) : M A := fun w => (Throw e, w).

Definition bind {A B : Type} (m : M A) (k : A -> M B) : M B :=
  fun w =>
    match m w with
    | (Return a, w') => k a w'
    | (Throw e, w') => (Throw e, w')
    end.

(** [await c]: the awaited promise has completed with [c]. *)
Definition await {A : Type} (c : completion A) : M A := fun w => (c, w).

(** [try { m } catch (error) { handler error }]. *)
Definition try_catch {A : Type} (m : M A) (handler : error -> M A) : M A :=
  fun w =>
    match m w with
    | (Return a, w') => (Return a, w')
    | (Throw e, w') => handler e w'
    end.

(** [try { m } finally { cleanup }]: the cleanup runs on every exit and the
    completion of [m] is kept unless the cleanup throws. *)
Definition try_finally {A : Type} (m : M A) (cleanup : M unit) : M A :=
  fun w =>
    match m w with
    | (c, w') =>
        match cleanup w' with
        | (Return _, w'') => (c, w'')
        | (Throw e, w'') => (Throw e, w'')
        end
    end.

Definition modify (f : state -> state) : M unit :=
  fun w => (Return tt, (f (fst w), snd w)).

Definition read : M state := fun w => (Return (fst w), w).

Definition console_error (args : list log_arg) : M unit :=
  fun w => (Return tt, (fst w, (snd w ++ [args])%list)).

Declare Scope hook_scope.
Delimit Scope hook_scope with hook.
Notation "x <- m ;; k" := (bind m (fun x => k))
  (at level 61, m at next level, right associativity) : hook_scope.
Notation "m ;; k" := (bind m (fun _ => k))
  (at level 61, right associativity) : hook_scope.
Local Open Scope hook_scope.

(** The setters. *)

Definition setInterview (v : option InterviewState.t) : M unit :=
  modify (fun s =>
    {| interview := v; currentTask := currentTask s;
       taskNumber := taskNumber s; code := code s;
       chatMessages := chatMessages s; isLoading := isLoading s;
       hintsUsed := hintsUsed s; taskScores := taskScores s;
       loadingAction := loadingAction s; chatLoading := chatLoading s;
       isChatStreaming := isChatStreaming s |}).

Definition setCurrentTask (v : option Task.t) : M unit :=
  modify (fun s =>
    {| interview := interview s; currentTask := v;
       taskNumber := taskNumber s; code := code s;
       chatMessages := chatMessages s; isLoading := isLoading s;
       hintsUsed := hintsUsed s; taskScores := taskScores s;
       loadingAction := loadingAction s; chatLoading := chatLoading s;
       isChatStreaming := isChatStreaming s |}).

Definition setTaskNumber (v : Z) : M unit :=
  modify (fun s =>
    {| interview := interview s; currentTask := currentTask s;
       taskNumber := v; code := code s;
       chatMessages := chatMessages s; isLoading := isLoading s;
       hintsUsed := hintsUsed s; taskScores := taskScores s;
       loadingAction := loadingAction s; chatLoading := chatLoading s;
       isChatStreaming := isChatStreaming s |}).

Definition setCode (v : string) : M unit :=
  modify (fun s =>
    {| interview := interview s; currentTask := currentTask s;
       taskNumber := taskNumber s; code := v;
       chatMessages := chatMessages s; isLoading := isLoading s;
       hintsUsed := hintsUsed s; taskScores := taskScores s;
       loadingAction := loadingAction s; chatLoading := chatLoading s;
       isChatStreaming := isChatStreaming s |}).

Definition setChatMessages
    (f : list ChatMessage.t -> list ChatMessage.t) : M unit :=
  modify (fun s =>
    {| interview := interview s; currentTask := currentTask s;
       taskNumber := taskNumber s; code := code s;
       chatMessages := f (chatMessages s); isLoading := isLoading s;
       hintsUsed := hintsUsed s; taskScores := taskScores s;
       loadingAction := loadingAction s; chatLoading := chatLoading s;
       isChatStreaming := isChatStreaming s |}).

Definition setIsLoading (v : bool) : M unit :=
  modify (fun s =>
    {| interview := interview s; currentTask := currentTask s;
       taskNumber := taskNumber s; code := code s;
       chatMessages := chatMessages s; isLoading := v;
       hintsUsed := hintsUsed s; taskScores := taskScores s;
       loadingAction := loadingAction s; chatLoading := chatLoading s;
       isChatStreaming := isChatStreaming s |}).

Definition setHintsUsed (f : Z -> Z) : M unit :=
  modify (fun s =>
    {| interview := interview s; currentTask := currentTask s;
       taskNumber := taskNumber s; code := code s;
       chatMessages := chatMessages s; isLoading := isLoading s;
       hintsUsed := f (hintsUsed s); taskScores := taskScores s;
       loadingAction := loadingAction s; chatLoading := chatLoading s;
       isChatStreaming := isChatStreaming s |}).

Definition setTaskScores (f : list Z -> list Z) : M unit :=
  modify (fun s =>
    {| interview := interview s; currentTask := currentTask s;
       taskNumber := taskNumber s; code := code s;
       chatMessages := chatMessages s; isLoading := isLoading s;
       hintsUsed := hintsUsed s; taskScores := f (taskScores s);
       loadingAction := loadingAction s; chatLoading := chatLoading s;
       isChatStreaming := isChatStreaming s |}).

Definition setLoadingAction (v : option LoadingAction.t) : M unit :=
  modify (fun s =>
    {| interview := interview s; currentTask := currentTask s;
       taskNumber := taskNumber s; code := code s;
       chatMessages := chatMessages s; isLoading := isLoading s;
       hintsUsed := hintsUsed s; taskScores := taskScores s;
       loadingAction := v; chatLoading := chatLoading s;
       isChatStreaming := isChatStreaming s |}).

Definition setChatLoading (v : bool) : M unit :=
  modify (fun s =>
    {| interview := interview s; currentTask := currentTask s;
       taskNumber := taskNumber s; code := code s;
       chatMessages := chatMessages s; isLoading := isLoading s;
       hintsUsed := hintsUsed s; taskScores := taskScores s;
       loadingAction := loadingAction s; chatLoading := v;
       isChatStreaming := isChatStreaming s |}).

Definition setIsChatStreaming (v : bool) : M unit :=
  modify (fun s =>
    {| interview := interview s; currentTask := currentTask s;
       taskNumber := taskNumber s; code := code s;
       chatMessages := chatMessages s; isLoading := isLoading s;
       hintsUsed := hintsUsed s; taskScores := taskScores s;
       loadingAction := loadingAction s; chatLoading := chatLoading s;
       isChatStreaming := v |}).

(** *** The helpers at the end of the file *)

(** [getDefaultCode]: the [switch] on the run-time string, with its
    [default] branch. *)
Definition getDefaultCode (language : string) : string :=
  if language =? "python" then
    "# Напишите ваше решение здесь" ++ LF ++ LF ++
    "def solution():" ++ LF ++ "    pass" ++ LF
  else if language =? "javascript" then
    "// Напишите ваше решение здесь" ++ LF ++ LF ++
    "function solution() {" ++ LF ++ "  " ++ LF ++ "}" ++ LF
  else if language =? "cpp" then
    "// Напишите ваше решение здесь" ++ LF ++ LF ++
    "#include <iostream>" ++ LF ++ "using namespace std;" ++ LF ++ LF ++
    "int main() {" ++ LF ++ "    " ++ LF ++ "    return 0;" ++ LF ++
    "}" ++ LF
  else "".

Definition getGreetingMessage (language : TaskLanguage) : string :=
  match language with
  | en =>
      "Hi! I'm your AI interviewer. Let's start with the first task. Feel free to ask me about the assignment or discuss your approach anytime."
  | ru =>
      "Привет! Я буду вашим AI-интервьюером. Давайте начнем с первого задания. Если хотите уточнить формулировку или обсудить подход — просто напишите мне."
  end.

(** [task && task.id && task.title]. *)
Definition valid_task (task : option Task.t) : bool :=
  match task with
  | Some t => truthy_string (Task.id t) && truthy_string (Task.title t)
  | None => false
  end.

(** [task.starter_code?.[language] || getDefaultCode(language)]. *)
Definition starter_or_default (task : Task.t)
    (language : ProgrammingLanguage) : string :=
  or_else
    (match Task.starter_code task with
     | Some table => assoc (language_tag language) table
     | None => None
     end)
    (getDefaultCode (language_tag language)).

(** [taskScores.length > 0
      ? taskScores.reduce((a, b) => a + b, 0) / taskScores.length
      : undefined], in the arithmetic of doubles. *)
Definition avgScore (taskScores : list Z) : option double :=
  match taskScores with
  | [] => None
  | _ :: _ =>
      Some (double_div
              (fold_left (fun a b => double_add a (double_of_Z b))
                 taskScores (double_of_Z 0))
              (double_of_Z (Z.of_nat (List.length taskScores))))
  end.

(** [updated[updated.length - 1] = m] on a copy of [prev]; on an empty
    array the assignment adds no element. *)
Fixpoint replace_last (prev : list ChatMessage.t) (m : ChatMessage.t)
    : list ChatMessage.t :=
  match prev with
  | [] => []
  | [_] => [m]
  | x :: rest => x :: replace_last rest m
  end.

(** *** The callbacks

    The values a callback closes over ([interview], [currentTask], [code],
    [taskNumber], [taskScores]) are those of the state it is called in.
    [console.log] calls are left out; [console.error] calls are kept, with
    their text and the caught error they print. *)

Section Callbacks.

Variable apiClient : client.

Definition generate_first_task (data : StartData)
    (result : InterviewState.t) : M unit :=
  try_catch
    (task <- await (api_generateTask apiClient
                      (InterviewState.interview_id result) 1%Z None) ;;
     match task with
     | Some t =>
         if valid_task task then
           setCurrentTask (Some t) ;;
           setCode (starter_or_default t (language data))
         else
           console_error
             [LText "[use-interview] Failed to generate task: task is null or invalid"] ;;
           setCode (getDefaultCode (language_tag (language data)))
     | None =>
         console_error
           [LText "[use-interview] Failed to generate task: task is null or invalid"] ;;
         setCode (getDefaultCode (language_tag (language data)))
     end)
    (fun error =>
       console_error
         [LText "[use-interview] Error generating first task:";
          LError error] ;;
       setCode (getDefaultCode (language_tag (language data)))).

Definition startInterview (data : StartData) : M InterviewState.t :=
  setIsLoading true ;;
  setLoadingAction (Some LoadingAction.start) ;;
  try_finally
    (try_catch
       (result <- await (api_startInterview apiClient data) ;;
        setInterview (Some result) ;;
        generate_first_task data result ;;
        setChatMessages (fun _ =>
          [ {| ChatMessage.role := assistant;
               ChatMessage.content :=
                 getGreetingMessage (task_language data) |} ]) ;;
        ret result)
       (fun error =>
          console_error [LText "Error starting interview:"; LError error] ;;
          throw error))
    (setIsLoading false ;;
     setLoadingAction None).

Definition submitCode : M (option SubmitResult) :=
  s <- read ;;
  match interview s, currentTask s with
  | Some interview, Some currentTask =>
      setIsLoading true ;;
      setLoadingAction (Some LoadingAction.submit) ;;
      try_finally
        (result <- await (api_submitCode apiClient
                            (InterviewState.interview_id interview)
                            (Task.id currentTask) (code s)
                            (InterviewState.language interview)) ;;
         setTaskScores (fun prev =>
           (prev ++ [evaluation_score result])%list) ;;
         ret (Some result))
        (setIsLoading false ;;
         setLoadingAction None)
  | _, _ => ret None
  end.

Definition runTests : M (option ExecutionResult.t) :=
  s <- read ;;
  match interview s, currentTask s with
  | Some interview, Some currentTask =>
      setIsLoading true ;;
      setLoadingAction (Some LoadingAction.tests) ;;
      try_finally
        (try_catch
           (result <- await (api_runTests apiClient
                               (InterviewState.interview_id interview)
                               (Task.id currentTask) (code s)
                               (InterviewState.language interview)) ;;
            ret (Some result))
           (fun error =>
              console_error [LText "Error running tests:"; LError error] ;;
              ret None))
        (setIsLoading false ;;
         setLoadingAction None)
  | _, _ =>
      console_error
        [LText "Cannot run tests: interview or task is missing"] ;;
      ret None
  end.

Definition getHint : M (option HintResult) :=
  s <- read ;;
  match interview s, currentTask s with
  | Some interview, Some currentTask =>
      setIsLoading true ;;
      setLoadingAction (Some LoadingAction.hint) ;;
      try_finally
        (try_catch
           (result <- await (api_getHint apiClient
                               (InterviewState.interview_id interview)
                               (Task.id currentTask) (code s)) ;;
            match result with
            | Some _ => setHintsUsed (fun prev => prev + 1)%Z
            | None => ret tt
            end ;;
            ret result)
           (fun error =>
              console_error [LText "Error getting hint:"; LError error] ;;
              ret None))
        (setIsLoading false ;;
         setLoadingAction None)
  | _, _ =>
      console_error
        [LText "Cannot get hint: interview or task is missing"] ;;
      ret None
  end.

Definition nextTask : M (option Task.t) :=
  s <- read ;;
  match interview s with
  | None => ret None
  | Some interview =>
      let nextNum := (taskNumber s + 1)%Z in
      if (nextNum >? InterviewState.total_tasks interview)%Z then ret None
      else
        setIsLoading true ;;
        setLoadingAction (Some LoadingAction.nextTask) ;;
        try_finally
          (try_catch
             (task <- await (api_generateTask apiClient
                               (InterviewState.interview_id interview)
                               nextNum (avgScore (taskScores s))) ;;
              match task with
              | Some t =>
                  if valid_task task then
                    setCurrentTask (Some t) ;;
                    setTaskNumber nextNum ;;
                    setCode
                      (starter_or_default t
                         (InterviewState.language interview)) ;;
                    ret (Some t)
                  else
                    console_error
                      [LText "[use-interview] Failed to generate task: task is null or invalid"] ;;
                    setCode
                      (getDefaultCode
                         (language_tag (InterviewState.language interview))) ;;
                    ret None
              | None =>
                  console_error
                    [LText "[use-interview] Failed to generate task: task is null or invalid"] ;;
                  setCode
                    (getDefaultCode
                       (language_tag (InterviewState.language interview))) ;;
                  ret None
              end)
             (fun error =>
                console_error
                  [LText "Error generating next task:"; LError error] ;;
                setCode
                  (getDefaultCode
                     (language_tag (InterviewState.language interview))) ;;
                ret None))
          (setIsLoading false ;;
           setLoadingAction None)
  end.

(** The [onChunk] callback, called once for each chunk in order;
    [assistantMessage] is the text accumulated so far. *)
Fixpoint on_chunks (assistantMessage : string) (chunks : list string)
    : M unit :=
  match chunks with
  | [] => ret tt
  | chunk :: rest =>
      let assistantMessage := assistantMessage ++ chunk in
      setChatMessages (fun prev =>
        replace_last prev
          {| ChatMessage.role := assistant;
             ChatMessage.content := assistantMessage |}) ;;
      on_chunks assistantMessage rest
  end.

Definition sendMessage (message : string) : M unit :=
  s <- read ;;
  match interview s with
  | None => ret tt
  | Some interview =>
      setChatMessages (fun prev =>
        (prev ++ [ {| ChatMessage.role := user;
                      ChatMessage.content := message |} ])%list) ;;
      setChatMessages (fun prev =>
        (prev ++ [ {| ChatMessage.role := assistant;
                      ChatMessage.content := "" |} ])%list) ;;
      setChatLoading true ;;
      setIsChatStreaming true ;;
      try_finally
        (let '(chunks, completed) :=
           api_sendChatMessage apiClient
             (InterviewState.interview_id interview) message "softskills"
             (option_map Task.id (currentTask s)) in
         on_chunks "" chunks ;;
         await completed)
        (setChatLoading false ;;
         setIsChatStreaming false)
  end.

Definition finishInterview : M (option FinishResult) :=
  s <- read ;;
  match interview s with
  | None => ret None
  | Some interview =>
      setIsLoading true ;;
      setLoadingAction (Some LoadingAction.finish) ;;
      try_finally
        (result <- await (api_finishInterview apiClient
                            (InterviewState.interview_id interview)) ;;
         ret (Some result))
        (setIsLoading false ;;
         setLoadingAction None)
  end.

(** *** The operations the hook returns *)

Inductive operation : Type :=
| StartInterview (data : StartData)
| SubmitCode
| RunTests
| GetHint
| NextTask
| SendMessage (message : string)
| FinishInterview
| SetCode (code : string).

(** The world after an operation has completed, whatever it returned or
    threw. *)
Definition after (op : operation) (w : world) : world :=
  match op with
  | StartInterview data => snd (startInterview data w)
  | SubmitCode => snd (submitCode w)
  | RunTests => snd (runTests w)
  | GetHint => snd (getHint w)
  | NextTask => snd (nextTask w)
  | SendMessage message => snd (sendMessage message w)
  | FinishInterview => snd (finishInterview w)
  | SetCode c => snd (setCode c w)
  end.

Definition is_start (op : operation) : bool :=
  match op with
  | StartInterview _ => true
  | _ => false
  end.

End Callbacks.

(** The task counter stays within the interview: at least 1 and, once an
    interview is there, at most its [total_tasks]. *)
Definition counter_in_range (s : state) : Prop :=
  (1 <= taskNumber s)%Z /\
  forall i, interview s = Some i ->
            (taskNumber s <= InterviewState.total_tasks i)%Z.

End UseInterview.

(* ===================================================================== *)
(** ** The code editor and its test panel *)
(* ===================================================================== *)

Module CodeEditor.

(** [languageMap]: the editor language of each programming language. *)
Definition languageMap (language : ProgrammingLanguage) : string :=
  match language with
  | python => "python"
  | javascript => "javascript"
  | cpp => "cpp"
  end.

(** The extension of the file name shown in the header:
    [language === "python" ? "py" : language === "javascript" ? "js"
    : "cpp"]. *)
Definition file_extension (language : string) : string :=
  if language =? "python" then "py"
  else if language =? "javascript" then "js"
  else "cpp".

(** The two state cells of the test panel, and the number of calls of
    [onRunTests] that were issued by [handleRunTests] and have not settled
    yet. *)
Record state : Set := {
  isRunning : bool;
  localTestResults : option ExecutionResult.t;
  in_flight : nat
}.

Definition initial : state :=
  {| isRunning := false; localTestResults := None; in_flight := 0 |}.

(** [handleRunTests], up to its [await]: the call is issued. *)
Definition handleRunTests_call (s : state) : state :=
  {| isRunning := true;
     localTestResults := None;
     in_flight := S (in_flight s) |}.

(** The result the [catch] block stores. *)
Definition failed_run : ExecutionResult.t :=
  {| ExecutionResult.success := Some false;
     ExecutionResult.output := None;
     ExecutionResult.error := Some "Ошибка при выполнении тестов";
     ExecutionResult.execution_time_ms := None;
     ExecutionResult.memory_used_mb := None;
     ExecutionResult.test_results := Some [] |}.

(** [handleRunTests], from its [await] on: the awaited call has settled
    with [c]. *)
Definition handleRunTests_settle
    (c : completion (option ExecutionResult.t)) (s : state) : state :=
  match in_flight s with
  | O => s
  | S n =>
      {| isRunning := false;
         localTestResults :=
           match c with
           | Return (Some results) => Some results
           | Return None => localTestResults s
           | Throw _ => Some failed_run
           end;
         in_flight := n |}
  end.

(** The controls of the panel that concern a test run.  The run button
    is disabled while [isLoading || isRunning]; the stop button is rendered
    while [isRunning] and its handler is [() => setIsRunning(false)]. *)
Inductive control : Set := RunButton | StopButton.

Definition press (isLoading : bool) (c : control) (s : state) : state :=
  match c with
  | RunButton =>
      if isLoading || isRunning s then s else handleRunTests_call s
  | StopButton =>
      if isRunning s then
        {| isRunning := false;
           localTestResults := localTestResults s;
           in_flight := in_flight s |}
      else s
  end.

(** [testResults || localTestResults]: what the panel displays. *)
Definition displayedResults (testResults : option ExecutionResult.t)
    (s : state) : option ExecutionResult.t :=
  match testResults with
  | Some r => Some r
  | None => localTestResults s
  end.

End CodeEditor.

(* ===================================================================== *)
(** ** The execution sandbox behind the run endpoint *)
(* ===================================================================== *)

Module Sandbox.

(** Modelled from the spec: the sandbox (Test Runner, Execution Engine and
    Engine Fallback Selector) is the server side of the run endpoint and
    is not part of the client sources; the data model follows section 3,
    the runner section 4.5, the response section 6 and the selector
    sections 4.4 and 5 of the specification. *)
Inductive Status : Set :=
| Success
| RuntimeError
| Timeout
| MemoryExceeded
| CompileError
| InternalError.

(** Modelled from the spec: section 3, [ResourceLimits]; networking is
    always disabled and the file system always ephemeral, so the record
    keeps the three ceilings. *)
Record ResourceLimits : Set := {
  wall_timeout : Z;
  memory_ceiling : Z;
  cpu_share : Z
}.

(** Modelled from the spec: section 3, [ExecutionRequest]. *)
Record ExecutionRequest : Set := {
  language : ProgrammingLanguage;
  source_code : string;
  stdin_or_args : option string;
  limits : ResourceLimits
}.

(** Modelled from the spec: section 3, [ExecutionResult]. *)
Record ExecutionResult : Set := {
  status : Status;
  stdout : string;
  stderr : string;
  exit_code : Z;
  duration_ms : Z;
  memory_used_mb : Z
}.

(** Modelled from the spec: section 6, a test case of the request. *)
Record TestCase : Set := {
  id : string;
  input : string;
  expected_output : string
}.

(** Modelled from the spec: section 3, [TestCaseResult], the full detail
    of one test case, kept inside the sandbox. *)
Record TestCaseResult : Set := {
  test_id : string;
  passed : bool;
  tc_input : string;
  tc_expected_output : string;
  actual_output : string;
  error : option string;
  tc_duration_ms : Z
}.

(** Modelled from the spec: equality of statuses. *)
Definition status_eqb (a b : Status) : bool :=
  match a, b with
  | Success, Success | RuntimeError, RuntimeError | Timeout, Timeout
  | MemoryExceeded, MemoryExceeded | CompileError, CompileError
  | InternalError, InternalError => true
  | _, _ => false
  end.

(** Modelled from the spec: what [execute] hands back (sections 4.4 and
    7), a final result or the distinct [EngineUnavailable] status. *)
Inductive outcome : Set :=
| Final (r : ExecutionResult)
| EngineUnavailable.

(** Modelled from the spec: section 7, the failures that originate from
    the infrastructure of the sandbox, [EngineUnavailable] and
    [InternalError]; the others originate from the code of the
    candidate. *)
Definition infrastructure (o : outcome) : bool :=
  match o with
  | EngineUnavailable => true
  | Final r => status_eqb (status r) InternalError
  end.

(** Modelled from the spec: section 7, the generic message that stands
    for every failure of the infrastructure in the result the candidate
    sees. *)
Definition service_unavailable : string := "execution service unavailable".

Section TestRunner.

(** Modelled from the spec: the Execution Engine behind the runner (its
    one invocation that compiles or prepares, and [execute]), and the
    comparison that decides whether a test case passed, which the
    specification leaves to the implementation. *)
Variable prepare : ProgrammingLanguage -> string -> outcome.
Variable execute : ExecutionRequest -> outcome.
Variable judge : TestCase -> ExecutionResult -> bool.

(** Modelled from the spec: the full result of a test case that was
    executed with final result [r]; the error shown is the standard error
    of the program. *)
Definition case_result (tc : TestCase) (r : ExecutionResult)
    : TestCaseResult :=
  {| test_id := id tc;
     passed := judge tc r;
     tc_input := input tc;
     tc_expected_output := expected_output tc;
     actual_output := stdout r;
     error := if status_eqb (status r) Success then None
              else Some (stderr r);
     tc_duration_ms := duration_ms r |}.

(** Modelled from the spec: a test case that is not executed is marked
    failed with the given message: the shared diagnostic of the compiler
    (section 4.5, step 1) or the generic message (section 7). *)
Definition not_run (message : string) (tc : TestCase) : TestCaseResult :=
  {| test_id := id tc;
     passed := false;
     tc_input := input tc;
     tc_expected_output := expected_output tc;
     actual_output := "";
     error := Some message;
     tc_duration_ms := 0 |}.

(** Modelled from the spec: steps 2 and 3 of the runner, one [execute]
    per test case with that case's input, in the order supplied.  A
    failure of the infrastructure aborts the remaining test cases at once
    (section 7): the case that met it and the cases after it are not run
    any further and carry the generic message, never the text of the
    failure.  The boolean tells whether the run was aborted. *)
Fixpoint run_cases (language : ProgrammingLanguage) (code : string)
    (limits : ResourceLimits) (tests : list TestCase)
    : list TestCaseResult * bool :=
  match tests with
  | [] => ([], false)
  | tc :: rest =>
      let o := execute {| language := language; source_code := code;
                          stdin_or_args := Some (input tc);
                          limits := limits |} in
      match o with
      | Final r =>
          if infrastructure o then
            (map (not_run service_unavailable) (tc :: rest), true)
          else
            let '(results, stopped) := run_cases language code limits rest in
            (case_result tc r :: results, stopped)
      | EngineUnavailable =>
          (map (not_run service_unavailable) (tc :: rest), true)
      end
  end.

(** Modelled from the spec: the results the runner keeps for scoring,
    visible and hidden, in the order the test cases were supplied
    (section 4.5).  A compile error fails every test case with the shared
    diagnostic and nothing is executed; the visible cases run before the
    hidden ones, and an abort among the visible cases leaves the hidden
    ones unrun. *)
Definition run_internal (code : string) (language : ProgrammingLanguage)
    (visible_tests hidden_tests : list TestCase) (limits : ResourceLimits)
    : list TestCaseResult * list TestCaseResult :=
  let prepared := prepare language code in
  match prepared with
  | Final r =>
      if infrastructure prepared then
        (map (not_run service_unavailable) visible_tests,
         map (not_run service_unavailable) hidden_tests)
      else if status_eqb (status r) CompileError then
        (map (not_run (stderr r)) visible_tests,
         map (not_run (stderr r)) hidden_tests)
      else
        let '(visible, stopped) :=
          run_cases language code limits visible_tests in
        if stopped then
          (visible, map (not_run service_unavailable) hidden_tests)
        else
          (visible, fst (run_cases language code limits hidden_tests))
  | EngineUnavailable =>
      (map (not_run service_unavailable) visible_tests,
       map (not_run service_unavailable) hidden_tests)
  end.

(** Modelled from the spec: the [status] of an entry is ["passed"] or
    ["failed"]. *)
Definition status_text (passed : bool) : json :=
  JStr (if passed then "passed" else "failed").

(** Modelled from the spec: a visible entry of the response carries the
    full detail of the case. *)
Definition visible_entry (r : TestCaseResult) : json :=
  JObj [ ("id", JStr (test_id r));
         ("status", status_text (passed r));
         ("input", JStr (tc_input r));
         ("expected_output", JStr (tc_expected_output r));
         ("actual_output", JStr (actual_output r));
         ("execution_time_ms", JNum (tc_duration_ms r));
         ("error", match error r with Some e => JStr e | None => JNull end) ].

(** Modelled from the spec: a hidden entry of the response carries the
    identifier, the status and the time only. *)
Definition hidden_entry (r : TestCaseResult) : json :=
  JObj [ ("id", JStr (test_id r));
         ("status", status_text (passed r));
         ("execution_time_ms", JNum (tc_duration_ms r)) ].

(** Modelled from the spec: the counts of the summary. *)
Definition count_passed (l : list TestCaseResult) : Z :=
  Z.of_nat (List.length (filter passed l)).

(** Modelled from the spec: the counts of the summary. *)
Definition count_failed (l : list TestCaseResult) : Z :=
  Z.of_nat (List.length (filter (fun r => negb (passed r)) l)).

(** Modelled from the spec: the [summary] member of the response. *)
Definition summary (visible hidden : list TestCaseResult) : json :=
  JObj [ ("visible_passed", JNum (count_passed visible));
         ("visible_failed", JNum (count_failed visible));
         ("hidden_passed", JNum (count_passed hidden));
         ("hidden_failed", JNum (count_failed hidden)) ].

(** Modelled from the spec: the [test_results] and [summary] members of
    the body the runner answers with (section 6); the [execution] member,
    the top-level outcome, is passed in. *)
Definition response_body (execution : json)
    (visible hidden : list TestCaseResult) : json :=
  JObj [ ("execution", execution);
         ("test_results",
          JObj [ ("visible", JArr (map visible_entry visible));
                 ("hidden", JArr (map hidden_entry hidden)) ]);
         ("summary", summary visible hidden) ].

(** Modelled from the spec: [run], as far as the response to the caller
    is concerned. *)
Definition run (execution : json) (code : string)
    (language : ProgrammingLanguage)
    (visible_tests hidden_tests : list TestCase) (limits : ResourceLimits)
    : json :=
  let '(visible, hidden) :=
    run_internal code language visible_tests hidden_tests limits in
  response_body execution visible hidden.

End TestRunner.


(** Modelled from the spec: the two isolation backends of section 4.4. *)
Inductive Backend : Set := Primary | Fallback.

(** Modelled from the spec: how a backend answers a connection attempt of
    the selector, on a logical clock: it accepts after some time, it
    refuses after some time (connection or version negotiation failure),
    or it never answers. *)
Inductive answer : Set :=
| Accepts (after : nat)
| Refuses (after : nat)
| Hangs.

(** Modelled from the spec: the state cell of the selector (sections 4.4
    and 9): the backend selected by the last probe, if it found one, the
    time of that probe, and the number of [InternalError]s the selected
    backend has answered in a row. *)
Record selector : Set := {
  selected : option Backend;
  probed_at : nat;
  failures : nat
}.

Section FallbackSelector.

(** Modelled from the spec: the state of the backends, what each of them
    computes for a request once reached, the engine-probe timeout of
    section 5, the interval for which a selection is cached and the
    number of consecutive [InternalError]s that trips the circuit breaker
    (section 4.4). *)
Variable answers : Backend -> answer.
Variable serve : Backend -> ExecutionRequest -> ExecutionResult.
Variable probe_timeout : nat.
Variable cache_interval : nat.
Variable breaker_threshold : nat.

(** Modelled from the spec: one connection attempt of a probe; it is
    abandoned at the probe timeout.  The result is whether the backend
    was reached and the time taken. *)
Definition attempt (a : answer) : bool * nat :=
  match a with
  | Accepts t =>
      if (t <=? probe_timeout)%nat then (true, t) else (false, probe_timeout)
  | Refuses t => (false, Nat.min t probe_timeout)
  | Hangs => (false, probe_timeout)
  end.

(** Modelled from the spec: a backend is reachable when it accepts a
    connection within the probe timeout. *)
Definition reachable (b : Backend) : bool := fst (attempt (answers b)).

(** Modelled from the spec: [probe].  The primary backend is preferred
    and the fallback is taken when the primary fails (section 4.4); the
    probe as a whole is held to the probe timeout (sections 5 and 8), so
    the attempt on the fallback runs against the same deadline as the one
    on the primary and a primary that hangs does not cost the fallback
    its turn.  The result is the selected backend, if any, and the time
    the probe took: the time of the primary when it is taken, the time it
    took both attempts to end otherwise. *)
Definition probe : option Backend * nat :=
  let '(reached1, t1) := attempt (answers Primary) in
  let '(reached2, t2) := attempt (answers Fallback) in
  if reached1 then (Some Primary, t1)
  else if reached2 then (Some Fallback, Nat.max t1 t2)
  else (None, Nat.max t1 t2).

(** Modelled from the spec: the cached selection is used while its
    interval lasts and the circuit breaker has not tripped. *)
Definition cached (sel : selector) (now : nat) : option Backend :=
  match selected sel with
  | Some b =>
      if (now <? probed_at sel + cache_interval)%nat
         && (failures sel <? breaker_threshold)%nat
      then Some b
      else None
  | None => None
  end.

(** Modelled from the spec: the circuit breaker counts the
    [InternalError]s the selected backend answers in a row. *)
Definition count (r : ExecutionResult) (sel : selector) : selector :=
  {| selected := selected sel;
     probed_at := probed_at sel;
     failures := if status_eqb (status r) InternalError
                 then S (failures sel) else 0%nat |}.

(** Modelled from the spec: a request served through a probe: the
    backend the probe selects serves it and is cached from then on; when
    the probe finds none the request fails with [EngineUnavailable] and
    nothing is cached, so that the next request probes again. *)
Definition through_probe (now : nat) (request : ExecutionRequest)
    : outcome * nat * selector :=
  match probe with
  | (Some b, t) =>
      let r := serve b request in
      (Final r, t,
       count r {| selected := Some b; probed_at := (now + t)%nat;
                  failures := 0%nat |})
  | (None, t) =>
      (EngineUnavailable, t,
       {| selected := None; probed_at := (now + t)%nat;
          failures := 0%nat |})
  end.

(** Modelled from the spec: a request dispatched to a backend.  A
    backend that can be reached serves it; otherwise the dispatch fails
    with the transient engine-unreachable error of section 4.3
    ([None]). *)
Definition dispatch (b : Backend) (request : ExecutionRequest)
    : option ExecutionResult :=
  if reachable b then Some (serve b request) else None.

(** Modelled from the spec: [execute] above the selector, for a request
    issued at time [now].  A cached selection is used without a probe;
    when the dispatch to it fails because the backend cannot be reached
    any more, the request is retried once through the selector (section
    4.3), which probes again.  Without a usable cached selection the
    selector probes first.  The result comes with the time the selector
    spent probing for the request, and with the selector afterwards; what
    a backend spends on a dispatch is not on this clock. *)
Definition execute (sel : selector) (now : nat) (request : ExecutionRequest)
    : outcome * nat * selector :=
  match cached sel now with
  | Some b =>
      match dispatch b request with
      | Some r => (Final r, 0%nat, count r sel)
      | None => through_probe now request
      end
  | None => through_probe now request
  end.

End FallbackSelector.

End Sandbox.

(* ===================================================================== *)
(** * Statements and sample data *)
(* ===================================================================== *)

Module Statements.

(** ** The request of a test run *)

(** What it takes for a request to come with resource limits. *)
Definition carries_limits (r : request) : Prop :=
  has_key "timeout_seconds" (body r) = true /\
  has_key "memory_limit_mb" (body r) = true.

(** ** The type of the value a test run returns *)

(** The properties of an interface, of the interfaces its properties refer
    to, and so on; [depth] bounds the number of array and reference steps
    that are followed. *)
Fixpoint properties_within (depth : nat) (t : ts_type) : list property :=
  match depth with
  | O => []
  | S depth' =>
      match t with
      | TBoolean | TNumber | TString => []
      | TArray elem => properties_within depth' elem
      | TRef name =>
          match interface name with
          | Some decl =>
              decl ++
              flat_map (fun p => properties_within depth' (ptype p)) decl
          | None => []
          end
      end
  end%list.

Definition declares (names : list string) (t : ts_type) : bool :=
  existsb (fun p => existsb (String.eqb (pname p)) names)
          (properties_within 4 t).

(** The shape of an aggregate report: a part for the visible results, a
    part for the hidden ones and a summary of counts, under the names the
    specification gives them in its data model or in its response. *)
Definition has_visible_hidden_split (t : ts_type) : bool :=
  declares ["visible_results"; "visible"] t &&
  declares ["hidden_summary"; "hidden"] t &&
  declares ["summary"; "hidden_summary"] t.

Definition is_array (t : ts_type) : bool :=
  match t with
  | TArray _ => true
  | _ => false
  end.

(** ** The supported languages *)

Definition all_languages : list ProgrammingLanguage :=
  [python; javascript; cpp].

(** ** The terminal text of one test case, as the claim words it *)

Definition status_line (test : TestResult.t) : string :=
  if TestResult.passed test then
    ESC ++ "[32m✓ Test " ++ number_to_string (TestResult.test_number test)
        ++ ": PASSED" ++ ESC ++ "[0m" ++ LF
  else
    ESC ++ "[31m✗ Test " ++ number_to_string (TestResult.test_number test)
        ++ ": FAILED" ++ ESC ++ "[0m" ++ LF.

(** A detail line, present only for a value that is a non-empty string. *)
Definition detail_line (label : string) (value : option string) : string :=
  match value with
  | Some v => if v =? "" then "" else "  " ++ label ++ ": " ++ v ++ LF
  | None => ""
  end.

Definition time_line (test : TestResult.t) : string :=
  if (TestResult.execution_time_ms test =? 0)%Z then ""
  else "  Time: " ++
       number_to_string (TestResult.execution_time_ms test) ++ "ms" ++ LF.

Definition test_block (test : TestResult.t) : string :=
  if TestResult.passed test then status_line test ++ time_line test
  else
    status_line test ++
    detail_line "Input" (Some (TestResult.input test)) ++
    detail_line "Expected" (Some (TestResult.expected test)) ++
    detail_line "Actual" (Some (TestResult.actual test)) ++
    detail_line "Error" (TestResult.error test) ++
    time_line test.

(** The blocks of all test cases, one after the other. *)
Definition test_blocks (tests : list TestResult.t) : string :=
  fold_right String.append "" (map test_block tests).

(** What surrounds the test blocks in the terminal text. *)
Definition preamble (r : ExecutionResult.t) : string :=
  (if truthy_opt (ExecutionResult.error r)
   then ESC ++ "[31mError: " ++ text_of (ExecutionResult.error r) ++
        ESC ++ "[0m" ++ LF
   else "") ++
  (if truthy_opt (ExecutionResult.output r)
   then text_of (ExecutionResult.output r)
   else "").

Definition results_heading (r : ExecutionResult.t) : string :=
  match ExecutionResult.test_results r with
  | Some (_ :: _) => LF ++ LF ++ "=== Test Results ===" ++ LF
  | _ => ""
  end.

Definition tests_of (r : ExecutionResult.t) : list TestResult.t :=
  match ExecutionResult.test_results r with
  | Some l => l
  | None => []
  end.

Definition verdict (r : ExecutionResult.t) : string :=
  match ExecutionResult.success r with
  | Some true =>
      LF ++ LF ++ ESC ++ "[32mOverall: SUCCESS" ++ ESC ++ "[0m" ++ LF
  | Some false =>
      LF ++ LF ++ ESC ++ "[31mOverall: FAILED" ++ ESC ++ "[0m" ++ LF
  | None => ""
  end.

(** ** The hook *)

Import UseInterview.

(** The cells the range of the task counter is about. *)
Definition counter_cells (s : state)
    : option InterviewState.t * Z * option Task.t :=
  (interview s, taskNumber s, currentTask s).

(** ** The response of the runner *)





(** ** The test panel of the editor *)

Import CodeEditor.

(** Some control of the panel ends a call that is in flight. *)
Definition cancellable (s : CodeEditor.state) : Prop :=
  exists (isLoading : bool) (c : control),
    (in_flight (press isLoading c s) < in_flight s)%nat.

(** Pressing controls one after the other; each comes with the value of
    the [isLoading] prop at that time. *)
Definition press_all (presses : list (bool * control))
    (s : CodeEditor.state) : CodeEditor.state :=
  fold_left (fun s p => press (fst p) (snd p) s) presses s.

End Statements.

Module Samples.

Import UseInterview.

(** A client without network: every call is rejected as [fetch] rejects
    when the server cannot be reached. *)
Definition failed_to_fetch : error :=
  {| name := "TypeError"; message := "Failed to fetch" |}.

Definition offline : client :=
  {| api_startInterview := fun _ => Throw failed_to_fetch;
     api_generateTask := fun _ _ _ => Throw failed_to_fetch;
     api_submitCode := fun _ _ _ _ => Throw failed_to_fetch;
     api_runTests := fun _ _ _ _ => Throw failed_to_fetch;
     api_getHint := fun _ _ _ => Throw failed_to_fetch;
     api_sendChatMessage := fun _ _ _ _ => ([], Throw failed_to_fetch);
     api_finishInterview := fun _ => Throw failed_to_fetch |}.

(** The client whose [runTests] is the one of lib/api-client.ts over a
    given [fetch]. *)
Definition over (fetch : request -> completion (response ExecutionResult.t))
    : client :=
  {| api_startInterview := api_startInterview offline;
     api_generateTask := api_generateTask offline;
     api_submitCode := api_submitCode offline;
     api_runTests := ApiClient.runTests None fetch;
     api_getHint := api_getHint offline;
     api_sendChatMessage := api_sendChatMessage offline;
     api_finishInterview := api_finishInterview offline |}.

(** A server that answers every request with status 500 and a trace. *)
Definition internal_server_error : response ExecutionResult.t :=
  {| ok := false;
     status := 500;
     text := "Traceback (most recent call last): File runner.py, line 88, in execute: docker.errors.DockerException";
     parsed := None |}.

Definition broken_server (_ : request)
    : completion (response ExecutionResult.t) :=
  Return internal_server_error.

Definition interview_1 (total : Z) : InterviewState.t :=
  {| InterviewState.interview_id := "interview-1";
     InterviewState.status := "in_progress";
     InterviewState.current_task := 1;
     InterviewState.total_tasks := total;
     InterviewState.direction := backend;
     InterviewState.language := python;
     InterviewState.task_language := en;
     InterviewState.difficulty := easy;
     InterviewState.started_at := "2025-01-01T00:00:00Z" |}.

Definition task_1 : Task.t :=
  {| Task.id := "task-1";
     Task.title := "Factorial";
     Task.description := "Compute n!";
     Task.task_type := algorithm;
     Task.difficulty := easy;
     Task.examples := [];
     Task.constraints := None;
     Task.time_limit_minutes := 15;
     Task.starter_code := None |}.

Definition candidate : StartData :=
  {| candidate_name := "Ada";
     candidate_email := "ada@example.org";
     direction := backend;
     language := python;
     difficulty := easy;
     task_language := en;
     use_task_bank := None |}.

(** The hook with an interview of [total] tasks and its first task. *)
Definition working (total : Z) : state :=
  {| interview := Some (interview_1 total);
     currentTask := Some task_1;
     taskNumber := 1;
     code := "print(input())";
     chatMessages := [];
     isLoading := false;
     hintsUsed := 0;
     taskScores := [];
     loadingAction := None;
     chatLoading := false;
     isChatStreaming := false |}.

(** A server that starts an interview of [total] tasks and has no task to
    hand out. *)
Definition starts_with (total : Z) : client :=
  {| api_startInterview := fun _ => Return (interview_1 total);
     api_generateTask := fun _ _ _ => Throw failed_to_fetch;
     api_submitCode := fun _ _ _ _ => Throw failed_to_fetch;
     api_runTests := fun _ _ _ _ => Throw failed_to_fetch;
     api_getHint := fun _ _ _ => Throw failed_to_fetch;
     api_sendChatMessage := fun _ _ _ _ => ([], Throw failed_to_fetch);
     api_finishInterview := fun _ => Throw failed_to_fetch |}.

(** A server that hands out [task_1] for every task number. *)
Definition serving : client :=
  {| api_startInterview := fun _ => Return (interview_1 3);
     api_generateTask := fun _ _ _ => Return (Some task_1);
     api_submitCode := fun _ _ _ _ => Throw failed_to_fetch;
     api_runTests := fun _ _ _ _ => Throw failed_to_fetch;
     api_getHint := fun _ _ _ => Throw failed_to_fetch;
     api_sendChatMessage := fun _ _ _ _ => ([], Throw failed_to_fetch);
     api_finishInterview := fun _ => Throw failed_to_fetch |}.

(** A result of a test run. *)
Definition all_passed : ExecutionResult.t :=
  {| ExecutionResult.success := Some true;
     ExecutionResult.output := None;
     ExecutionResult.error := None;
     ExecutionResult.execution_time_ms := Some 12%Z;
     ExecutionResult.memory_used_mb := Some 20%Z;
     ExecutionResult.test_results :=
       Some [ {| TestResult.test_number := 1;
                 TestResult.passed := true;
                 TestResult.input := "5";
                 TestResult.expected := "120";
                 TestResult.actual := "120";
                 TestResult.error := None;
                 TestResult.execution_time_ms := 12 |} ] |}.















End Samples.

(* ===================================================================== *)
(** * The rest of the client *)
(* ===================================================================== *)

(* ===================================================================== *)
(** ** lib/api-client.ts: the other methods of [apiClient] *)
(* ===================================================================== *)

Module ApiCalls.

Import UseInterview.

(** The object [generateTask] serialises as the body of its request;
    [JSON.stringify] leaves [previous_performance] out when it is
    [undefined]. *)
Record generateTask_body : Set := {
  gt_interview_id : string;
  gt_task_number : Z;
  gt_previous_performance : option double
}.

(** [JSON.stringify(data)] of [startInterview]. *)
Definition direction_tag (d : InterviewDirection) : string :=
  match d with
  | frontend => "frontend"
  | backend => "backend"
  | fullstack => "fullstack"
  | data_science => "data_science"
  | devops => "devops"
  end.

Definition difficulty_tag (d : Difficulty) : string :=
  match d with
  | easy => "easy"
  | medium => "medium"
  | hard => "hard"
  end.

Definition task_language_tag (l : TaskLanguage) : string :=
  match l with
  | ru => "ru"
  | en => "en"
  end.

Definition startInterview_body (data : StartData) : json :=
  JObj ([ ("candidate_name", JStr (candidate_name data));
          ("candidate_email", JStr (candidate_email data));
          ("direction", JStr (direction_tag (direction data)));
          ("language", JStr (language_tag (language data)));
          ("difficulty", JStr (difficulty_tag (difficulty data)));
          ("task_language", JStr (task_language_tag (task_language data))) ]
        ++ match use_task_bank data with
           | Some b => [("use_task_bank", JBool b)]
           | None => []
           end)%list.

(** A POST of a JSON body, as every method but the two GETs issues it. *)
Definition post (NEXT_PUBLIC_API_URL : option string) (path : string)
    (body : json) : request :=
  {| url := API_BASE NEXT_PUBLIC_API_URL ++ path;
     method := "POST";
     headers := [("Content-Type", "application/json")];
     body := body;
     signal := None |}.

(** A [fetch] with a URL only. *)
Definition get_request (NEXT_PUBLIC_API_URL : option string) (path : string)
    : request :=
  {| url := API_BASE NEXT_PUBLIC_API_URL ++ path;
     method := "GET";
     headers := [];
     body := JNull;
     signal := None |}.

(** The body of a chat response as the reader hands it out: the texts
    [decoder.decode(value)] of the chunks read before [done], and how the
    reading ends ([Throw] when a [read()] is rejected). *)
Definition stream : Type := list string * completion unit.

(** What [sendChatMessage] reads of a response: [res.ok] and
    [res.body?.getReader()] ([None] when there is no body). *)
Record stream_response : Type := {
  stream_ok : bool;
  stream_body : option stream
}.

Section Methods.

Variable NEXT_PUBLIC_API_URL : option string.

Definition startInterview
    (fetch : request -> completion (response InterviewState.t))
    (data : StartData) : completion InterviewState.t :=
  match fetch (post NEXT_PUBLIC_API_URL "/api/interview/start"
                 (startInterview_body data)) with
  | Throw e => Throw e
  | Return res =>
      if negb (ok res) then Throw (Error "Failed to start interview")
      else json_of res
  end.

(** [generateTask]; the payload of the response may be [null] ([Some
    None]).  The result comes with the [console.error] calls made on the
    way. *)
Definition generateTask
    (fetch : string -> generateTask_body ->
             completion (response (option Task.t)))
    (interview_id : string) (task_number : Z)
    (previous_performance : option double) : completion Task.t * console :=
  match fetch (API_BASE NEXT_PUBLIC_API_URL ++ "/api/interview/generate-task")
          {| gt_interview_id := interview_id;
             gt_task_number := task_number;
             gt_previous_performance := previous_performance |} with
  | Throw e => (Throw e, [])
  | Return res =>
      if negb (ok res) then
        let errorText := text res in
        (Throw (Error ("Failed to generate task: " ++
                       number_to_string (status res) ++ " " ++ errorText)),
         [[LText "[API] Failed to generate task:";
           LText (number_to_string (status res)); LText errorText]])
      else
        match json_of res with
        | Throw e => (Throw e, [])
        | Return None =>
            (Throw (Error "Empty response from generate task"),
             [[LText "[API] Empty response from generate task"]])
        | Return (Some data) =>
            if negb (truthy_string (Task.id data)) ||
               negb (truthy_string (Task.title data))
            then
              (Throw (Error "Invalid task data: missing id or title"),
               [[LText "[API] Invalid task data:"]])
            else (Return data, [])
        end
  end.

Definition submitCode
    (fetch : request -> completion (response SubmitResult))
    (interview_id task_id code : string) (language : ProgrammingLanguage)
    : completion SubmitResult :=
  match fetch (post NEXT_PUBLIC_API_URL "/api/interview/submit-code"
                 (JObj [ ("interview_id", JStr interview_id);
                         ("task_id", JStr task_id);
                         ("code", JStr code);
                         ("language", JStr (language_tag language)) ])) with
  | Throw e => Throw e
  | Return res =>
      if negb (ok res) then Throw (Error "Failed to submit code")
      else json_of res
  end.

Definition getHint
    (fetch : request -> completion (response (option HintResult)))
    (interview_id task_id code : string) : completion (option HintResult) :=
  match fetch (post NEXT_PUBLIC_API_URL "/api/interview/hint"
                 (JObj [ ("interview_id", JStr interview_id);
                         ("task_id", JStr task_id);
                         ("code", JStr code) ])) with
  | Throw e => Throw e
  | Return res =>
      if negb (ok res) then Throw (Error "Failed to get hint")
      else json_of res
  end.

(** [reportAntiCheatEvent]: the response is awaited and not looked at. *)
Definition reportAntiCheatEvent {P : Type}
    (fetch : request -> completion (response P))
    (interview_id event_type : string) (details : option json)
    : completion unit :=
  match fetch (post NEXT_PUBLIC_API_URL "/api/interview/anti-cheat-event"
                 (JObj ([ ("interview_id", JStr interview_id);
                          ("event_type", JStr event_type) ]
                        ++ match details with
                           | Some d => [("details", d)]
                           | None => []
                           end)%list)) with
  | Throw e => Throw e
  | Return _ => Return tt
  end.

Definition finishInterview
    (fetch : request -> completion (response FinishResult))
    (interview_id : string) : completion FinishResult :=
  match fetch (post NEXT_PUBLIC_API_URL "/api/interview/finish"
                 (JObj [ ("interview_id", JStr interview_id) ])) with
  | Throw e => Throw e
  | Return res =>
      if negb (ok res) then Throw (Error "Failed to finish interview")
      else json_of res
  end.

Definition getInterviewFeedback {P : Type}
    (fetch : request -> completion (response P)) (interview_id : string)
    : completion P :=
  match fetch (get_request NEXT_PUBLIC_API_URL
                 ("/api/interview/feedback/" ++ interview_id)) with
  | Throw e => Throw e
  | Return res =>
      if negb (ok res) then Throw (Error "Failed to get feedback")
      else json_of res
  end.

Definition getInterviewStatus {P : Type}
    (fetch : request -> completion (response P)) (interview_id : string)
    : completion P :=
  match fetch (get_request NEXT_PUBLIC_API_URL
                 ("/api/interview/status/" ++ interview_id)) with
  | Throw e => Throw e
  | Return res =>
      if negb (ok res) then Throw (Error "Failed to get status")
      else json_of res
  end.

(** *** The reader of the chat stream *)

(** [JSON.parse(data).content] when [data] parses and the member is
    truthy; [None] when [JSON.parse] throws or the member is falsy (the
    [catch {}] and the [if] of the source). *)
Variable content_of : string -> option string.

(** [text.split("\n")]: the pieces between the line feeds, at least one. *)
Fixpoint split_lines (text : string) : list string :=
  match text with
  | EmptyString => [""]
  | String c rest =>
      if Ascii.eqb c (ascii_of_nat 10) then "" :: split_lines rest
      else
        match split_lines rest with
        | [] => [String c ""]
        | line :: lines => String c line :: lines
        end
  end.

(** [line.slice(6)]. *)
Definition slice6 (line : string) : string :=
  substring 6 (String.length line - 6) line.

(** The [for] loop over the lines of one decoded chunk: the contents
    handed to [onChunk], in order.  [break] leaves the loop at the line
    [data: [DONE]]. *)
Fixpoint read_lines (lines : list string) : list string :=
  match lines with
  | [] => []
  | line :: rest =>
      if prefix "data: " line then
        let data := slice6 line in
        if data =? "[DONE]" then []
        else
          match content_of data with
          | Some content => content :: read_lines rest
          | None => read_lines rest
          end
      else read_lines rest
  end.

(** The [while (true)] loop: every decoded chunk is split and read. *)
Definition read_stream (texts : list string) : list string :=
  flat_map (fun text => read_lines (split_lines text)) texts.

(** [sendChatMessage]: the contents handed to [onChunk] and the
    completion of the call. *)
Definition sendChatMessage
    (fetch : request -> completion stream_response)
    (interview_id message context : string) (task_id : option string)
    : list string * completion unit :=
  match fetch (post NEXT_PUBLIC_API_URL "/api/interview/chat"
                 (JObj ([ ("interview_id", JStr interview_id);
                          ("message", JStr message);
                          ("context", JStr context) ]
                        ++ match task_id with
                           | Some t => [("task_id", JStr t)]
                           | None => []
                           end)%list)) with
  | Throw e => ([], Throw e)
  | Return res =>
      if negb (stream_ok res) then
        ([], Throw (Error "Failed to send message"))
      else
        match stream_body res with
        | None => ([], Return tt)
        | Some (texts, ending) => (read_stream texts, ending)
        end
  end.

End Methods.

(** The [apiClient] object over the network: what the hook imports. *)
Record network : Type := {
  fetch_start : request -> completion (response InterviewState.t);
  fetch_task :
    string -> generateTask_body -> completion (response (option Task.t));
  fetch_submit : request -> completion (response SubmitResult);
  fetch_run : request -> completion (response ExecutionResult.t);
  fetch_hint : request -> completion (response (option HintResult));
  fetch_chat : request -> completion stream_response;
  fetch_finish : request -> completion (response FinishResult);
  parse_content : string -> option string
}.

Definition apiClient (NEXT_PUBLIC_API_URL : option string) (net : network)
    : client :=
  {| api_startInterview :=
       startInterview NEXT_PUBLIC_API_URL (fetch_start net);
     api_generateTask := fun interview_id task_number previous =>
       match fst (generateTask NEXT_PUBLIC_API_URL (fetch_task net)
                    interview_id task_number previous) with
       | Return data => Return (Some data)
       | Throw e => Throw e
       end;
     api_submitCode := submitCode NEXT_PUBLIC_API_URL (fetch_submit net);
     api_runTests := ApiClient.runTests NEXT_PUBLIC_API_URL (fetch_run net);
     api_getHint := getHint NEXT_PUBLIC_API_URL (fetch_hint net);
     api_sendChatMessage :=
       sendChatMessage NEXT_PUBLIC_API_URL (parse_content net)
         (fetch_chat net);
     api_finishInterview :=
       finishInterview NEXT_PUBLIC_API_URL (fetch_finish net) |}.

End ApiCalls.

(* ===================================================================== *)
(** ** hooks/use-anti-cheat.ts *)
(* ===================================================================== *)

Module UseAntiCheat.

(** *** Strings, as the hook measures them

    A [string] holds the UTF-8 bytes of a JS string.  [text.length] counts
    UTF-16 code units: one for every character of one to three bytes, two
    for a character of four bytes, none for a continuation byte. *)
Definition code_units (c : ascii) : nat :=
  let n := nat_of_ascii c in
  if (n <? 128)%nat then 1%nat
  else if (n <? 192)%nat then 0%nat
  else if (n <? 240)%nat then 1%nat
  else 2%nat.

Fixpoint js_length (text : string) : nat :=
  match text with
  | EmptyString => 0%nat
  | String c rest => (code_units c + js_length rest)%nat
  end.

(** [(text.match(/\n/g) || []).length]. *)
Fixpoint line_feeds (text : string) : nat :=
  match text with
  | EmptyString => 0%nat
  | String c rest =>
      ((if Ascii.eqb c (ascii_of_nat 10) then 1 else 0) + line_feeds rest)%nat
  end.

(** [text.includes(part)]. *)
Fixpoint includes (part text : string) : bool :=
  prefix part text ||
  match text with
  | EmptyString => false
  | String _ rest => includes part rest
  end.

(** The alternatives of the regular expression of [checkPaste]. *)
Definition code_markers : list string :=
  ["```"; "def "; "function "; "class "; "import "; "from "; "#include"].

Definition hasCodeMarkers (text : string) : bool :=
  existsb (fun marker => includes marker text) code_markers.

(** *** The refs and the configuration of the hook *)

Record change : Set := {
  timestamp : Z;
  size : Z;
  lines : Z
}.

Record refs : Set := {
  lastPasteLength : Z;
  tabSwitchCount : Z;
  pasteHistory : list (string * Z);
  codeChangeHistory : list change
}.

Definition initial : refs :=
  {| lastPasteLength := 0;
     tabSwitchCount := 0;
     pasteHistory := [];
     codeChangeHistory := [] |}.

Record config : Set := {
  interviewId : string;
  enabled : bool
}.

(** An event handed to [apiClient.reportAntiCheatEvent]. *)
Definition report : Type := string * option json.

(** [reportEvent], as the handlers use it (they do not await it): the
    call of the client it issues, none when the hook is disabled or has
    no interview. *)
Definition reportEvent (cfg : config) (eventType : string)
    (details : option json) : list report :=
  if negb (enabled cfg) || negb (truthy_string (interviewId cfg)) then []
  else [(eventType, details)].

(** [reportEvent], awaited: how it completes and what it logs, given the
    method of the client. *)
Definition reportEvent_awaited
    (reportAntiCheatEvent : string -> string -> option json ->
                            completion unit)
    (cfg : config) (eventType : string) (details : option json)
    : completion unit * console :=
  if negb (enabled cfg) || negb (truthy_string (interviewId cfg))
  then (Return tt, [])
  else
    match reportAntiCheatEvent (interviewId cfg) eventType details with
    | Return _ => (Return tt, [])
    | Throw error =>
        (Return tt,
         [[LText "Failed to report anti-cheat event:"; LError error]])
    end.

(** *** The handlers

    [Date.now()] is a parameter: [now k] is what the call number [k] of
    one run of a handler returns. *)

Definition handleVisibilityChange (cfg : config) (hidden : bool) (r : refs)
    : refs * list report :=
  if hidden then
    let count := (tabSwitchCount r + 1)%Z in
    ({| lastPasteLength := lastPasteLength r;
        tabSwitchCount := count;
        pasteHistory := pasteHistory r;
        codeChangeHistory := codeChangeHistory r |},
     reportEvent cfg "tab_switch" (Some (JObj [("count", JNum count)])))
  else (r, []).

Definition checkDevTools (cfg : config)
    (outerWidth innerWidth outerHeight innerHeight : Z) : list report :=
  let widthThreshold := (outerWidth - innerWidth >? 160)%Z in
  let heightThreshold := (outerHeight - innerHeight >? 160)%Z in
  if widthThreshold || heightThreshold
  then reportEvent cfg "devtools_open" None
  else [].

(** [array.filter(p => Date.now() - p.timestamp < window)]: one call of
    [Date.now()] for each element, starting with call number [k]. *)
Fixpoint recent {A : Type} (stamp : A -> Z) (window : Z) (now : nat -> Z)
    (k : nat) (history : list A) : list A :=
  match history with
  | [] => []
  | x :: rest =>
      if (now k - stamp x <? window)%Z
      then x :: recent stamp window now (S k) rest
      else recent stamp window now (S k) rest
  end.

Definition checkPaste (cfg : config) (now : nat -> Z) (text : string)
    (r : refs) : refs * list report :=
  let length := Z.of_nat (js_length text) in
  let lineCount := Z.of_nat (line_feeds text) in
  let details :=
    JObj [ ("characters", JNum length);
           ("lines", JNum lineCount);
           ("has_code_markers", JBool (hasCodeMarkers text));
           ("timestamp", JNum (now 0%nat)) ] in
  let '(lastPaste, first) :=
    if (length >? 200)%Z then
      (length, reportEvent cfg "large_paste" (Some details))
    else if (length >? 50)%Z && hasCodeMarkers text then
      (lastPasteLength r, reportEvent cfg "copy_paste" (Some details))
    else (lastPasteLength r, []) in
  let history := (pasteHistory r ++ [(text, now 1%nat)])%list in
  let recentPastes := recent snd 60000%Z now 2%nat history in
  let count := Z.of_nat (List.length recentPastes) in
  ({| lastPasteLength := lastPaste;
      tabSwitchCount := tabSwitchCount r;
      pasteHistory := history;
      codeChangeHistory := codeChangeHistory r |},
   (first ++
    if (count >? 5)%Z then
      reportEvent cfg "frequent_paste"
        (Some (JObj [ ("count", JNum count);
                      ("time_window_ms", JNum 60000) ]))
    else [])%list).

Definition change_json (c : change) : json :=
  JObj [ ("timestamp", JNum (timestamp c));
         ("size", JNum (size c));
         ("lines", JNum (lines c)) ].

(** [history.slice(-10)]. *)
Definition last10 {A : Type} (history : list A) : list A :=
  skipn (List.length history - 10) history.

Definition trackCodeChange (cfg : config) (now : nat -> Z)
    (oldCode newCode : string) (r : refs) : refs * list report :=
  if negb (enabled cfg) || negb (truthy_string (interviewId cfg))
  then (r, [])
  else
    let diff :=
      (Z.of_nat (js_length newCode) - Z.of_nat (js_length oldCode))%Z in
    let oldLines := Z.of_nat (line_feeds oldCode) in
    let newLines := Z.of_nat (line_feeds newCode) in
    let linesDiff := (newLines - oldLines)%Z in
    let change :=
      {| timestamp := now 0%nat; size := diff; lines := linesDiff |} in
    let pushed := (codeChangeHistory r ++ [change])%list in
    let '(history, first) :=
      if (10 <=? List.length pushed)%nat then
        ([],
         reportEvent cfg "code_change_timestamp"
           (Some (JObj [("changes",
                         JArr (map change_json (last10 pushed)))])))
      else (pushed, []) in
    let recentChanges := recent timestamp 5000%Z now 1%nat history in
    let totalLines :=
      fold_left (fun sum c => (sum + Z.abs (lines c))%Z) recentChanges 0%Z in
    ({| lastPasteLength := lastPasteLength r;
        tabSwitchCount := tabSwitchCount r;
        pasteHistory := pasteHistory r;
        codeChangeHistory := history |},
     (first ++
      if (totalLines >? 50)%Z then
        reportEvent cfg "large_code_change"
          (Some (JObj [ ("lines", JNum totalLines);
                        ("time_window_ms", JNum 5000);
                        ("changes", JArr (map change_json recentChanges)) ]))
      else [])%list).

(** *** The watch on the network *)

Definition suspiciousDomains : list string :=
  [ "openai.com"; "anthropic.com"; "google.com/ai";
    "claude.ai"; "chatgpt.com"; "copilot.github.com";
    "zoom.us"; "teams.microsoft.com"; "meet.google.com";
    "discord.com"; "telegram.org" ].

Definition isSuspicious (url : string) : bool :=
  existsb (fun domain => includes domain url) suspiciousDomains.

Definition serviceType (url : string) : string :=
  if includes "zoom" url || includes "teams" url || includes "meet" url
  then "call_service_request"
  else "ai_service_request".

(** The replacement of [window.fetch]: the original fetch is awaited
    first; when it returns, a suspicious URL is reported and the result
    is handed on. *)
Definition watched_fetch {R : Type} (cfg : config)
    (originalFetch : string -> completion R) (url : string)
    : completion R * list report :=
  match originalFetch url with
  | Throw e => (Throw e, [])
  | Return result =>
      (Return result,
       if isSuspicious url then
         reportEvent cfg (serviceType url)
           (Some (JObj [("url", JStr url); ("method", JStr "fetch")]))
       else [])
  end.

(** The replacement of [window.open]: it returns [null] ([None]), for
    every URL. *)
Definition watched_open {W : Type} (cfg : config) (url : string)
    : option W * list report :=
  (None,
   if isSuspicious url then
     reportEvent cfg "external_service_request"
       (Some (JObj [("url", JStr url); ("method", JStr "window.open")]))
   else []).

(** *** The effects

    Both effects of the hook return at once when it is not [enabled]: the
    listeners and the replacements of [window.fetch] and [window.open]
    exist for an enabled hook only; otherwise the page keeps the
    originals. *)

Definition on_visibilitychange (cfg : config) (hidden : bool) (r : refs)
    : refs * list report :=
  if enabled cfg then handleVisibilityChange cfg hidden r else (r, []).

Definition on_interval (cfg : config)
    (outerWidth innerWidth outerHeight innerHeight : Z) : list report :=
  if enabled cfg
  then checkDevTools cfg outerWidth innerWidth outerHeight innerHeight
  else [].

Definition window_fetch {R : Type} (cfg : config)
    (originalFetch : string -> completion R) (url : string)
    : completion R * list report :=
  if enabled cfg then watched_fetch cfg originalFetch url
  else (originalFetch url, []).

Definition window_open {W : Type} (cfg : config)
    (originalOpen : string -> option W) (url : string)
    : option W * list report :=
  if enabled cfg then watched_open cfg url else (originalOpen url, []).

End UseAntiCheat.

(* ===================================================================== *)
(** ** components/interview/interview-screen.tsx *)
(* ===================================================================== *)

Module InterviewScreen.

Import UseInterview.

(** The state cells of the screen. *)
Record screen : Type := {
  timeRemaining : Z;
  showHintDialog : bool;
  currentHint : string;
  hintsRemaining : Z;
  showSubmitDialog : bool;
  lastEvaluation : option SubmitResult;
  showFinishDialog : bool;
  feedback : option json
}.

Definition initial : screen :=
  {| timeRemaining := 3600;
     showHintDialog := false;
     currentHint := "";
     hintsRemaining := 3;
     showSubmitDialog := false;
     lastEvaluation := None;
     showFinishDialog := false;
     feedback := None |}.

(** The updater of the timer: the new value, and whether [handleFinish]
    was called. *)
Definition tick (prev : Z) : Z * bool :=
  if (prev <=? 0)%Z then (0%Z, true) else ((prev - 1)%Z, false).

(** The time after [n] ticks. *)
Fixpoint ticks (n : nat) (time : Z) : Z :=
  match n with
  | O => time
  | S n' => ticks n' (fst (tick time))
  end.

(** [s.padStart(2, "0")]. *)
Definition padStart2 (s : string) : string :=
  match String.length s with
  | 0%nat => "00"
  | 1%nat => "0" ++ s
  | _ => s
  end.

(** The clock in the header: [Math.floor(t / 60)] and [t % 60]. *)
Definition clock_minutes (t : Z) : string := number_to_string (t / 60)%Z.

Definition clock_seconds (t : Z) : string :=
  padStart2 (number_to_string (Z.rem t 60)).

Definition clock (t : Z) : string :=
  clock_minutes t ++ ":" ++ clock_seconds t.

(** [handleRunTests]: [runTests] of the hook inside a [try]. *)
Definition handleRunTests (apiClient : client)
    : M (option ExecutionResult.t) :=
  try_catch (runTests apiClient)
    (fun error =>
       bind (console_error [LText "Failed to run tests:"; LError error])
            (fun _ => ret None)).

(** The URL [handleFinish] fetches the feedback from: the variable of the
    environment goes into the template as it is. *)
Definition feedback_url (NEXT_PUBLIC_API_URL : option string)
    (interview_id : string) : string :=
  text_of NEXT_PUBLIC_API_URL ++ "/api/interview/feedback/" ++ interview_id.

Section Handlers.

Variable apiClient : client.
Variable NEXT_PUBLIC_API_URL : option string.

(** The [fetch] of the feedback, by URL. *)
Variable fetch_feedback : string -> completion (response json).

(** [handleFinish].  [interview] is the one of the hook when the handler
    is called. *)
Definition handleFinish (sw : screen * world)
    : completion unit * (screen * world) :=
  let '(sc, w) := sw in
  let sc :=
    {| timeRemaining := timeRemaining sc;
       showHintDialog := showHintDialog sc;
       currentHint := currentHint sc;
       hintsRemaining := hintsRemaining sc;
       showSubmitDialog := false;
       lastEvaluation := lastEvaluation sc;
       showFinishDialog := false;
       feedback := feedback sc |} in
  match finishInterview apiClient w with
  | (Throw e, w') => (Throw e, (sc, w'))
  | (Return None, w') => (Return tt, (sc, w'))
  | (Return (Some _), w') =>
      match interview (fst w) with
      | None => (Return tt, (sc, w'))
      | Some i =>
          if truthy_string (InterviewState.interview_id i) then
            match fetch_feedback
                    (feedback_url NEXT_PUBLIC_API_URL
                       (InterviewState.interview_id i)) with
            | Throw e => (Throw e, (sc, w'))
            | Return feedbackData =>
                if ok feedbackData then
                  match json_of feedbackData with
                  | Throw e => (Throw e, (sc, w'))
                  | Return fb =>
                      (Return tt,
                       ({| timeRemaining := timeRemaining sc;
                           showHintDialog := showHintDialog sc;
                           currentHint := currentHint sc;
                           hintsRemaining := hintsRemaining sc;
                           showSubmitDialog := showSubmitDialog sc;
                           lastEvaluation := lastEvaluation sc;
                           showFinishDialog := showFinishDialog sc;
                           feedback := Some fb |}, w'))
                  end
                else (Return tt, (sc, w'))
            end
          else (Return tt, (sc, w'))
      end
  end.

(** [handleNextTask]; the call of [handleFinish] is not awaited, so its
    completion is dropped. *)
Definition handleNextTask (sw : screen * world)
    : completion unit * (screen * world) :=
  let '(sc, w) := sw in
  let sc :=
    {| timeRemaining := timeRemaining sc;
       showHintDialog := showHintDialog sc;
       currentHint := currentHint sc;
       hintsRemaining := 3;
       showSubmitDialog := false;
       lastEvaluation := lastEvaluation sc;
       showFinishDialog := showFinishDialog sc;
       feedback := feedback sc |} in
  match nextTask apiClient w with
  | (Throw e, w') => (Throw e, (sc, w'))
  | (Return (Some _), w') => (Return tt, (sc, w'))
  | (Return None, w') => (Return tt, snd (handleFinish (sc, w')))
  end.

(** [handleSubmit]. *)
Definition handleSubmit (sw : screen * world)
    : completion unit * (screen * world) :=
  let '(sc, w) := sw in
  match submitCode apiClient w with
  | (Throw e, w') => (Throw e, (sc, w'))
  | (Return None, w') => (Return tt, (sc, w'))
  | (Return (Some result), w') =>
      (Return tt,
       ({| timeRemaining := timeRemaining sc;
           showHintDialog := showHintDialog sc;
           currentHint := currentHint sc;
           hintsRemaining := hintsRemaining sc;
           showSubmitDialog := true;
           lastEvaluation := Some result;
           showFinishDialog := showFinishDialog sc;
           feedback := feedback sc |}, w'))
  end.

(** [handleHint]. *)
Definition handleHint (sw : screen * world)
    : completion unit * (screen * world) :=
  let '(sc, w) := sw in
  match getHint apiClient w with
  | (Throw error, (s', log')) =>
      (Return tt,
       (sc, (s', (log' ++ [[LText "Failed to get hint:"; LError error]])%list)))
  | (Return None, w') => (Return tt, (sc, w'))
  | (Return (Some result), w') =>
      (Return tt,
       ({| timeRemaining := timeRemaining sc;
           showHintDialog := true;
           currentHint := hint result;
           hintsRemaining := hints_remaining result;
           showSubmitDialog := showSubmitDialog sc;
           lastEvaluation := lastEvaluation sc;
           showFinishDialog := showFinishDialog sc;
           feedback := feedback sc |}, w'))
  end.

End Handlers.

(** [interview?.total_tasks || 5]. *)
Definition shown_total (interview : option InterviewState.t) : Z :=
  match interview with
  | Some i =>
      if truthy_number (InterviewState.total_tasks i)
      then InterviewState.total_tasks i
      else 5%Z
  | None => 5%Z
  end.

(** The footer of the submit dialog offers the next task while
    [taskNumber < (interview?.total_tasks || 5)], and the end of the
    interview otherwise. *)
Definition offers_next_task (s : state) : bool :=
  (taskNumber s <? shown_total (interview s))%Z.

End InterviewScreen.

(* ===================================================================== *)
(** ** The colours of a score, and the test panel of the editor *)
(* ===================================================================== *)

Module Views.

Inductive colour : Set := destructive | warning | success.

(** The submit dialog of the screen: [score >= 70], [score >= 40]. *)
Definition dialog_colour (score : Z) : colour :=
  if (score >=? 70)%Z then success
  else if (score >=? 40)%Z then warning
  else destructive.

(** A segment of the progress bar. *)
Inductive segment : Set :=
| done_with (c : colour)
| current_task
| upcoming.

(** [ProgressBar]: segment [i] of the bar; a score that is missing
    compares false with both thresholds. *)
Definition bar_segment (current : Z) (scores : list Z) (i : nat) : segment :=
  if (Z.of_nat i <? current - 1)%Z then
    match nth_error scores i with
    | Some score =>
        if (score >=? 70)%Z then done_with success
        else if (score >=? 40)%Z then done_with warning
        else done_with destructive
    | None => done_with destructive
    end
  else if (Z.of_nat i =? current - 1)%Z then current_task
  else upcoming.

(** [FeedbackReport]: [getScoreColor] and [getScoreBg]. *)
Definition getScoreColor (score : Z) : string :=
  if (score >=? 80)%Z then "text-success"
  else if (score >=? 60)%Z then "text-warning"
  else "text-destructive".

Definition getScoreBg (score : Z) : string :=
  if (score >=? 80)%Z then "bg-success/20"
  else if (score >=? 60)%Z then "bg-warning/20"
  else "bg-destructive/20".

(** The colour a class name of the report stands for. *)
Definition colour_of_class (class : string) : option colour :=
  if (class =? "text-success") || (class =? "bg-success/20")
  then Some success
  else if (class =? "text-warning") || (class =? "bg-warning/20")
  then Some warning
  else if (class =? "text-destructive") || (class =? "bg-destructive/20")
  then Some destructive
  else None.

Definition rank (c : colour) : nat :=
  match c with
  | destructive => 0
  | warning => 1
  | success => 2
  end.

(** The test panel of the editor is rendered when
    [isRunning || displayedResults || localTestResults]. *)
Definition panel_rendered (testResults : option ExecutionResult.t)
    (s : CodeEditor.state) : bool :=
  CodeEditor.isRunning s ||
  match CodeEditor.displayedResults testResults s with
  | Some _ => true
  | None => false
  end ||
  match CodeEditor.localTestResults s with
  | Some _ => true
  | None => false
  end.

(** What the terminal shows: [output || (isRunning ? "Running tests...\n"
    : "Ready.\n")]. *)
Definition terminal_shown (output : string) (isRunning : bool) : string :=
  if truthy_string output then output
  else if isRunning then "Running tests..." ++ LF
  else "Ready." ++ LF.

End Views.

(* ===================================================================== *)
(** ** Statements and sample data for the rest of the client *)
(* ===================================================================== *)

Module Statements2.

Import UseInterview.

(** Nothing is loading: the four flags of the hook are down. *)
Definition idle (s : state) : Prop :=
  isLoading s = false /\ loadingAction s = None /\
  chatLoading s = false /\ isChatStreaming s = false.

(** The texts of a list of chunks, one after the other. *)
Definition joined (chunks : list string) : string :=
  fold_right String.append "" chunks.

Definition says (who : Role) (text : string) : ChatMessage.t :=
  {| ChatMessage.role := who; ChatMessage.content := text |}.

(** The hook with other chat messages. *)
Definition with_chat (s : state) (messages : list ChatMessage.t) : state :=
  {| interview := interview s; currentTask := currentTask s;
     taskNumber := taskNumber s; code := code s;
     chatMessages := messages; isLoading := isLoading s;
     hintsUsed := hintsUsed s; taskScores := taskScores s;
     loadingAction := loadingAction s; chatLoading := chatLoading s;
     isChatStreaming := isChatStreaming s |}.

(** The hook after a chat exchange has ended: the messages are replaced
    and the two chat flags are down. *)
Definition chat_ended (s : state) (messages : list ChatMessage.t) : state :=
  {| interview := interview s; currentTask := currentTask s;
     taskNumber := taskNumber s; code := code s;
     chatMessages := messages; isLoading := isLoading s;
     hintsUsed := hintsUsed s; taskScores := taskScores s;
     loadingAction := loadingAction s; chatLoading := false;
     isChatStreaming := false |}.

(** The anti-cheat hook reports: it is enabled and has an interview id. *)
Definition active (cfg : UseAntiCheat.config) : Prop :=
  UseAntiCheat.enabled cfg = true /\ UseAntiCheat.interviewId cfg <> "".

(** The types of the events of a list of reports. *)
Definition kinds (reports : list UseAntiCheat.report) : list string :=
  map fst reports.

(** The hook after [nextTask] has made a task current. *)
Definition advanced (s : state) (t : Task.t) (l : ProgrammingLanguage)
    : state :=
  {| interview := interview s; currentTask := Some t;
     taskNumber := (taskNumber s + 1)%Z; code := starter_or_default t l;
     chatMessages := chatMessages s; isLoading := false;
     hintsUsed := hintsUsed s; taskScores := taskScores s;
     loadingAction := None; chatLoading := chatLoading s;
     isChatStreaming := isChatStreaming s |}.

(** The hook after [nextTask] got no valid task. *)
Definition stalled (s : state) (l : ProgrammingLanguage) : state :=
  {| interview := interview s; currentTask := currentTask s;
     taskNumber := taskNumber s; code := getDefaultCode (language_tag l);
     chatMessages := chatMessages s; isLoading := false;
     hintsUsed := hintsUsed s; taskScores := taskScores s;
     loadingAction := None; chatLoading := chatLoading s;
     isChatStreaming := isChatStreaming s |}.

End Statements2.

Module Samples2.

Import UseInterview ApiCalls.

(** A network on which every request is rejected, and no chunk parses. *)
Definition net_down : network :=
  {| fetch_start := fun _ => Throw Samples.failed_to_fetch;
     fetch_task := fun _ _ => Throw Samples.failed_to_fetch;
     fetch_submit := fun _ => Throw Samples.failed_to_fetch;
     fetch_run := fun _ => Throw Samples.failed_to_fetch;
     fetch_hint := fun _ => Throw Samples.failed_to_fetch;
     fetch_chat := fun _ => Throw Samples.failed_to_fetch;
     fetch_finish := fun _ => Throw Samples.failed_to_fetch;
     parse_content := fun _ => None |}.

(** The same network with a server that hands out [task_1]. *)
Definition net_serving : network :=
  {| fetch_start := fetch_start net_down;
     fetch_task := fun _ _ =>
       Return {| ok := true; status := 200; text := "";
                 parsed := Some (Some Samples.task_1) |};
     fetch_submit := fetch_submit net_down;
     fetch_run := fetch_run net_down;
     fetch_hint := fetch_hint net_down;
     fetch_chat := fetch_chat net_down;
     fetch_finish := fetch_finish net_down;
     parse_content := parse_content net_down |}.

(** The same network with a server that fails to generate tasks. *)
Definition task_failure : response (option Task.t) :=
  {| ok := false; status := 500;
     text := "Traceback (most recent call last): llm_client.py, line 41";
     parsed := None |}.

Definition net_failing : network :=
  {| fetch_start := fetch_start net_down;
     fetch_task := fun _ _ => Return task_failure;
     fetch_submit := fetch_submit net_down;
     fetch_run := fetch_run net_down;
     fetch_hint := fetch_hint net_down;
     fetch_chat := fetch_chat net_down;
     fetch_finish := fetch_finish net_down;
     parse_content := parse_content net_down |}.

(** An anti-cheat hook that reports. *)
Definition watching : UseAntiCheat.config :=
  {| UseAntiCheat.interviewId := "interview-1";
     UseAntiCheat.enabled := true |}.

(** A clock that stands still. *)
Definition noon (_ : nat) : Z := 43200000.

(** Refs with nine small changes on record. *)
Definition small_change : UseAntiCheat.change :=
  {| UseAntiCheat.timestamp := 43200000;
     UseAntiCheat.size := 1;
     UseAntiCheat.lines := 0 |}.

Definition nine_changes : UseAntiCheat.refs :=
  {| UseAntiCheat.lastPasteLength := 0;
     UseAntiCheat.tabSwitchCount := 0;
     UseAntiCheat.pasteHistory := [];
     UseAntiCheat.codeChangeHistory := repeat small_change 9 |}.

(** A server that cannot generate tasks but can finish an interview, and
    a feedback endpoint that answers. *)
Definition finishing : client :=
  {| api_startInterview := api_startInterview Samples.offline;
     api_generateTask := api_generateTask Samples.offline;
     api_submitCode := api_submitCode Samples.offline;
     api_runTests := api_runTests Samples.offline;
     api_getHint := api_getHint Samples.offline;
     api_sendChatMessage := api_sendChatMessage Samples.offline;
     api_finishInterview := fun interview_id =>
       Return {| finished_interview_id := interview_id;
                 finished_status := "completed" |} |}.

Definition report_body : json := JObj [("overall_score", JNum 72)].

Definition feedback_server (_ : string) : completion (response json) :=
  Return {| ok := true; status := 200; text := "";
            parsed := Some report_body |}.

(** A reader of chunks that knows one payload. *)
Definition greeting_only (data : string) : option string :=
  if data =? "{content:Hello}" then Some "Hello" else None.

End Samples2.

(* ===================================================================== *)
(** * Properties *)
(* ===================================================================== *)

Import Statements.

(** ** Strings *)

Lemma append_nil_r (s : string) : s ++ "" = s.
Proof.
  induction s as [| c s IH]; simpl; [reflexivity | now rewrite IH].
Qed.

Lemma append_assoc (a b c : string) : (a ++ b) ++ c = a ++ (b ++ c).
Proof.
  induction a as [| x a IH]; simpl; [reflexivity | now rewrite IH].
Qed.

(** ** The request of a test run *)

(** C2, as stated, fails: the body of the request that [runTests] sends
    for a concrete submission has neither [timeout_seconds] nor
    [memory_limit_mb]. *)
Lemma runTests_request_without_limits :
  ~ carries_limits
      (runTests_request None "interview-1" "task-1" "print(input())"
         python).
Proof.
  unfold carries_limits. cbn. intros [H _]. discriminate H.
Qed.

(** C2, amended: every request of the test-run operation is a POST to
    [/api/interview/run-tests] whose body has exactly the members
    [interview_id], [task_id], [code] and [language], holding the
    arguments of the call; it carries no [timeout_seconds] and no
    [memory_limit_mb]: the client leaves the limits to the server. *)
Theorem runTests_request_members :
  forall (NEXT_PUBLIC_API_URL : option string)
         (interview_id task_id code : string)
         (language : ProgrammingLanguage),
    let r :=
      runTests_request NEXT_PUBLIC_API_URL interview_id task_id code
        language in
    method r = "POST" /\
    url r = API_BASE NEXT_PUBLIC_API_URL ++ "/api/interview/run-tests" /\
    API_BASE None = "http://localhost:8000" /\
    keys (body r) = ["interview_id"; "task_id"; "code"; "language"] /\
    get "interview_id" (body r) = Some (JStr interview_id) /\
    get "task_id" (body r) = Some (JStr task_id) /\
    get "code" (body r) = Some (JStr code) /\
    get "language" (body r) = Some (JStr (language_tag language)) /\
    has_key "timeout_seconds" (body r) = false /\
    has_key "memory_limit_mb" (body r) = false.
Proof.
  intros. subst r. cbn. repeat split; reflexivity.
Qed.

(** ** The type of the value a test run returns *)

(** C3, as stated, fails: the type [runTests] returns has no part for
    visible results, no part for hidden results and no summary. *)
Lemma runTests_return_type_has_no_split :
  has_visible_hidden_split runTests_return_type = false /\
  declares ["visible_results"; "visible"] runTests_return_type = false /\
  declares ["hidden_summary"; "hidden"] runTests_return_type = false /\
  declares ["summary"; "hidden_summary"] runTests_return_type = false.
Proof.
  repeat split; reflexivity.
Qed.

(** C3, amended: the value a test run returns is an [ExecutionResult]: an
    overall [success] flag, optional [output] and [error] texts, the time
    and memory of the execution, and one optional flat list
    [test_results] whose entries all have the per-case detail
    ([test_number], [passed], [input], [expected], [actual], optional
    [error], [execution_time_ms]); it has no visible/hidden split, no
    counts and no separate overall status. *)
Theorem runTests_return_type_shape :
  runTests_return_type = TRef "ExecutionResult" /\
  interface "ExecutionResult" = Some ExecutionResult_decl /\
  map pname ExecutionResult_decl =
    ["success"; "output"; "error"; "execution_time_ms"; "memory_used_mb";
     "test_results"] /\
  map ptype (filter (fun p => is_array (ptype p))
               (properties_within 4 runTests_return_type)) =
    [TArray (TRef "TestResult")] /\
  map pname TestResult_decl =
    ["test_number"; "passed"; "input"; "expected"; "actual"; "error";
     "execution_time_ms"] /\
  map pname (filter (fun p => negb (optional p)) TestResult_decl) =
    ["test_number"; "passed"; "input"; "expected"; "actual";
     "execution_time_ms"] /\
  has_visible_hidden_split runTests_return_type = false /\
  declares ["overall_status"; "hidden_passed"; "hidden_failed";
            "visible_passed"; "visible_failed"] runTests_return_type
    = false.
Proof.
  repeat split; reflexivity.
Qed.

(** ** Failures of the run endpoint *)

Section HookSteps.

Import UseInterview.

Variable apiClient : client.

(** What [runTests] of the hook computes when the interview and the task
    are there: the guard is passed, the loading state is set, the call is
    awaited, and the [finally] block resets the loading state. *)
Lemma runTests_present (s : state) (log : console)
    (i : InterviewState.t) (t : Task.t) :
  interview s = Some i ->
  currentTask s = Some t ->
  runTests apiClient (s, log) =
    let s' :=
      {| interview := interview s; currentTask := currentTask s;
         taskNumber := taskNumber s; code := code s;
         chatMessages := chatMessages s; isLoading := false;
         hintsUsed := hintsUsed s; taskScores := taskScores s;
         loadingAction := None; chatLoading := chatLoading s;
         isChatStreaming := isChatStreaming s |} in
    match api_runTests apiClient (InterviewState.interview_id i)
            (Task.id t) (code s) (InterviewState.language i) with
    | Return result => (Return (Some result), (s', log))
    | Throw e =>
        (Return None,
         (s', (log ++ [[LText "Error running tests:"; LError e]])%list))
    end.
Proof.
  intros Hi Ht. destruct s; cbn in Hi, Ht; subst.
  unfold runTests, bind, read, try_finally, try_catch, await, ret,
    console_error, setIsLoading, setLoadingAction, modify.
  cbn. destruct (api_runTests apiClient _ _ _ _); reflexivity.
Qed.

(** When the interview or the task is missing, [runTests] logs and
    returns [null]; it touches no state cell. *)
Lemma runTests_missing (s : state) (log : console) :
  interview s = None \/ currentTask s = None ->
  runTests apiClient (s, log) =
    (Return None,
     (s, (log ++
          [[LText "Cannot run tests: interview or task is missing"]])%list)).
Proof.
  intros H.
  unfold runTests, bind, read, ret, console_error. cbn.
  destruct (interview s), (currentTask s); try reflexivity.
  destruct H; discriminate.
Qed.

End HookSteps.

(** C4: when the response of the run endpoint is not ok, [runTests] of the
    client throws an error whose message is the fixed text "Failed to run
    tests", whatever the status and the body of the response; the hook
    hands [null] to its caller, and what it logs is that same error: the
    body of the response is neither returned nor read. *)
Theorem failed_run_surfaces_generic_error :
  forall (api_url : option string)
         (fetch : request -> completion (response ExecutionResult.t))
         (apiClient : UseInterview.client)
         (s : UseInterview.state) (log : console)
         (i : InterviewState.t) (t : Task.t)
         (res : response ExecutionResult.t),
    UseInterview.api_runTests apiClient = ApiClient.runTests api_url fetch ->
    UseInterview.interview s = Some i ->
    UseInterview.currentTask s = Some t ->
    fetch (runTests_request api_url (InterviewState.interview_id i)
             (Task.id t)
             (UseInterview.code s) (InterviewState.language i))
      = Return res ->
    ok res = false ->
    ApiClient.runTests api_url fetch (InterviewState.interview_id i)
      (Task.id t)
      (UseInterview.code s) (InterviewState.language i)
      = Throw (Error "Failed to run tests") /\
    fst (UseInterview.runTests apiClient (s, log)) = Return None /\
    snd (snd (UseInterview.runTests apiClient (s, log))) =
      (log ++ [[LText "Error running tests:";
                LError (Error "Failed to run tests")]])%list.
Proof.
  intros api_url fetch apiClient s log i t res Hapi Hi Ht Hfetch Hok.
  assert (Hthrow :
    ApiClient.runTests api_url fetch (InterviewState.interview_id i)
      (Task.id t)
      (UseInterview.code s) (InterviewState.language i)
      = Throw (Error "Failed to run tests")).
  { unfold ApiClient.runTests. rewrite Hfetch, Hok. reflexivity. }
  split; [exact Hthrow |].
  rewrite (runTests_present apiClient s log i t Hi Ht).
  rewrite Hapi, Hthrow. split; reflexivity.
Qed.

Lemma failed_run_surfaces_generic_error_witness :
  ApiClient.runTests None Samples.broken_server "interview-1" "task-1"
    "print(input())" python
    = Throw (Error "Failed to run tests") /\
  fst (UseInterview.runTests (Samples.over Samples.broken_server)
         (Samples.working 3, [])) = Return None /\
  snd (snd (UseInterview.runTests (Samples.over Samples.broken_server)
              (Samples.working 3, []))) =
    [[LText "Error running tests:"; LError (Error "Failed to run tests")]].
Proof.
  apply (failed_run_surfaces_generic_error None Samples.broken_server
           (Samples.over Samples.broken_server) (Samples.working 3) []
           (Samples.interview_1 3) Samples.task_1
           Samples.internal_server_error);
    reflexivity.
Defined.

(** The same error for any two failed responses: the status and the body
    of the response have no influence on what the caller gets. *)
Corollary failed_run_independent_of_body :
  forall (api_url : option string)
         (fetch1 fetch2 : request -> completion (response ExecutionResult.t))
         (interview_id task_id code : string)
         (language : ProgrammingLanguage)
         (res1 res2 : response ExecutionResult.t),
    fetch1 (runTests_request api_url interview_id task_id code language)
      = Return res1 ->
    fetch2 (runTests_request api_url interview_id task_id code language)
      = Return res2 ->
    ok res1 = false -> ok res2 = false ->
    ApiClient.runTests api_url fetch1 interview_id task_id code language =
    ApiClient.runTests api_url fetch2 interview_id task_id code language.
Proof.
  intros api_url fetch1 fetch2 iid tid c l res1 res2 H1 H2 Hok1 Hok2.
  unfold ApiClient.runTests. rewrite H1, H2, Hok1, Hok2. reflexivity.
Qed.

(** ** The supported languages *)

(** C7: the languages of the execution interface are exactly [python],
    [javascript] and [cpp], three distinct values; the operations that
    branch on the language cover exactly this set: [getDefaultCode] has a
    starter text for a string if and only if it is one of the three tags
    (its default branch gives the empty text), [languageMap] maps each
    language to its own tag, and the file extension is [py], [js] or
    [cpp], a different one for each language. *)
Theorem supported_languages_closed :
  (forall l : ProgrammingLanguage, In l all_languages) /\
  NoDup all_languages /\
  List.length all_languages = 3%nat /\
  map language_tag all_languages = ["python"; "javascript"; "cpp"] /\
  (forall s : string,
     negb (UseInterview.getDefaultCode s =? "") =
     existsb (String.eqb s) (map language_tag all_languages)) /\
  (forall l : ProgrammingLanguage,
     CodeEditor.languageMap l = language_tag l) /\
  map (fun l => CodeEditor.file_extension (language_tag l)) all_languages
    = ["py"; "js"; "cpp"].
Proof.
  split; [intros []; cbn; tauto |].
  split.
  { repeat constructor; cbn; intuition discriminate. }
  split; [reflexivity |].
  split; [reflexivity |].
  split.
  { intros s. unfold UseInterview.getDefaultCode. cbn [map all_languages
      language_tag existsb].
    rewrite (String.eqb_sym s "python"), (String.eqb_sym s "javascript"),
      (String.eqb_sym s "cpp").
    destruct (String.eqb_spec "python" s) as [<- | _]; [reflexivity |].
    destruct (String.eqb_spec "javascript" s) as [<- | _]; [reflexivity |].
    destruct (String.eqb_spec "cpp" s) as [<- | _]; reflexivity. }
  split; [intros []; reflexivity | reflexivity].
Qed.

(** ** The terminal text *)

Section TerminalText.

Import TestTerminal.

Lemma append_test_block (terminalOutput : string) (test : TestResult.t) :
  append_test terminalOutput test = terminalOutput ++ test_block test.
Proof.
  unfold append_test, test_block, status_line, time_line, detail_line,
    truthy_number, truthy_string, truthy_opt, truthy_string.
  destruct test as [number passed input expected actual error time].
  cbn [TestResult.passed TestResult.test_number TestResult.input
       TestResult.expected TestResult.actual TestResult.error
       TestResult.execution_time_ms].
  destruct passed.
  - destruct (time =? 0)%Z; cbn [negb];
      rewrite ?append_assoc, ?append_nil_r; reflexivity.
  - destruct (input =? ""), (expected =? ""), (actual =? "");
      destruct error as [e |]; [destruct (e =? "") | | destruct (e =? "") |
        | destruct (e =? "") | | destruct (e =? "") | | destruct (e =? "") |
        | destruct (e =? "") | | destruct (e =? "") | | destruct (e =? "") | ];
      destruct (time =? 0)%Z; cbn [negb text_of];
      rewrite ?append_assoc, ?append_nil_r; reflexivity.
Qed.

Lemma fold_append_test (tests : list TestResult.t) (terminalOutput : string) :
  fold_left append_test tests terminalOutput =
  terminalOutput ++ test_blocks tests.
Proof.
  revert terminalOutput.
  induction tests as [| test tests IH]; intros terminalOutput.
  - cbn. now rewrite append_nil_r.
  - cbn [fold_left]. rewrite IH, append_test_block, append_assoc.
    reflexivity.
Qed.

End TerminalText.

(** C8: in the terminal text of a non-null execution result, a test case
    contributes its block and nothing else: a passed test its PASSED line
    and, when its time is not zero, its time line; a failed test its
    FAILED line, then the Input, Expected, Actual and Error lines of those
    fields that are non-empty strings, then the time line under the same
    condition.  The text is the preamble, the heading of the results, the
    blocks of the test cases in order, and the verdict. *)
Theorem terminal_text_of_tests :
  forall (executionResult : ExecutionResult.t) (isRunning : bool)
         (terminalOutput : string) (test : TestResult.t),
    TestTerminal.append_test terminalOutput test =
      terminalOutput ++
      (if TestResult.passed test
       then status_line test ++ time_line test
       else status_line test ++
            detail_line "Input" (Some (TestResult.input test)) ++
            detail_line "Expected" (Some (TestResult.expected test)) ++
            detail_line "Actual" (Some (TestResult.actual test)) ++
            detail_line "Error" (TestResult.error test) ++
            time_line test) /\
    TestTerminal.output (Some executionResult) isRunning =
      preamble executionResult ++ results_heading executionResult ++
      test_blocks (tests_of executionResult) ++ verdict executionResult.
Proof.
  intros r isRunning acc test. split.
  - rewrite append_test_block. unfold test_block.
    destruct (TestResult.passed test); reflexivity.
  - unfold TestTerminal.output, preamble, results_heading, tests_of, verdict.
    destruct r as [success output error time memory tests].
    cbn [ExecutionResult.success ExecutionResult.output
         ExecutionResult.error ExecutionResult.test_results].
    assert (Hfold : forall out,
      match tests with
      | Some ((_ :: _) as test_results) =>
          fold_left TestTerminal.append_test test_results
            (out ++ (LF ++ LF ++ "=== Test Results ===" ++ LF))
      | _ => out
      end =
      out ++
      match tests with
      | Some (_ :: _) => LF ++ LF ++ "=== Test Results ===" ++ LF
      | _ => ""
      end ++
      test_blocks match tests with Some l => l | None => [] end).
    { intros out. destruct tests as [[| t ts] |].
      - cbn. now rewrite append_nil_r.
      - rewrite fold_append_test, append_assoc. reflexivity.
      - cbn. now rewrite append_nil_r. }
    rewrite Hfold.
    destruct (truthy_opt error), (truthy_opt output),
      success as [[|] |];
      rewrite ?append_assoc, ?append_nil_r; reflexivity.
Qed.

(** What a passed test contributes does not depend on its input, its
    expected and actual values, or its error. *)
Corollary passed_test_shows_no_detail :
  forall (terminalOutput : string) (t1 t2 : TestResult.t),
    TestResult.passed t1 = true ->
    TestResult.passed t2 = true ->
    TestResult.test_number t1 = TestResult.test_number t2 ->
    TestResult.execution_time_ms t1 = TestResult.execution_time_ms t2 ->
    TestTerminal.append_test terminalOutput t1 =
    TestTerminal.append_test terminalOutput t2.
Proof.
  intros acc t1 t2 H1 H2 Hn Ht.
  rewrite !append_test_block. unfold test_block, status_line, time_line.
  rewrite H1, H2, Hn, Ht. reflexivity.
Qed.

(** ** The hook: [runTests] *)

(** C9: [runTests] of the hook never throws.  Called while the hook is
    not loading, which is when the run button of the editor can call it
    (the button does nothing while [isLoading]), it returns the execution
    result when the interview and the task are there and the call of the
    client returns one, and [null] in every other case (interview or task
    missing, a response that is not ok, a rejected request); and on every
    one of these paths the loading state is restored when the call
    completes: [isLoading] is false and [loadingAction] is null. *)
Theorem runTests_returns_and_restores :
  forall (apiClient : UseInterview.client) (s : UseInterview.state)
         (log : console),
    let done := UseInterview.runTests apiClient (s, log) in
    UseInterview.isLoading s = false ->
    UseInterview.loadingAction s = None ->
    fst done =
      Return
        match UseInterview.interview s, UseInterview.currentTask s with
        | Some i, Some t =>
            match UseInterview.api_runTests apiClient
                    (InterviewState.interview_id i) (Task.id t)
                    (UseInterview.code s) (InterviewState.language i) with
            | Return result => Some result
            | Throw _ => None
            end
        | _, _ => None
        end /\
    UseInterview.isLoading (fst (snd done)) = false /\
    UseInterview.loadingAction (fst (snd done)) = None /\
    forall panel : CodeEditor.state,
      CodeEditor.press true CodeEditor.RunButton panel = panel.
Proof.
  intros apiClient s log done Hidle Haction. subst done.
  assert (Hbutton : forall panel : CodeEditor.state,
             CodeEditor.press true CodeEditor.RunButton panel = panel)
    by reflexivity.
  destruct (UseInterview.interview s) as [i |] eqn:Hi;
    [destruct (UseInterview.currentTask s) as [t |] eqn:Ht |].
  - rewrite (runTests_present apiClient s log i t Hi Ht).
    destruct (UseInterview.api_runTests apiClient _ _ _ _); cbn;
      (split; [reflexivity |]); (split; [reflexivity |]);
      (split; [reflexivity | exact Hbutton]).
  - rewrite (runTests_missing apiClient s log (or_intror Ht)). cbn.
    split; [reflexivity |].
    split; [exact Hidle | split; [exact Haction | exact Hbutton]].
  - rewrite (runTests_missing apiClient s log (or_introl Hi)). cbn.
    split; [reflexivity |].
    split; [exact Hidle | split; [exact Haction | exact Hbutton]].
Qed.

Lemma runTests_returns_and_restores_witness :
  fst (UseInterview.runTests Samples.offline (Samples.working 3, []))
    = Return None /\
  UseInterview.isLoading
    (fst (snd (UseInterview.runTests Samples.offline
                 (Samples.working 3, [])))) = false /\
  UseInterview.loadingAction
    (fst (snd (UseInterview.runTests Samples.offline
                 (Samples.working 3, [])))) = None.
Proof.
  destruct (runTests_returns_and_restores Samples.offline
              (Samples.working 3) [] eq_refl eq_refl)
    as (Hreturn & Hloading & Haction & _).
  split; [exact Hreturn | split; [exact Hloading | exact Haction]].
Defined.

(** ** The hook: the task counter *)

Section Counter.

Import UseInterview.

Variable apiClient : client.

Lemma on_chunks_cells (chunks : list string) :
  forall (assistantMessage : string) (w : world),
    fst (on_chunks assistantMessage chunks w) = Return tt /\
    counter_cells (fst (snd (on_chunks assistantMessage chunks w))) =
    counter_cells (fst w).
Proof.
  induction chunks as [| chunk rest IH]; intros acc [s log].
  - split; reflexivity.
  - cbn [on_chunks]. unfold bind at 1. cbn.
    destruct (IH (acc ++ chunk)
                (fst (snd (setChatMessages
                   (fun prev =>
                      replace_last prev
                        {| ChatMessage.role := assistant;
                           ChatMessage.content := acc ++ chunk |})
                   (s, log))),
                 log)) as [H1 H2].
    cbn in H1, H2. split; [exact H1 | exact H2].
Qed.

Lemma sendMessage_cells (message : string) (w : world) :
  counter_cells (fst (snd (sendMessage apiClient message w)))
  = counter_cells (fst w).
Proof.
  destruct w as [s log].
  unfold sendMessage, bind, read, try_finally, setChatMessages,
    setChatLoading, setIsChatStreaming, modify, await. cbn.
  destruct (interview s) as [i |] eqn:Hi; [| reflexivity].
  destruct (api_sendChatMessage apiClient _ _ _ _) as [chunks completed].
  match goal with
  | |- context [on_chunks "" chunks ?w] =>
      destruct (on_chunks_cells chunks "" w) as [H1 H2];
      destruct (on_chunks "" chunks w) as [c [s' log']]
  end.
  cbn in H1, H2. subst c. cbn. unfold counter_cells in *. exact H2.
Qed.

(** Every operation but [startInterview] and [nextTask] leaves the
    interview, the task counter and the current task as they are. *)
Lemma other_operations_cells (op : operation) (w : world) :
  is_start op = false ->
  op <> NextTask ->
  counter_cells (fst (after apiClient op w)) = counter_cells (fst w).
Proof.
  intros Hstart Hnext. destruct w as [s log].
  destruct op as [data | | | | | message | | c]; cbn [after];
    try discriminate Hstart; try congruence.
  - unfold submitCode, bind, read, try_finally, await, ret, setIsLoading,
      setLoadingAction, setTaskScores, modify. cbn.
    destruct (interview s), (currentTask s); try reflexivity.
    destruct (api_submitCode apiClient _ _ _ _); reflexivity.
  - unfold runTests, bind, read, try_finally, try_catch, await, ret,
      console_error, setIsLoading, setLoadingAction, modify. cbn.
    destruct (interview s), (currentTask s); try reflexivity.
    destruct (api_runTests apiClient _ _ _ _); reflexivity.
  - unfold getHint, bind, read, try_finally, try_catch, await, ret,
      console_error, setIsLoading, setLoadingAction, setHintsUsed, modify.
    cbn. destruct (interview s), (currentTask s); try reflexivity.
    destruct (api_getHint apiClient _ _ _) as [[h |] | e]; reflexivity.
  - apply sendMessage_cells.
  - unfold finishInterview, bind, read, try_finally, await, ret,
      setIsLoading, setLoadingAction, modify. cbn.
    destruct (interview s); try reflexivity.
    destruct (api_finishInterview apiClient _); reflexivity.
  - reflexivity.
Qed.

(** What [nextTask] does, case by case. *)
Lemma nextTask_cases (s : state) (log : console) :
  let done := nextTask apiClient (s, log) in
  interview (fst (snd done)) = interview s /\
  match fst done with
  | Return (Some t) =>
      exists i,
        interview s = Some i /\
        (taskNumber s + 1 <= InterviewState.total_tasks i)%Z /\
        api_generateTask apiClient (InterviewState.interview_id i)
          (taskNumber s + 1)%Z (avgScore (taskScores s)) = Return (Some t) /\
        valid_task (Some t) = true /\
        taskNumber (fst (snd done)) = (taskNumber s + 1)%Z /\
        currentTask (fst (snd done)) = Some t
  | Return None =>
      taskNumber (fst (snd done)) = taskNumber s /\
      currentTask (fst (snd done)) = currentTask s
  | Throw _ => False
  end.
Proof.
  intros done. subst done.
  unfold nextTask, bind at 1, read. cbn -[valid_task].
  destruct (interview s) as [i |] eqn:Hi; [| cbn -[valid_task]; rewrite Hi; auto].
  destruct (Z.gtb_spec (taskNumber s + 1) (InterviewState.total_tasks i))
    as [Hgt | Hle]; [cbn -[valid_task]; rewrite Hi; auto |].
  unfold bind, try_finally, try_catch, await, ret, console_error,
    setIsLoading, setLoadingAction, setCurrentTask, setTaskNumber, setCode,
    modify. cbn -[valid_task].
  destruct (api_generateTask apiClient _ _ _) as [[t |] | e] eqn:Hgen; cbn -[valid_task].
  - destruct (valid_task (Some t)) eqn:Hvalid; cbn -[valid_task].
    + split; [exact Hi |]. exists i. repeat split; auto.
    + split; [exact Hi | auto].
  - split; [exact Hi | auto].
  - split; [exact Hi | auto].
Qed.

(** [startInterview] installs the interview it receives and never writes
    the task counter. *)
Lemma startInterview_cells (data : StartData) (s : state) (log : console) :
  let s' := fst (snd (startInterview apiClient data (s, log))) in
  taskNumber s' = taskNumber s /\
  interview s' =
    match api_startInterview apiClient data with
    | Return result => Some result
    | Throw _ => interview s
    end.
Proof.
  unfold startInterview, generate_first_task, bind, try_finally, try_catch,
    await, ret, throw, console_error, setIsLoading, setLoadingAction,
    setInterview, setCurrentTask, setCode, setChatMessages, modify. cbn -[valid_task].
  destruct (api_startInterview apiClient data) as [result | e]; cbn -[valid_task];
    [| split; reflexivity].
  destruct (api_generateTask apiClient _ _ _) as [[t |] | e]; cbn -[valid_task];
    [destruct (valid_task (Some t)); cbn -[valid_task] | |]; split; reflexivity.
Qed.

End Counter.

(** C10: the task counter starts at 1, and every operation of the hook
    preserves [1 <= taskNumber <= interview.total_tasks], given that an
    interview the server starts has room for the counter: at mount, where
    [startInterview] is called and the counter is 1, that it has at least
    one task; so the first [startInterview] establishes the range for
    every interview of one task or more.  [startInterview] itself never
    writes the counter.
    [nextTask] never throws; it returns the task, with the counter
    incremented and the task made current, only when the incremented
    counter does not exceed [total_tasks] and a valid task was received,
    and returns [null] with counter and current task unchanged
    otherwise. *)
Theorem task_counter_in_range :
  forall (apiClient : UseInterview.client) (op : UseInterview.operation)
         (s : UseInterview.state) (log : console),
    UseInterview.counter_in_range s ->
    (forall (data : UseInterview.StartData) (result : InterviewState.t),
       op = UseInterview.StartInterview data ->
       UseInterview.api_startInterview apiClient data = Return result ->
       (UseInterview.taskNumber s <= InterviewState.total_tasks result)%Z) ->
    UseInterview.taskNumber UseInterview.initial = 1%Z /\
    UseInterview.counter_in_range UseInterview.initial /\
    (forall (data : UseInterview.StartData) (result : InterviewState.t)
            (log0 : console),
       UseInterview.api_startInterview apiClient data = Return result ->
       (1 <= InterviewState.total_tasks result)%Z ->
       UseInterview.counter_in_range
         (fst (UseInterview.after apiClient
                 (UseInterview.StartInterview data)
                 (UseInterview.initial, log0)))) /\
    UseInterview.counter_in_range
      (fst (UseInterview.after apiClient op (s, log))) /\
    (forall data : UseInterview.StartData,
       UseInterview.taskNumber
         (fst (UseInterview.after apiClient
                 (UseInterview.StartInterview data) (s, log)))
       = UseInterview.taskNumber s) /\
    let done := UseInterview.nextTask apiClient (s, log) in
    match fst done with
    | Return (Some t) =>
        exists i,
          UseInterview.interview s = Some i /\
          (UseInterview.taskNumber s + 1 <= InterviewState.total_tasks i)%Z /\
          UseInterview.api_generateTask apiClient
            (InterviewState.interview_id i)
            (UseInterview.taskNumber s + 1)%Z
            (UseInterview.avgScore (UseInterview.taskScores s))
            = Return (Some t) /\
          UseInterview.valid_task (Some t) = true /\
          UseInterview.taskNumber (fst (snd done)) =
            (UseInterview.taskNumber s + 1)%Z /\
          UseInterview.currentTask (fst (snd done)) = Some t
    | Return None =>
        UseInterview.taskNumber (fst (snd done)) = UseInterview.taskNumber s /\
        UseInterview.currentTask (fst (snd done)) =
          UseInterview.currentTask s
    | Throw _ => False
    end.
Proof.
  intros apiClient op s log [Hlow Hup] Hroom.
  split; [reflexivity |].
  split; [split; cbn; [lia | discriminate] |].
  split.
  { intros data result log0 Hstart Htotal. cbn [UseInterview.after].
    destruct (startInterview_cells apiClient data UseInterview.initial log0)
      as [Hn Hi].
    unfold UseInterview.counter_in_range. rewrite Hn, Hi, Hstart.
    split; [cbn; lia |].
    intros i [= <-]. cbn. exact Htotal. }
  pose proof (nextTask_cases apiClient s log) as Hnext. cbn zeta in Hnext.
  destruct Hnext as [Hinterview Hcases].
  split; [| split; [| exact Hcases]].
  - assert (Hother : UseInterview.is_start op = false ->
                     op <> UseInterview.NextTask ->
                     UseInterview.counter_in_range
                       (fst (UseInterview.after apiClient op (s, log)))).
    { intros Hstart Hne.
      pose proof (other_operations_cells apiClient op (s, log) Hstart Hne)
        as Hcells.
      unfold counter_cells in Hcells. cbn [fst] in Hcells.
      inversion Hcells as [[Hi Hn Hc]].
      unfold UseInterview.counter_in_range. rewrite Hi, Hn.
      split; assumption. }
    destruct op as [data | | | | | message | | c];
      try (apply Hother; [reflexivity | discriminate]).
    + clear Hother. cbn [UseInterview.after].
      destruct (startInterview_cells apiClient data s log) as [Hn Hi].
      unfold UseInterview.counter_in_range. rewrite Hn, Hi.
      split; [exact Hlow |].
      intros i.
      destruct (UseInterview.api_startInterview apiClient data)
        as [result | e] eqn:Hstart.
      * intros [= <-]. apply (Hroom data result eq_refl Hstart).
      * apply Hup.
    + clear Hother. cbn [UseInterview.after].
      unfold UseInterview.counter_in_range. rewrite Hinterview.
      destruct (fst (UseInterview.nextTask apiClient (s, log)))
        as [[t |] | e].
      * destruct Hcases as (i & Hi & Hle & _ & _ & Hn & _).
        rewrite Hn. split; [lia |].
        intros i' Hi'. rewrite Hi in Hi'. injection Hi' as <-. exact Hle.
      * destruct Hcases as [Hn _]. rewrite Hn. split; assumption.
      * contradiction.
  - intros data. cbn [UseInterview.after].
    apply (startInterview_cells apiClient data s log).
Qed.

Lemma task_counter_in_range_witness :
  UseInterview.counter_in_range
    (fst (UseInterview.after (Samples.starts_with 4)
            (UseInterview.StartInterview Samples.candidate)
            (UseInterview.initial, []))).
Proof.
  assert (Hrange : UseInterview.counter_in_range UseInterview.initial).
  { split; cbn; [lia | discriminate]. }
  assert (Hroom : forall (data : UseInterview.StartData)
                         (result : InterviewState.t),
             UseInterview.StartInterview Samples.candidate
               = UseInterview.StartInterview data ->
             UseInterview.api_startInterview (Samples.starts_with 4) data
               = Return result ->
             (UseInterview.taskNumber UseInterview.initial
              <= InterviewState.total_tasks result)%Z).
  { intros data result _ [= <-]. cbn. lia. }
  exact (proj1 (proj2 (proj2 (proj2
    (task_counter_in_range (Samples.starts_with 4)
       (UseInterview.StartInterview Samples.candidate)
       UseInterview.initial [] Hrange Hroom))))).
Defined.

(** ** A test run in flight *)

Section InFlight.

Import CodeEditor.

(** No control of the panel ends a call: the number of calls in flight
    never goes down when a control is pressed. *)
Lemma press_keeps_in_flight (isLoading : bool) (c : control) (s : state) :
  (in_flight s <= in_flight (press isLoading c s))%nat.
Proof.
  destruct c; cbn.
  - destruct (isLoading || isRunning s); cbn; lia.
  - destruct (isRunning s); cbn; lia.
Qed.

Lemma press_all_keeps_in_flight (presses : list (bool * control)) :
  forall s : state, (in_flight s <= in_flight (press_all presses s))%nat.
Proof.
  induction presses as [| [b c] rest IH]; intros s; cbn.
  - lia.
  - specialize (IH (press b c s)).
    pose proof (press_keeps_in_flight b c s). unfold press_all in IH. lia.
Qed.

End InFlight.

(** C6, as stated, fails: once [handleRunTests] has issued its call, no
    control of the panel, under either value of [isLoading], ends it. *)
Lemma run_in_flight_is_not_cancellable :
  ~ cancellable (CodeEditor.handleRunTests_call CodeEditor.initial).
Proof.
  intros (isLoading & c & H).
  destruct isLoading, c; cbn in H; lia.
Qed.

(** C6, amended: the caller has no operation that cancels a test run in
    flight.  The request of [runTests] carries no abort signal; after
    [handleRunTests] has issued its call, whatever controls are pressed
    (the stop button included, which only clears the running flag), the
    call stays in flight, and when it settles its result is stored for
    display and the running flag is cleared; only the settling of the
    call ends it.  The stop button of the terminal does nothing but call
    the [onStop] callback of its parent, when there is one. *)
Theorem run_in_flight_runs_to_completion :
  forall (s : CodeEditor.state) (presses : list (bool * CodeEditor.control))
         (isLoading : bool) (result : ExecutionResult.t)
         (c : completion (option ExecutionResult.t))
         (api_url : option string) (interview_id task_id code : string)
         (language : ProgrammingLanguage),
    let issued := CodeEditor.handleRunTests_call s in
    let s' := press_all presses issued in
    signal (runTests_request api_url interview_id task_id code language)
      = None /\
    CodeEditor.in_flight issued = S (CodeEditor.in_flight s) /\
    (CodeEditor.in_flight issued <= CodeEditor.in_flight s')%nat /\
    CodeEditor.in_flight
      (CodeEditor.press isLoading CodeEditor.StopButton s')
      = CodeEditor.in_flight s' /\
    CodeEditor.isRunning
      (CodeEditor.press isLoading CodeEditor.StopButton s') = false /\
    CodeEditor.localTestResults
      (CodeEditor.handleRunTests_settle (Return (Some result))
         (CodeEditor.press isLoading CodeEditor.StopButton s'))
      = Some result /\
    CodeEditor.in_flight (CodeEditor.handleRunTests_settle c s')
      = pred (CodeEditor.in_flight s') /\
    CodeEditor.isRunning (CodeEditor.handleRunTests_settle c s') = false /\
    TestTerminal.stop_button false (Some tt) = None /\
    TestTerminal.stop_button isLoading (@None unit) = None.
Proof.
  intros s presses isLoading result c api_url iid tid code language issued
    s'.
  pose proof (press_all_keeps_in_flight presses issued) as Hkept.
  fold s' in Hkept.
  assert (Hissued : CodeEditor.in_flight issued = S (CodeEditor.in_flight s))
    by reflexivity.
  assert (Hstop : CodeEditor.in_flight
                    (CodeEditor.press isLoading CodeEditor.StopButton s')
                  = CodeEditor.in_flight s').
  { cbn. destruct (CodeEditor.isRunning s'); reflexivity. }
  split; [reflexivity |].
  split; [exact Hissued |].
  split; [exact Hkept |].
  split; [exact Hstop |].
  split; [cbn; destruct (CodeEditor.isRunning s') eqn:E; cbn; auto |].
  split.
  { unfold CodeEditor.handleRunTests_settle. rewrite Hstop.
    destruct (CodeEditor.in_flight s') as [| n] eqn:E; [lia | reflexivity]. }
  split.
  { unfold CodeEditor.handleRunTests_settle.
    destruct (CodeEditor.in_flight s') as [| n] eqn:E; [lia | reflexivity]. }
  split.
  { unfold CodeEditor.handleRunTests_settle.
    destruct (CodeEditor.in_flight s') as [| n] eqn:E; [lia | reflexivity]. }
  split; [reflexivity | destruct isLoading; reflexivity].
Qed.

(** ** The response of the runner *)

Section Redaction.

Import Sandbox.

Variable prepare : ProgrammingLanguage -> string -> outcome.
Variable execute : ExecutionRequest -> outcome.
Variable judge : TestCase -> ExecutionResult -> bool.







End Redaction.

Section Counts.

Import Sandbox.





End Counts.



(** ** The fallback selector *)

Section Selector.

Import Sandbox.

Variable answers : Backend -> answer.
Variable serve : Backend -> ExecutionRequest -> ExecutionResult.
Variable probe_timeout : nat.
Variable cache_interval : nat.
Variable breaker_threshold : nat.



(** What the probe selects: the primary backend when it is reachable,
    the fallback when only it is, and none when none is. *)
Lemma probe_selects :
  fst (probe answers probe_timeout) =
    if reachable answers probe_timeout Primary then Some Primary
    else if reachable answers probe_timeout Fallback then Some Fallback
    else None.
Proof.
  unfold probe, reachable.
  destruct (attempt probe_timeout (answers Primary)) as [reached1 t1].
  destruct (attempt probe_timeout (answers Fallback)) as [reached2 t2].
  destruct reached1, reached2; reflexivity.
Qed.




(** [execute] answers [EngineUnavailable] only when no backend is
    reachable. *)
Lemma unavailable_only_when_none_reachable (sel : selector) (now : nat)
    (request : ExecutionRequest) :
  fst (fst (execute answers serve probe_timeout cache_interval
              breaker_threshold sel now request)) = EngineUnavailable ->
  reachable answers probe_timeout Primary = false /\
  reachable answers probe_timeout Fallback = false.
Proof.
  assert (Hprobe :
            fst (fst (through_probe answers serve probe_timeout now request))
            = EngineUnavailable ->
            reachable answers probe_timeout Primary = false /\
            reachable answers probe_timeout Fallback = false).
  { pose proof probe_selects as Hselect.
    unfold through_probe.
    destruct (probe answers probe_timeout) as [[b |] t];
      cbn [fst snd] in Hselect |- *; [discriminate |].
    intros _.
    destruct (reachable answers probe_timeout Primary);
      [discriminate |].
    destruct (reachable answers probe_timeout Fallback);
      [discriminate | split; reflexivity]. }
  unfold execute, dispatch.
  destruct (cached cache_interval breaker_threshold sel now) as [b |];
    [| exact Hprobe].
  destruct (reachable answers probe_timeout b); [discriminate | exact Hprobe].
Qed.

End Selector.



(* ===================================================================== *)
(** * Properties of the rest of the client *)
(* ===================================================================== *)

Import Statements2.

(** ** The hook, operation by operation *)

Section HookOperations.

Import UseInterview.

Variable apiClient : client.

Ltac run_hook :=
  unfold startInterview, generate_first_task, submitCode, runTests, getHint,
    nextTask, finishInterview, bind, read, try_finally, try_catch, await,
    ret, throw, console_error, setIsLoading, setLoadingAction, setInterview,
    setCurrentTask, setTaskNumber, setCode, setChatMessages, setHintsUsed,
    setTaskScores, setChatLoading, setIsChatStreaming, modify;
  cbn -[valid_task starter_or_default getDefaultCode getGreetingMessage
        Z.add Z.gtb].

Lemma replace_last_snoc (l : list ChatMessage.t) (x m : ChatMessage.t) :
  replace_last (l ++ [x])%list m = (l ++ [m])%list.
Proof.
  induction l as [| y l IH]; [reflexivity |].
  cbn [app replace_last]. rewrite IH.
  destruct (l ++ [x])%list eqn:E; [| reflexivity].
  destruct l; discriminate E.
Qed.

(** The loop over the chunks only rewrites the last chat message, which
    ends up holding everything received. *)
Lemma on_chunks_snoc (chunks : list string) :
  forall (assistantMessage : string) (s : state) (log : console)
         (l : list ChatMessage.t) (x : ChatMessage.t),
    chatMessages s = (l ++ [x])%list ->
    on_chunks assistantMessage chunks (s, log) =
      (Return tt,
       (with_chat s
          (l ++ [match chunks with
                 | [] => x
                 | _ :: _ => says assistant (assistantMessage ++ joined chunks)
                 end])%list,
        log)).
Proof.
  induction chunks as [| chunk rest IH]; intros acc s log l x Hs.
  - cbn. destruct s; cbn in Hs; subst. reflexivity.
  - cbn [on_chunks]. unfold bind, setChatMessages, modify. cbn [fst snd].
    rewrite Hs, replace_last_snoc.
    erewrite IH by reflexivity. unfold with_chat. cbn.
    destruct rest as [| next rest'].
    + unfold joined, says. cbn. rewrite append_nil_r. reflexivity.
    + unfold joined, says. cbn [fold_right]. rewrite append_assoc.
      reflexivity.
Qed.

(** [sendMessage], in closed form. *)
Lemma sendMessage_run (message : string) (s : state) (log : console) :
  sendMessage apiClient message (s, log) =
    match interview s with
    | None => (Return tt, (s, log))
    | Some i =>
        let answer :=
          api_sendChatMessage apiClient (InterviewState.interview_id i)
            message "softskills" (option_map Task.id (currentTask s)) in
        (snd answer,
         (chat_ended s
            (chatMessages s ++
             [says user message; says assistant (joined (fst answer))])%list,
          log))
    end.
Proof.
  unfold sendMessage, bind at 1, read. cbn [fst snd].
  destruct (interview s) as [i |]; [| reflexivity].
  cbn zeta.
  destruct (api_sendChatMessage apiClient _ _ _ _) as [chunks completed].
  unfold bind, try_finally, setChatMessages, setChatLoading,
    setIsChatStreaming, modify, await. cbn [fst snd].
  erewrite on_chunks_snoc
    with (l := (chatMessages s ++ [says user message])%list)
         (x := says assistant "")
    by reflexivity.
  unfold with_chat, chat_ended. cbn.
  rewrite <- app_assoc. cbn [app].
  destruct chunks; destruct completed; reflexivity.
Qed.

Lemma getDefaultCode_not_empty (l : ProgrammingLanguage) :
  getDefaultCode (language_tag l) <> "".
Proof. destruct l; discriminate. Qed.

(** Whatever the task offers, the starter text is not empty. *)
Lemma starter_or_default_not_empty (t : Task.t) (l : ProgrammingLanguage) :
  starter_or_default t l <> "".
Proof.
  unfold starter_or_default, or_else.
  destruct (match Task.starter_code t with
            | Some table => assoc (language_tag l) table
            | None => None
            end) as [text |]; [| apply getDefaultCode_not_empty].
  unfold truthy_string.
  destruct (String.eqb_spec text ""); cbn;
    [apply getDefaultCode_not_empty | assumption].
Qed.


(** [nextTask] past its guard, in closed form. *)
Lemma nextTask_past_guard (s : state) (log : console)
    (i : InterviewState.t) :
  interview s = Some i ->
  (taskNumber s + 1 <= InterviewState.total_tasks i)%Z ->
  nextTask apiClient (s, log) =
    match api_generateTask apiClient (InterviewState.interview_id i)
            (taskNumber s + 1)%Z (avgScore (taskScores s)) with
    | Return (Some t) =>
        if valid_task (Some t)
        then (Return (Some t),
              (advanced s t (InterviewState.language i), log))
        else (Return None,
              (stalled s (InterviewState.language i),
               (log ++ [[LText "[use-interview] Failed to generate task: task is null or invalid"]])%list))
    | Return None =>
        (Return None,
         (stalled s (InterviewState.language i),
          (log ++ [[LText "[use-interview] Failed to generate task: task is null or invalid"]])%list))
    | Throw e =>
        (Return None,
         (stalled s (InterviewState.language i),
          (log ++ [[LText "Error generating next task:"; LError e]])%list))
    end.
Proof.
  intros Hi Hle. run_hook. rewrite Hi.
  destruct (Z.gtb_spec (taskNumber s + 1) (InterviewState.total_tasks i))
    as [Hgt | _]; [lia |].
  unfold advanced, stalled.
  destruct (api_generateTask apiClient _ _ _) as [[t |] | e];
    [destruct (valid_task (Some t)) | |]; cbn; rewrite ?Hi; reflexivity.
Qed.

(** X1: whatever the server answers, the hook is idle again after every
    operation that was started idle: no operation leaves a loading flag
    up. *)
Theorem hook_idle_after_every_operation :
  forall (op : operation) (s : state) (log : console),
    idle s -> idle (fst (after apiClient op (s, log))).
Proof.
  intros op s log (Hl & Ha & Hc & Hs).
  destruct op as [data | | | | | message | | c]; cbn [after].
  - run_hook.
    destruct (api_startInterview apiClient data) as [result | e];
      [destruct (api_generateTask apiClient _ _ _) as [[t |] | e];
       [destruct (valid_task (Some t)) | |] |];
      unfold idle; cbn; repeat split; assumption.
  - run_hook.
    destruct (interview s), (currentTask s);
      [destruct (api_submitCode apiClient _ _ _ _) | | |];
      unfold idle; cbn; repeat split; assumption.
  - run_hook.
    destruct (interview s), (currentTask s);
      [destruct (api_runTests apiClient _ _ _ _) | | |];
      unfold idle; cbn; repeat split; assumption.
  - run_hook.
    destruct (interview s), (currentTask s);
      [destruct (api_getHint apiClient _ _ _) as [[h |] | e] | | |];
      unfold idle; cbn; repeat split; assumption.
  - run_hook.
    destruct (interview s) as [i |];
      [destruct (taskNumber s + 1 >? InterviewState.total_tasks i)%Z;
       [| destruct (api_generateTask apiClient _ _ _) as [[t |] | e];
          [destruct (valid_task (Some t)) | |]] |];
      unfold idle; cbn; repeat split; assumption.
  - rewrite sendMessage_run.
    destruct (interview s); unfold idle; cbn; repeat split; assumption.
  - run_hook.
    destruct (interview s);
      [destruct (api_finishInterview apiClient _) |];
      unfold idle; cbn; repeat split; assumption.
  - unfold idle; cbn; repeat split; assumption.
Qed.

(** X2: the scores and the hint counter only ever grow, by one at a time:
    an operation appends at most one score to [taskScores], and only
    [submitCode] does; it adds at most one to [hintsUsed], and only
    [getHint] does.  Nothing resets them, not even a new
    [startInterview]. *)
Theorem hook_counters_only_grow :
  forall (op : operation) (s : state) (log : console),
    let s' := fst (after apiClient op (s, log)) in
    (exists added : list Z,
       taskScores s' = (taskScores s ++ added)%list /\
       (List.length added <= 1)%nat /\
       (added <> [] -> op = SubmitCode)) /\
    (hintsUsed s <= hintsUsed s' <= hintsUsed s + 1)%Z /\
    (hintsUsed s' <> hintsUsed s -> op = GetHint).
Proof.
  intros op s log s'. subst s'.
  assert (Hsame : forall s' : state,
            taskScores s' = taskScores s ->
            hintsUsed s' = hintsUsed s ->
            (exists added : list Z,
               taskScores s' = (taskScores s ++ added)%list /\
               (List.length added <= 1)%nat /\
               (added <> [] -> op = SubmitCode)) /\
            (hintsUsed s <= hintsUsed s' <= hintsUsed s + 1)%Z /\
            (hintsUsed s' <> hintsUsed s -> op = GetHint)).
  { intros s' Hscores Hhints. split.
    - exists []. rewrite app_nil_r. repeat split; auto. congruence.
    - rewrite Hhints. split; [lia | congruence]. }
  destruct op as [data | | | | | message | | c]; cbn [after].
  - run_hook.
    destruct (api_startInterview apiClient data) as [result | e];
      [destruct (api_generateTask apiClient _ _ _) as [[t |] | e];
       [destruct (valid_task (Some t)) | |] |];
      apply Hsame; reflexivity.
  - run_hook.
    destruct (interview s), (currentTask s); try (apply Hsame; reflexivity).
    destruct (api_submitCode apiClient _ _ _ _) as [r | e];
      [| apply Hsame; reflexivity].
    cbn. split.
    + exists [evaluation_score r]. repeat split; cbn; auto.
    + split; [lia | congruence].
  - run_hook.
    destruct (interview s), (currentTask s);
      [destruct (api_runTests apiClient _ _ _ _) | | |];
      apply Hsame; reflexivity.
  - run_hook.
    destruct (interview s), (currentTask s); try (apply Hsame; reflexivity).
    destruct (api_getHint apiClient _ _ _) as [[h |] | e];
      try (apply Hsame; reflexivity).
    cbn. split.
    + exists []. rewrite app_nil_r. repeat split; auto. congruence.
    + split; [lia | reflexivity].
  - run_hook.
    destruct (interview s) as [i |];
      [destruct (taskNumber s + 1 >? InterviewState.total_tasks i)%Z;
       [| destruct (api_generateTask apiClient _ _ _) as [[t |] | e];
          [destruct (valid_task (Some t)) | |]] |];
      apply Hsame; reflexivity.
  - rewrite sendMessage_run.
    destruct (interview s); apply Hsame; reflexivity.
  - run_hook.
    destruct (interview s);
      [destruct (api_finishInterview apiClient _) |];
      apply Hsame; reflexivity.
  - apply Hsame; reflexivity.
Qed.


(** X3: [startInterview] rethrows the error of the client and then leaves
    interview, task, code and chat as they were.  When the client returns
    an interview it is installed and returned, the chat is replaced by the
    single greeting, and the editor gets a starter text that is never
    empty, whether the first task arrived or not; the task becomes current
    only if a valid one arrived. *)
Theorem startInterview_outcome :
  forall (data : StartData) (s : state) (log : console),
    let done := startInterview apiClient data (s, log) in
    let s' := fst (snd done) in
    match api_startInterview apiClient data with
    | Throw e =>
        fst done = Throw e /\
        interview s' = interview s /\ currentTask s' = currentTask s /\
        code s' = code s /\ chatMessages s' = chatMessages s /\
        snd (snd done) =
          (log ++ [[LText "Error starting interview:"; LError e]])%list
    | Return result =>
        fst done = Return result /\
        interview s' = Some result /\
        chatMessages s' =
          [says assistant (getGreetingMessage (task_language data))] /\
        code s' <> "" /\
        match api_generateTask apiClient
                (InterviewState.interview_id result) 1%Z None with
        | Return (Some t) =>
            if valid_task (Some t)
            then currentTask s' = Some t /\
                 code s' = starter_or_default t (language data)
            else currentTask s' = currentTask s /\
                 code s' = getDefaultCode (language_tag (language data))
        | _ =>
            currentTask s' = currentTask s /\
            code s' = getDefaultCode (language_tag (language data))
        end
    end.
Proof.
  intros data s log done s'. subst s' done.
  pose proof (getDefaultCode_not_empty (language data)) as Hdefault.
  run_hook.
  destruct (api_startInterview apiClient data) as [result | e];
    [| cbn; repeat split; reflexivity].
  destruct (api_generateTask apiClient _ _ _) as [[t |] | e];
    [destruct (valid_task (Some t)) | |]; cbn;
    repeat split; try reflexivity; try assumption.
  apply starter_or_default_not_empty.
Qed.

(** X4: when [nextTask] passes its guard and no valid task arrives (the
    client throws, or returns nothing valid), it returns [null], the task
    and the counter stay, and yet the code in the editor is replaced by
    the default starter text of the language. *)
Theorem nextTask_failure_resets_code :
  forall (s : state) (log : console) (i : InterviewState.t),
    let done := nextTask apiClient (s, log) in
    interview s = Some i ->
    (taskNumber s + 1 <= InterviewState.total_tasks i)%Z ->
    fst done = Return None ->
    code (fst (snd done)) =
      getDefaultCode (language_tag (InterviewState.language i)) /\
    code (fst (snd done)) <> "" /\
    currentTask (fst (snd done)) = currentTask s /\
    taskNumber (fst (snd done)) = taskNumber s.
Proof.
  intros s log i done Hi Hle. subst done.
  pose proof (getDefaultCode_not_empty (InterviewState.language i))
    as Hdefault.
  run_hook. rewrite Hi.
  destruct (Z.gtb_spec (taskNumber s + 1) (InterviewState.total_tasks i))
    as [Hgt | _]; [lia |].
  destruct (api_generateTask apiClient _ _ _) as [[t |] | e];
    [destruct (valid_task (Some t)) | |]; cbn;
    intros Hnone; try discriminate Hnone; repeat split; assumption || reflexivity.
Qed.

(** X5: [sendMessage] does nothing without an interview.  With one, the
    chat ends up as the previous messages, the message of the user, and
    one message of the assistant holding all the chunks received, in
    order (the empty text when none came); the call completes as the call
    of the client does, and the two chat flags are down afterwards. *)
Theorem sendMessage_transcript :
  forall (message : string) (s : state) (log : console),
    sendMessage apiClient message (s, log) =
      match interview s with
      | None => (Return tt, (s, log))
      | Some i =>
          let answer :=
            api_sendChatMessage apiClient (InterviewState.interview_id i)
              message "softskills" (option_map Task.id (currentTask s)) in
          (snd answer,
           (chat_ended s
              (chatMessages s ++
               [says user message;
                says assistant (fold_right String.append "" (fst answer))])%list,
            log))
      end.
Proof.
  intros message s log.
  unfold sendMessage, bind at 1, read. cbn [fst snd].
  destruct (interview s) as [i |]; [| reflexivity].
  cbn zeta.
  destruct (api_sendChatMessage apiClient _ _ _ _) as [chunks completed].
  unfold bind, try_finally, setChatMessages, setChatLoading,
    setIsChatStreaming, modify, await. cbn [fst snd].
  erewrite on_chunks_snoc
    with (l := (chatMessages s ++ [says user message])%list)
         (x := says assistant "")
    by reflexivity.
  unfold with_chat, chat_ended, joined. cbn.
  rewrite <- app_assoc. cbn [app].
  destruct chunks; destruct completed; reflexivity.
Qed.

End HookOperations.

Lemma hook_idle_after_every_operation_witness :
  idle (fst (UseInterview.after Samples.serving UseInterview.NextTask
               (Samples.working 3, []))).
Proof.
  apply (hook_idle_after_every_operation Samples.serving
           UseInterview.NextTask (Samples.working 3) []).
  unfold idle. cbn. repeat split; reflexivity.
Defined.

Lemma nextTask_failure_resets_code_witness :
  UseInterview.code
    (fst (snd (UseInterview.nextTask Samples.offline
                 (Samples.working 3, []))))
  = UseInterview.getDefaultCode "python".
Proof.
  apply (nextTask_failure_resets_code Samples.offline (Samples.working 3) []
           (Samples.interview_1 3)); [reflexivity | cbn; lia | reflexivity].
Defined.

(** ** Submitting *)

(** X6: [handleSubmit] of the screen has no [catch]: when the client
    throws, the error leaves [handleSubmit], no dialog opens and no score
    is recorded, though the loading flag is down again.  When the client
    returns, the score of the evaluation is appended to [taskScores] and
    the submit dialog opens with that evaluation.  Without interview or
    task nothing happens. *)
Theorem handleSubmit_outcome :
  forall (apiClient : UseInterview.client) (sc : InterviewScreen.screen)
         (s : UseInterview.state) (log : console),
    let done := InterviewScreen.handleSubmit apiClient (sc, (s, log)) in
    let sc' := fst (snd done) in
    let s' := fst (snd (snd done)) in
    match UseInterview.interview s, UseInterview.currentTask s with
    | Some i, Some t =>
        match UseInterview.api_submitCode apiClient
                (InterviewState.interview_id i) (Task.id t)
                (UseInterview.code s) (InterviewState.language i) with
        | Return result =>
            fst done = Return tt /\
            InterviewScreen.showSubmitDialog sc' = true /\
            InterviewScreen.lastEvaluation sc' = Some result /\
            UseInterview.taskScores s' =
              (UseInterview.taskScores s ++
               [UseInterview.evaluation_score result])%list /\
            UseInterview.isLoading s' = false
        | Throw e =>
            fst done = Throw e /\
            sc' = sc /\
            UseInterview.taskScores s' = UseInterview.taskScores s /\
            UseInterview.isLoading s' = false /\
            snd (snd (snd done)) = log
        end
    | _, _ => fst done = Return tt /\ sc' = sc /\ s' = s
    end.
Proof.
  intros apiClient sc s log done sc' s'. subst sc' s' done.
  unfold InterviewScreen.handleSubmit, UseInterview.submitCode,
    UseInterview.bind, UseInterview.read, UseInterview.try_finally,
    UseInterview.await, UseInterview.ret, UseInterview.setIsLoading,
    UseInterview.setLoadingAction, UseInterview.setTaskScores,
    UseInterview.modify.
  cbn.
  destruct (UseInterview.interview s) as [i |],
    (UseInterview.currentTask s) as [t |];
    try (cbn; repeat split; reflexivity).
  destruct (UseInterview.api_submitCode apiClient _ _ _ _) as [r | e];
    cbn; repeat split; reflexivity.
Qed.

(** ** Substrings *)

Section Includes.

Import UseAntiCheat.

Lemma prefix_app (part rest : string) : prefix part (part ++ rest) = true.
Proof.
  induction part as [| c part IH]; cbn.
  - destruct rest; reflexivity.
  - destruct (ascii_dec c c) as [_ | Hne]; [exact IH | contradiction].
Qed.

Lemma prefix_split (part text : string) :
  prefix part text = true -> exists rest, text = part ++ rest.
Proof.
  revert text. induction part as [| c part IH]; intros text H.
  - exists text. reflexivity.
  - destruct text as [| d text]; cbn in H; [discriminate |].
    destruct (ascii_dec c d) as [<- | _]; [| discriminate].
    destruct (IH text H) as [rest ->]. exists rest. reflexivity.
Qed.

(** [includes] finds exactly the texts that have the part somewhere. *)
Lemma includes_spec (part text : string) :
  includes part text = true <->
  exists before after, text = before ++ part ++ after.
Proof.
  split.
  - induction text as [| c text IH]; cbn [includes]; intros H.
    + rewrite orb_false_r in H. apply prefix_split in H.
      destruct H as [rest ->]. exists "", rest. reflexivity.
    + apply orb_true_iff in H. destruct H as [H | H].
      * apply prefix_split in H. destruct H as [rest ->].
        exists "", rest. reflexivity.
      * destruct (IH H) as (before & after & ->).
        exists (String c before), after. reflexivity.
  - intros (before & after & ->).
    induction before as [| c before IH].
    + cbn [append]. destruct (part ++ after) eqn:E; cbn [includes];
        rewrite <- E, prefix_app; reflexivity.
    + cbn [append includes]. rewrite IH. apply orb_true_r.
Qed.

Lemma includes_trans (a b text : string) :
  includes a b = true -> includes b text = true -> includes a text = true.
Proof.
  rewrite !includes_spec.
  intros (b1 & b2 & ->) (t1 & t2 & ->).
  exists (t1 ++ b1), (b2 ++ t2).
  rewrite !append_assoc. reflexivity.
Qed.

End Includes.

(** ** The methods of the client *)

Section ClientMethods.

Import UseInterview ApiCalls.

Variable NEXT_PUBLIC_API_URL : option string.
Variable net : network.

(** What [generateTask] returns passed both checks. *)
Lemma generateTask_returns (interview_id : string) (task_number : Z)
    (previous : option double) (t : Task.t) :
  fst (generateTask NEXT_PUBLIC_API_URL (fetch_task net) interview_id
         task_number previous) = Return t ->
  valid_task (Some t) = true /\
  snd (generateTask NEXT_PUBLIC_API_URL (fetch_task net) interview_id
         task_number previous) = [].
Proof.
  unfold generateTask, json_of, valid_task.
  destruct (fetch_task net _ _) as [res | e]; [| discriminate].
  destruct (ok res); cbn [negb]; [| discriminate].
  destruct (parsed res) as [[data |] |]; try discriminate.
  destruct (truthy_string (Task.id data)) eqn:Hid,
    (truthy_string (Task.title data)) eqn:Htitle;
    cbn; try discriminate.
  intros [= <-]. rewrite Hid, Htitle. split; reflexivity.
Qed.

(** X8: through the client of lib/api-client.ts, [nextTask] of the hook
    (past its guard) advances exactly when [generateTask] returns: the
    task it returns always has an id and a title, so the hook makes it
    current, increments the counter and logs nothing; when
    [generateTask] throws, the hook returns [null] and logs that error.
    The branch of the hook for a null or invalid task is never taken. *)
Theorem nextTask_through_client :
  forall (s : state) (log : console) (i : InterviewState.t),
    let done := nextTask (apiClient NEXT_PUBLIC_API_URL net) (s, log) in
    let generated :=
      fst (generateTask NEXT_PUBLIC_API_URL (fetch_task net)
             (InterviewState.interview_id i) (taskNumber s + 1)%Z
             (avgScore (taskScores s))) in
    interview s = Some i ->
    (taskNumber s + 1 <= InterviewState.total_tasks i)%Z ->
    match generated with
    | Return t =>
        valid_task (Some t) = true /\
        fst done = Return (Some t) /\
        currentTask (fst (snd done)) = Some t /\
        taskNumber (fst (snd done)) = (taskNumber s + 1)%Z /\
        snd (snd done) = log
    | Throw e =>
        fst done = Return None /\
        taskNumber (fst (snd done)) = taskNumber s /\
        snd (snd done) =
          (log ++ [[LText "Error generating next task:"; LError e]])%list
    end.
Proof.
  intros s log i done generated Hi Hle. subst done.
  pose proof (generateTask_returns (InterviewState.interview_id i)
                (taskNumber s + 1)%Z (avgScore (taskScores s))) as Hvalid.
  fold generated in Hvalid.
  rewrite (nextTask_past_guard _ s log i Hi Hle).
  cbn [api_generateTask apiClient]. fold generated.
  destruct generated as [t | e].
  - destruct (Hvalid t eq_refl) as [Hv _]. rewrite Hv.
    repeat split; reflexivity.
  - repeat split; reflexivity.
Qed.

(** X9: unlike the other methods, [generateTask] puts the status and the
    whole body of a failed response into the message of the error it
    throws, and logs them.  Through the hook the caller of [nextTask]
    still gets [null] only; the text of the server ends up in the
    console. *)
Theorem generateTask_failure_carries_body :
  forall (s : state) (log : console) (i : InterviewState.t)
         (res : response (option Task.t)),
    let failure :=
      Error ("Failed to generate task: " ++ number_to_string (status res)
             ++ " " ++ text res) in
    let generated :=
      generateTask NEXT_PUBLIC_API_URL (fetch_task net)
        (InterviewState.interview_id i) (taskNumber s + 1)%Z
        (avgScore (taskScores s)) in
    let done := nextTask (apiClient NEXT_PUBLIC_API_URL net) (s, log) in
    interview s = Some i ->
    (taskNumber s + 1 <= InterviewState.total_tasks i)%Z ->
    fetch_task net
      (API_BASE NEXT_PUBLIC_API_URL ++ "/api/interview/generate-task")
      {| gt_interview_id := InterviewState.interview_id i;
         gt_task_number := (taskNumber s + 1)%Z;
         gt_previous_performance := avgScore (taskScores s) |}
      = Return res ->
    ok res = false ->
    fst generated = Throw failure /\
    snd generated =
      [[LText "[API] Failed to generate task:";
        LText (number_to_string (status res)); LText (text res)]] /\
    UseAntiCheat.includes (text res) (message failure) = true /\
    fst done = Return None /\
    snd (snd done) =
      (log ++ [[LText "Error generating next task:"; LError failure]])%list.
Proof.
  intros s log i res failure generated done Hi Hle Hfetch Hok.
  assert (Hgen : generated =
                 (Throw failure,
                  [[LText "[API] Failed to generate task:";
                    LText (number_to_string (status res));
                    LText (text res)]])).
  { subst generated. unfold generateTask. rewrite Hfetch, Hok. reflexivity. }
  split; [rewrite Hgen; reflexivity |].
  split; [rewrite Hgen; reflexivity |].
  split.
  { apply includes_spec.
    exists ("Failed to generate task: " ++ number_to_string (status res)
            ++ " "), "".
    subst failure. cbn [message Error].
    rewrite append_nil_r, !append_assoc. reflexivity. }
  subst done. rewrite (nextTask_past_guard _ s log i Hi Hle).
  cbn [api_generateTask apiClient]. fold generated. rewrite Hgen.
  split; reflexivity.
Qed.

End ClientMethods.

Lemma nextTask_through_client_witness :
  fst (UseInterview.nextTask (ApiCalls.apiClient None Samples2.net_serving)
         (Samples.working 3, []))
  = Return (Some Samples.task_1).
Proof.
  pose proof (nextTask_through_client None Samples2.net_serving
                (Samples.working 3) [] (Samples.interview_1 3) eq_refl)
    as H.
  cbn zeta in H.
  assert (Hle : (UseInterview.taskNumber (Samples.working 3) + 1
                 <= InterviewState.total_tasks (Samples.interview_1 3))%Z)
    by (cbn; lia).
  specialize (H Hle). cbn in H. destruct H as (_ & H & _). exact H.
Defined.

Lemma generateTask_failure_carries_body_witness :
  UseAntiCheat.includes (text Samples2.task_failure)
    "Failed to generate task: 500 Traceback (most recent call last): llm_client.py, line 41"
  = true /\
  fst (UseInterview.nextTask (ApiCalls.apiClient None Samples2.net_failing)
         (Samples.working 3, []))
  = Return None.
Proof.
  assert (Hle : (UseInterview.taskNumber (Samples.working 3) + 1
                 <= InterviewState.total_tasks (Samples.interview_1 3))%Z)
    by (cbn; lia).
  destruct (generateTask_failure_carries_body None Samples2.net_failing
              (Samples.working 3) [] (Samples.interview_1 3)
              Samples2.task_failure eq_refl Hle eq_refl eq_refl)
    as (_ & _ & Hincludes & Hnull & _).
  split; [exact Hincludes | exact Hnull].
Defined.

(** ** Reports of anti-cheat events *)

(** X10: reporting an anti-cheat event never throws to the handler that
    asked for it.  A response of the server is not looked at, so when the
    server answers, whatever the status, nothing is logged either; only a
    rejected request is logged.  When the hook is disabled or has no
    interview id, the client is not called at all. *)
Theorem anti_cheat_report_never_throws :
  forall (P : Type) (NEXT_PUBLIC_API_URL : option string)
         (fetch : request -> completion (response P))
         (cfg : UseAntiCheat.config) (eventType : string)
         (details : option json),
    let reported :=
      UseAntiCheat.reportEvent_awaited
        (ApiCalls.reportAntiCheatEvent NEXT_PUBLIC_API_URL fetch)
        cfg eventType details in
    fst reported = Return tt /\
    ((forall req, exists res, fetch req = Return res) ->
     snd reported = []) /\
    ((forall req, exists e, fetch req = Throw e) ->
     UseAntiCheat.reportEvent cfg eventType details <> [] ->
     exists e,
       snd reported =
         [[LText "Failed to report anti-cheat event:"; LError e]]) /\
    (UseAntiCheat.reportEvent cfg eventType details = [] ->
     reported = (Return tt, [])).
Proof.
  intros P env fetch cfg eventType details reported. subst reported.
  unfold UseAntiCheat.reportEvent_awaited, UseAntiCheat.reportEvent,
    ApiCalls.reportAntiCheatEvent.
  destruct (negb (UseAntiCheat.enabled cfg) ||
            negb (truthy_string (UseAntiCheat.interviewId cfg))).
  - repeat split; try reflexivity. intros _ H. contradiction.
  - match goal with
    | |- context [fetch ?r] => set (req := r)
    end.
    split; [destruct (fetch req); reflexivity |].
    split; [| split].
    + intros Hanswers. destruct (Hanswers req) as [res ->]. reflexivity.
    + intros Hrejects _. destruct (Hrejects req) as [e ->].
      exists e. reflexivity.
    + discriminate.
Qed.

(** ** The reader of the chat stream *)

Section ChatStream.

Import ApiCalls.

Variable content_of : string -> option string.

Lemma split_lines_not_empty (text : string) : split_lines text <> [].
Proof.
  destruct text as [| c rest]; cbn; [discriminate |].
  destruct (Ascii.eqb c _); [discriminate |].
  destruct (split_lines rest); discriminate.
Qed.

(** Splitting a text that has a line feed: the lines of what is before
    it, then the lines of what is after it. *)
Lemma split_lines_app (before after : string) :
  split_lines (before ++ LF ++ after)
  = (split_lines before ++ split_lines after)%list.
Proof.
  induction before as [| c before IH]; [reflexivity |].
  cbn [append split_lines]. rewrite IH.
  destruct (Ascii.eqb c _); [reflexivity |].
  pose proof (split_lines_not_empty before) as Hne.
  destruct (split_lines before); [contradiction | reflexivity].
Qed.

Lemma split_lines_single (text : string) :
  UseAntiCheat.line_feeds text = 0%nat -> split_lines text = [text].
Proof.
  induction text as [| c text IH]; [reflexivity |].
  cbn [UseAntiCheat.line_feeds split_lines].
  destruct (Ascii.eqb c _); [discriminate |].
  cbn. intros H. rewrite (IH H). reflexivity.
Qed.

Lemma substring_all (text : string) :
  substring 0 (String.length text) text = text.
Proof.
  induction text as [| c text IH]; [reflexivity |].
  cbn. rewrite IH. reflexivity.
Qed.

Lemma slice6_data (payload : string) : slice6 ("data: " ++ payload) = payload.
Proof.
  unfold slice6. cbn. rewrite Nat.sub_0_r. apply substring_all.
Qed.

(** Nothing is read after the line [data: [DONE]]. *)
Lemma read_lines_done (before after : list string) :
  read_lines content_of (before ++ "data: [DONE]" :: after)%list
  = read_lines content_of before.
Proof.
  induction before as [| line before IH]; [reflexivity |].
  cbn [app read_lines]. rewrite IH. reflexivity.
Qed.

End ChatStream.

(** X11: the line [data: [DONE]] ends the reading of the network chunk it
    is in, and of that chunk only: the lines before it are read, the lines
    after it in the same chunk are dropped, and the chunks that follow
    are read as usual. *)
Theorem done_marker_cuts_its_chunk_only :
  forall (content_of : string -> option string)
         (before after : string) (later : list string),
    ApiCalls.read_stream content_of
      ((before ++ LF ++ "data: [DONE]" ++ LF ++ after) :: later)
    = (ApiCalls.read_lines content_of (ApiCalls.split_lines before)
       ++ ApiCalls.read_stream content_of later)%list /\
    ApiCalls.read_stream content_of
      ((before ++ LF ++ "data: [DONE]") :: later)
    = (ApiCalls.read_lines content_of (ApiCalls.split_lines before)
       ++ ApiCalls.read_stream content_of later)%list.
Proof.
  intros content_of before after later.
  unfold ApiCalls.read_stream. cbn [flat_map].
  rewrite !split_lines_app.
  change (ApiCalls.split_lines "data: [DONE]") with ["data: [DONE]"].
  cbn [app]. rewrite !read_lines_done. split; reflexivity.
Qed.

(** X12: the reader works chunk by chunk, so a data line that the network
    delivers in two chunks is lost: the line [data: p1p2] in one chunk
    hands its content to [onChunk], but cut after [p1] it hands over
    nothing when [p1] alone does not parse and [p2] is no data line. *)
Theorem data_line_cut_in_two_is_lost :
  forall (content_of : string -> option string) (p1 p2 content : string),
    UseAntiCheat.line_feeds p1 = 0%nat ->
    UseAntiCheat.line_feeds p2 = 0%nat ->
    content_of (p1 ++ p2) = Some content ->
    p1 ++ p2 <> "[DONE]" ->
    content_of p1 = None ->
    prefix "data: " p2 = false ->
    ApiCalls.read_stream content_of ["data: " ++ p1 ++ p2] = [content] /\
    ApiCalls.read_stream content_of ["data: " ++ p1; p2] = [].
Proof.
  intros content_of p1 p2 content H1 H2 Hwhole Hdone Hpart Hp2.
  assert (H12 : UseAntiCheat.line_feeds (p1 ++ p2) = 0%nat).
  { clear - H1 H2. induction p1 as [| c p1 IH]; [exact H2 |].
    cbn [append UseAntiCheat.line_feeds] in *.
    destruct (Ascii.eqb c _); [discriminate |].
    apply IH. exact H1. }
  assert (Hdata : forall payload,
            UseAntiCheat.line_feeds payload = 0%nat ->
            ApiCalls.split_lines ("data: " ++ payload)
            = ["data: " ++ payload]).
  { intros payload H. apply split_lines_single. cbn. exact H. }
  unfold ApiCalls.read_stream. cbn [flat_map].
  rewrite (Hdata (p1 ++ p2) H12), (Hdata p1 H1), (split_lines_single p2 H2).
  cbn [ApiCalls.read_lines app].
  rewrite !prefix_app, !slice6_data, Hwhole, Hpart, Hp2.
  destruct (String.eqb_spec (p1 ++ p2) "[DONE]") as [E | _];
    [contradiction |].
  destruct (p1 =? "[DONE]"); split; reflexivity.
Qed.

Lemma data_line_cut_in_two_is_lost_witness :
  ApiCalls.read_stream Samples2.greeting_only ["data: {content:Hello}"]
    = ["Hello"] /\
  ApiCalls.read_stream Samples2.greeting_only ["data: {content:"; "Hello}"]
    = [].
Proof.
  apply (data_line_cut_in_two_is_lost Samples2.greeting_only
           "{content:" "Hello}" "Hello");
    try reflexivity.
  discriminate.
Defined.

(** ** The anti-cheat hook *)

Section AntiCheat.

Import UseAntiCheat.

Variable cfg : config.

Lemma reportEvent_active (eventType : string) (details : option json) :
  active cfg -> reportEvent cfg eventType details = [(eventType, details)].
Proof.
  intros [Hon Hid]. unfold reportEvent, truthy_string. rewrite Hon.
  destruct (String.eqb_spec (interviewId cfg) ""); [contradiction |].
  reflexivity.
Qed.

Lemma reportEvent_inactive (eventType : string) (details : option json) :
  enabled cfg = false \/ interviewId cfg = "" ->
  reportEvent cfg eventType details = [].
Proof.
  unfold reportEvent, truthy_string. intros [-> | ->]; [reflexivity |].
  cbn. rewrite orb_true_r. reflexivity.
Qed.

Lemma reportEvent_kinds (eventType : string) (details : option json) :
  forall kind, In kind (kinds (reportEvent cfg eventType details)) ->
               kind = eventType.
Proof.
  intros kind. unfold reportEvent.
  destruct (negb (enabled cfg) || negb (truthy_string (interviewId cfg)));
    cbn; intuition.
Qed.

(** The filter keeps no more than it is given. *)
Lemma recent_length {A : Type} (stamp : A -> Z) (window : Z)
    (now : nat -> Z) (history : list A) :
  forall k : nat,
    (List.length (recent stamp window now k history)
     <= List.length history)%nat.
Proof.
  induction history as [| x history IH]; intros k; cbn; [lia |].
  destruct (now k - stamp x <? window)%Z; cbn; specialize (IH (S k)); lia.
Qed.

(** With every entry inside the window, the filter keeps them all. *)
Lemma recent_all {A : Type} (stamp : A -> Z) (window : Z)
    (now : nat -> Z) (history : list A) :
  forall k : nat,
    (forall j x, In x history -> now j - stamp x < window)%Z ->
    recent stamp window now k history = history.
Proof.
  induction history as [| x history IH]; intros k Hall; cbn; [reflexivity |].
  destruct (Z.ltb_spec (now k - stamp x) window) as [_ | Hge].
  - rewrite IH; [reflexivity |]. intros j y Hy. apply Hall. right. exact Hy.
  - specialize (Hall k x (or_introl eq_refl)). lia.
Qed.

(** X13: an enabled hook classifies a paste by its length in UTF-16 code
    units.  Above 200 it reports [large_paste] and records the length;
    from 51 to 200 it reports [copy_paste] exactly when the text has a
    code marker; up to 50 it reports neither, whatever the text holds.
    The two events are never reported together. *)
Theorem paste_classified_by_length :
  forall (now : nat -> Z) (text : string) (r : refs),
    let n := Z.of_nat (js_length text) in
    let out := checkPaste cfg now text r in
    active cfg ->
    (In "large_paste" (kinds (snd out)) <-> (200 < n)%Z) /\
    (In "copy_paste" (kinds (snd out)) <->
     (50 < n <= 200)%Z /\ hasCodeMarkers text = true) /\
    lastPasteLength (fst out) =
      (if (200 <? n)%Z then n else lastPasteLength r).
Proof.
  intros now text r n out Hactive. subst out. unfold checkPaste.
  fold n.
  set (later := if (Z.of_nat (List.length _) >? 5)%Z then _ else _).
  assert (Hlater : forall kind, In kind (kinds later) ->
                                kind = "frequent_paste").
  { intros kind. subst later.
    destruct (Z.of_nat (List.length _) >? 5)%Z;
      [apply reportEvent_kinds | cbn; contradiction]. }
  rewrite (Z.gtb_ltb n 200), (Z.gtb_ltb n 50).
  assert (Hnot : forall kind, kind <> "frequent_paste" ->
                              ~ In kind (kinds later)).
  { intros kind Hkind H. apply Hkind, Hlater, H. }
  destruct (Z.ltb_spec 200 n) as [Hbig | Hsmall].
  - rewrite (reportEvent_active _ _ Hactive). cbn [fst snd].
    change (kinds ([("large_paste", ?d)] ++ later)%list)
      with ("large_paste" :: kinds later).
    split; [| split; [| reflexivity]].
    + split; [intros _; exact Hbig | intros _; left; reflexivity].
    + split.
      * intros [H | H]; [discriminate H |].
        exfalso. revert H. apply Hnot. discriminate.
      * intros [[_ H] _]. lia.
  - destruct (Z.ltb_spec 50 n) as [Hmid | Hlow];
      [destruct (hasCodeMarkers text) eqn:Hmarkers |]; cbn [andb fst snd].
    + rewrite (reportEvent_active _ _ Hactive).
      change (kinds ([("copy_paste", ?d)] ++ later)%list)
        with ("copy_paste" :: kinds later).
      split; [| split; [| reflexivity]].
      * split; [| lia].
        intros [H | H]; [discriminate H |].
        exfalso. revert H. apply Hnot. discriminate.
      * split; [intros _; split; [lia | reflexivity]
               | intros _; left; reflexivity].
    + cbn [app].
      split; [| split; [| reflexivity]].
      * split; [| lia].
        intros H. exfalso. revert H. apply Hnot. discriminate.
      * split; [| intros [_ H]; discriminate H].
        intros H. exfalso. revert H. apply Hnot. discriminate.
    + cbn [app].
      split; [| split; [| reflexivity]].
      * split; [| lia].
        intros H. exfalso. revert H. apply Hnot. discriminate.
      * split; [| intros [H _]; lia].
        intros H. exfalso. revert H. apply Hnot. discriminate.
Qed.

(** X14: every paste is recorded, also when the hook is disabled, and the
    record is never pruned: after [checkPaste] the history is the old one
    with the paste at its end.  [frequent_paste] is reported only when at
    least six pastes are on record, and it is reported by an enabled hook
    when more than five are, all of them within the last minute. *)
Theorem paste_history_grows :
  forall (now : nat -> Z) (text : string) (r : refs),
    let out := checkPaste cfg now text r in
    pasteHistory (fst out) = (pasteHistory r ++ [(text, now 1%nat)])%list /\
    codeChangeHistory (fst out) = codeChangeHistory r /\
    tabSwitchCount (fst out) = tabSwitchCount r /\
    (In "frequent_paste" (kinds (snd out)) ->
     (6 <= List.length (pasteHistory (fst out)))%nat) /\
    (active cfg ->
     (forall j p, In p (pasteHistory (fst out)) ->
                  now j - snd p < 60000)%Z ->
     (5 < List.length (pasteHistory (fst out)))%nat ->
     In "frequent_paste" (kinds (snd out))).
Proof.
  intros now text r out. subst out. unfold checkPaste.
  set (history := (pasteHistory r ++ [(text, now 1%nat)])%list).
  set (first := if (Z.of_nat (js_length text) >? 200)%Z then _ else _).
  assert (Hfirst : forall kind, In kind (kinds (snd first)) ->
                                kind = "large_paste" \/ kind = "copy_paste").
  { intros kind. subst first.
    destruct (Z.of_nat (js_length text) >? 200)%Z; cbn [snd].
    - intros H. left. exact (reportEvent_kinds _ _ _ H).
    - destruct ((Z.of_nat (js_length text) >? 50)%Z && hasCodeMarkers text);
        cbn [snd].
      + intros H. right. exact (reportEvent_kinds _ _ _ H).
      + cbn. contradiction. }
  destruct first as [lastPaste firstReports]. cbn [fst snd] in *.
  split; [reflexivity |]. split; [reflexivity |]. split; [reflexivity |].
  cbn [fst snd pasteHistory].
  split.
  - unfold kinds in *. rewrite map_app, in_app_iff.
    intros [H | H].
    + destruct (Hfirst _ H) as [E | E]; discriminate E.
    + pose proof (recent_length snd 60000%Z now history 2) as Hlen.
      destruct (Z.gtb_spec
                  (Z.of_nat (List.length (recent snd 60000%Z now 2 history)))
                  5) as [Hmany | _]; [lia | destruct H].
  - intros Hactive Hwindow Hmany.
    rewrite (recent_all snd 60000%Z now history 2 Hwindow).
    destruct (Z.gtb_spec (Z.of_nat (List.length history)) 5) as [_ | Hfew];
      [| lia].
    rewrite (reportEvent_active _ _ Hactive).
    unfold kinds. rewrite map_app, in_app_iff. right. left. reflexivity.
Qed.

End AntiCheat.

Lemma paste_classified_by_length_witness :
  In "copy_paste"
    (kinds (snd (UseAntiCheat.checkPaste Samples2.watching Samples2.noon
                   "def solve(values): return sorted(values)[len(values) // 2]"
                   UseAntiCheat.initial))).
Proof.
  apply (paste_classified_by_length Samples2.watching Samples2.noon
           "def solve(values): return sorted(values)[len(values) // 2]"
           UseAntiCheat.initial).
  - split; [reflexivity | discriminate].
  - split; [| reflexivity].
    split; [reflexivity | intros H; vm_compute in H; discriminate H].
Defined.

Section CodeChanges.

Import UseAntiCheat.

Variable cfg : config.

Lemma last10_of_ten {A : Type} (history : list A) :
  List.length history = 10%nat -> last10 history = history.
Proof.
  intros H. unfold last10. rewrite H. reflexivity.
Qed.

(** X15: the record of code changes is a buffer of at most nine entries:
    [trackCodeChange] keeps it below ten, and an enabled hook reports
    [code_change_timestamp] exactly on the call that finds nine entries
    on record. *)
Theorem code_change_buffer_bounded :
  forall (now : nat -> Z) (oldCode newCode : string) (r : refs),
    let out := trackCodeChange cfg now oldCode newCode r in
    (List.length (codeChangeHistory r) < 10)%nat ->
    (List.length (codeChangeHistory (fst out)) < 10)%nat /\
    (active cfg ->
     (In "code_change_timestamp" (kinds (snd out)) <->
      List.length (codeChangeHistory r) = 9%nat) /\
     (List.length (codeChangeHistory r) <> 9%nat ->
      List.length (codeChangeHistory (fst out))
      = S (List.length (codeChangeHistory r)))).
Proof.
  intros now oldCode newCode r out Hbound. subst out.
  unfold trackCodeChange.
  destruct (negb (enabled cfg) || negb (truthy_string (interviewId cfg)))
    eqn:Hguard.
  - cbn [fst snd]. split; [exact Hbound |].
    intros [Hon Hid]. exfalso. rewrite Hon in Hguard. cbn in Hguard.
    unfold truthy_string in Hguard.
    destruct (String.eqb_spec (interviewId cfg) ""); [contradiction |].
    discriminate Hguard.
  - set (change := {| timestamp := now 0%nat; size := _; lines := _ |}).
    set (pushed := (codeChangeHistory r ++ [change])%list).
    assert (Hpushed : List.length pushed
                      = S (List.length (codeChangeHistory r))).
    { subst pushed. rewrite length_app. cbn. lia. }
    destruct (Nat.leb_spec 10 (List.length pushed)) as [Hfull | Hroom].
    + cbn [fst snd codeChangeHistory List.length]. split; [lia |].
      intros Hactive. rewrite (reportEvent_active cfg _ _ Hactive).
      split; [| intros Hnot; lia].
      split; [intros _; lia | intros _; left; reflexivity].
    + cbn [fst snd codeChangeHistory app]. split; [lia |].
      intros Hactive. split; [| intros _; exact Hpushed].
      split; [| intros H9; lia].
      set (later := if (_ >? 50)%Z then _ else _).
      intros H. exfalso.
      assert (Hlater : forall kind, In kind (kinds later) ->
                                    kind = "large_code_change").
      { intros kind. subst later.
        destruct (_ >? 50)%Z; [apply reportEvent_kinds | cbn; contradiction]. }
      apply Hlater in H. discriminate H.
Qed.

(** X16: on the call that fills the buffer, an enabled hook makes exactly
    one report, [code_change_timestamp] with the ten changes on record,
    and empties the buffer before it looks for large changes: no
    [large_code_change] is reported on that call, however many lines the
    change has. *)
Theorem code_change_flush :
  forall (now : nat -> Z) (oldCode newCode : string) (r : refs),
    let out := trackCodeChange cfg now oldCode newCode r in
    let change :=
      {| timestamp := now 0%nat;
         size := Z.of_nat (js_length newCode) - Z.of_nat (js_length oldCode);
         lines := Z.of_nat (line_feeds newCode)
                  - Z.of_nat (line_feeds oldCode) |} in
    active cfg ->
    List.length (codeChangeHistory r) = 9%nat ->
    snd out =
      [("code_change_timestamp",
        Some (JObj [("changes",
                     JArr (map change_json
                             (codeChangeHistory r ++ [change])))]))] /\
    codeChangeHistory (fst out) = [] /\
    ~ In "large_code_change" (kinds (snd out)).
Proof.
  intros now oldCode newCode r out change [Hon Hid] H9. subst out.
  assert (Hactive : active cfg) by (split; assumption).
  unfold trackCodeChange. rewrite Hon. unfold truthy_string.
  destruct (String.eqb_spec (interviewId cfg) ""); [contradiction |].
  cbn [negb orb]. fold change.
  assert (Hten : List.length (codeChangeHistory r ++ [change])%list
                 = 10%nat)
    by (rewrite length_app, H9; reflexivity).
  rewrite Hten. cbn [Nat.leb recent fold_left map fst snd Z.gtb Z.compare].
  rewrite (reportEvent_active cfg _ _ Hactive).
  rewrite (last10_of_ten _ Hten). cbn [app].
  repeat split. intros [H | []]. discriminate H.
Qed.

(** X17: a hook that is disabled, or has no interview id, reports
    nothing, whatever happens in the page, and hands the result of every
    [fetch] on unchanged; [trackCodeChange] then leaves its record alone,
    while [checkPaste] still records the paste.  A disabled hook installs
    nothing: tab switches are not counted and [window.open] is the
    original one.  A hook that is enabled without an interview id still
    counts the tab switches and still blocks [window.open]. *)
Theorem disabled_hook_reports_nothing :
  forall (W : Type) (now : nat -> Z) (text oldCode newCode url : string)
         (hidden : bool) (outerWidth innerWidth outerHeight innerHeight : Z)
         (originalFetch : string -> completion unit)
         (originalOpen : string -> option W) (r : refs),
    enabled cfg = false \/ interviewId cfg = "" ->
    snd (on_visibilitychange cfg hidden r) = [] /\
    on_interval cfg outerWidth innerWidth outerHeight innerHeight = [] /\
    snd (checkPaste cfg now text r) = [] /\
    trackCodeChange cfg now oldCode newCode r = (r, []) /\
    window_fetch cfg originalFetch url = (originalFetch url, []) /\
    snd (window_open cfg originalOpen url) = [] /\
    pasteHistory (fst (checkPaste cfg now text r))
      = (pasteHistory r ++ [(text, now 1%nat)])%list /\
    (if enabled cfg
     then tabSwitchCount (fst (on_visibilitychange cfg true r))
            = (tabSwitchCount r + 1)%Z /\
          fst (window_open cfg originalOpen url) = None
     else fst (on_visibilitychange cfg true r) = r /\
          fst (window_open cfg originalOpen url) = originalOpen url).
Proof.
  intros W now text oldCode newCode url hidden ow iw oh ih originalFetch
    originalOpen r Hoff.
  pose proof (fun t d => reportEvent_inactive cfg t d Hoff) as Hnone.
  assert (Hguard : negb (enabled cfg) ||
                   negb (truthy_string (interviewId cfg)) = true).
  { destruct Hoff as [-> | ->]; [reflexivity |].
    cbn. apply orb_true_r. }
  split; [| split; [| split; [| split; [| split; [| split; [| split]]]]]].
  - unfold on_visibilitychange, handleVisibilityChange.
    destruct (enabled cfg); [| reflexivity].
    destruct hidden; [apply Hnone | reflexivity].
  - unfold on_interval, checkDevTools. rewrite Hnone.
    destruct (enabled cfg); [| reflexivity].
    destruct ((ow - iw >? 160)%Z || (oh - ih >? 160)%Z); reflexivity.
  - unfold checkPaste. rewrite !Hnone.
    destruct (Z.of_nat (js_length text) >? 200)%Z;
      [| destruct ((Z.of_nat (js_length text) >? 50)%Z
                   && hasCodeMarkers text)];
      cbn [snd app];
      destruct (Z.of_nat (List.length _) >? 5)%Z; reflexivity.
  - unfold trackCodeChange. rewrite Hguard. reflexivity.
  - unfold window_fetch, watched_fetch. rewrite Hnone.
    destruct (enabled cfg); [| reflexivity].
    destruct (originalFetch url); [destruct (isSuspicious url) |];
      reflexivity.
  - unfold window_open, watched_open. rewrite Hnone.
    destruct (enabled cfg); [| reflexivity].
    destruct (isSuspicious url); reflexivity.
  - unfold checkPaste.
    destruct (Z.of_nat (js_length text) >? 200)%Z;
      [| destruct ((Z.of_nat (js_length text) >? 50)%Z
                   && hasCodeMarkers text)];
      reflexivity.
  - unfold on_visibilitychange, window_open, handleVisibilityChange,
      watched_open.
    destruct (enabled cfg); split; reflexivity.
Qed.

(** X18: a request the page makes to one of the three call services
    listed ([zoom.us], [teams.microsoft.com], [meet.google.com]) is
    flagged wherever the name occurs in the URL, and an enabled hook
    reports it as [call_service_request] once the request has returned;
    the result of the request is handed on unchanged, and a request
    that is rejected is not reported.  [window.open] of such a URL
    opens nothing and reports it as [external_service_request]. *)
Theorem call_services_are_reported :
  forall (R W : Type) (originalFetch : string -> completion R)
         (originalOpen : string -> option W) (url domain : string),
    active cfg ->
    In domain ["zoom.us"; "teams.microsoft.com"; "meet.google.com"] ->
    includes domain url = true ->
    isSuspicious url = true /\
    serviceType url = "call_service_request" /\
    fst (window_fetch cfg originalFetch url) = originalFetch url /\
    kinds (snd (window_fetch cfg originalFetch url)) =
      match originalFetch url with
      | Return _ => ["call_service_request"]
      | Throw _ => []
      end /\
    fst (window_open cfg originalOpen url) = None /\
    kinds (snd (window_open cfg originalOpen url))
      = ["external_service_request"].
Proof.
  intros R W originalFetch originalOpen url domain Hactive Hdomain Hurl.
  assert (Hflag : isSuspicious url = true).
  { unfold isSuspicious. apply existsb_exists. exists domain.
    split; [| exact Hurl].
    cbn in Hdomain |- *. intuition. }
  assert (Htype : serviceType url = "call_service_request").
  { unfold serviceType.
    assert (Hword : includes "zoom" url = true \/
                    includes "teams" url = true \/
                    includes "meet" url = true).
    { destruct Hdomain as [<- | [<- | [<- | []]]].
      - left. apply (includes_trans "zoom" "zoom.us"); [reflexivity | exact Hurl].
      - right. left.
        apply (includes_trans "teams" "teams.microsoft.com");
          [reflexivity | exact Hurl].
      - right. right.
        apply (includes_trans "meet" "meet.google.com");
          [reflexivity | exact Hurl]. }
    destruct Hword as [-> | [-> | ->]];
      rewrite ?orb_true_r; reflexivity. }
  split; [exact Hflag |]. split; [exact Htype |].
  unfold window_fetch, window_open, watched_fetch, watched_open.
  rewrite (proj1 Hactive), Hflag, Htype.
  rewrite !(reportEvent_active cfg _ _ Hactive).
  destruct (originalFetch url); repeat split; reflexivity.
Qed.

End CodeChanges.

Lemma code_change_buffer_bounded_witness :
  (List.length
     (UseAntiCheat.codeChangeHistory
        (fst (UseAntiCheat.trackCodeChange Samples2.watching Samples2.noon
                "x = 1" "x = 12" Samples2.nine_changes))) < 10)%nat.
Proof.
  apply (code_change_buffer_bounded Samples2.watching Samples2.noon
           "x = 1" "x = 12" Samples2.nine_changes).
  cbn. lia.
Defined.

Lemma code_change_flush_witness :
  UseAntiCheat.codeChangeHistory
    (fst (UseAntiCheat.trackCodeChange Samples2.watching Samples2.noon
            "x = 1" "x = 12" Samples2.nine_changes)) = [].
Proof.
  apply (code_change_flush Samples2.watching Samples2.noon
           "x = 1" "x = 12" Samples2.nine_changes).
  - split; [reflexivity | discriminate].
  - reflexivity.
Defined.

Lemma disabled_hook_reports_nothing_witness :
  snd (UseAntiCheat.checkPaste
         {| UseAntiCheat.interviewId := ""; UseAntiCheat.enabled := true |}
         Samples2.noon "import os" UseAntiCheat.initial) = [].
Proof.
  apply (disabled_hook_reports_nothing
           {| UseAntiCheat.interviewId := ""; UseAntiCheat.enabled := true |}
           unit Samples2.noon "import os" "" "" "" false 0 0 0 0
           (fun _ => Return tt) (fun _ => None) UseAntiCheat.initial).
  right. reflexivity.
Defined.

Lemma call_services_are_reported_witness :
  UseAntiCheat.serviceType "https://us02web.zoom.us/j/123"
  = "call_service_request".
Proof.
  apply (call_services_are_reported Samples2.watching unit unit
           (fun _ => Return tt) (fun _ => Some tt)
           "https://us02web.zoom.us/j/123" "zoom.us").
  - split; [reflexivity | discriminate].
  - left. reflexivity.
  - reflexivity.
Defined.

(** ** The screen *)

Lemma runTests_gives_result (apiClient : UseInterview.client)
    (s : UseInterview.state) (log : console) :
  exists result,
    fst (UseInterview.runTests apiClient (s, log)) = Return result.
Proof.
  destruct (UseInterview.interview s) as [i |] eqn:Hi;
    [destruct (UseInterview.currentTask s) as [t |] eqn:Ht |].
  - rewrite (runTests_present apiClient s log i t Hi Ht).
    destruct (UseInterview.api_runTests apiClient _ _ _ _);
      eexists; reflexivity.
  - rewrite (runTests_missing apiClient s log (or_intror Ht)).
    eexists; reflexivity.
  - rewrite (runTests_missing apiClient s log (or_introl Hi)).
    eexists; reflexivity.
Qed.

(** X19: from the run button to the test panel.  [handleRunTests] of the
    screen never throws and gives what [runTests] of the hook gives.
    After a run started from an idle panel, the panel is rendered exactly
    when a result came back: when the run failed in any way (no
    interview or task, a rejected request, a response that is not ok),
    the panel is gone and no message is shown; the error is in the
    console only. *)
Theorem failed_run_leaves_no_panel :
  forall (apiClient : UseInterview.client) (s : UseInterview.state)
         (log : console) (panel : CodeEditor.state),
    let run := InterviewScreen.handleRunTests apiClient (s, log) in
    let panel' :=
      CodeEditor.handleRunTests_settle (fst run)
        (CodeEditor.press false CodeEditor.RunButton panel) in
    CodeEditor.isRunning panel = false ->
    run = UseInterview.runTests apiClient (s, log) /\
    (exists result, fst run = Return result) /\
    CodeEditor.isRunning panel' = false /\
    CodeEditor.in_flight panel' = CodeEditor.in_flight panel /\
    Views.panel_rendered None panel' =
      match fst run with
      | Return (Some _) => true
      | _ => false
      end /\
    CodeEditor.localTestResults panel' =
      match fst run with
      | Return (Some result) => Some result
      | _ => None
      end.
Proof.
  intros apiClient s log panel run panel' Hidle.
  destruct (runTests_gives_result apiClient s log) as [r Hr].
  assert (Hrun : run = UseInterview.runTests apiClient (s, log)).
  { subst run. unfold InterviewScreen.handleRunTests, UseInterview.try_catch.
    destruct (UseInterview.runTests apiClient (s, log)) as [c w].
    cbn in Hr. subst c. reflexivity. }
  split; [exact Hrun |].
  assert (Hfst : fst run = Return r) by (rewrite Hrun; exact Hr).
  clearbody run.
  split; [exists r; exact Hfst |].
  subst panel'. rewrite Hfst.
  unfold CodeEditor.press. rewrite Hidle. cbn.
  unfold Views.panel_rendered, CodeEditor.displayedResults. cbn.
  destruct r; repeat split; reflexivity.
Qed.

Lemma failed_run_leaves_no_panel_witness :
  Views.panel_rendered None
    (CodeEditor.handleRunTests_settle
       (fst (InterviewScreen.handleRunTests
               (Samples.over Samples.broken_server) (Samples.working 3, [])))
       (CodeEditor.press false CodeEditor.RunButton CodeEditor.initial))
  = false.
Proof.
  destruct (failed_run_leaves_no_panel (Samples.over Samples.broken_server)
              (Samples.working 3) [] CodeEditor.initial eq_refl)
    as (_ & _ & _ & _ & H & _).
  exact H.
Defined.

Section Timer.

Import InterviewScreen.

Lemma ticks_closed (n : nat) :
  forall time : Z, (0 <= time)%Z ->
                   ticks n time = Z.max 0 (time - Z.of_nat n).
Proof.
  induction n as [| n IH]; intros time Htime.
  - cbn. lia.
  - cbn [ticks]. unfold tick.
    destruct (Z.leb_spec time 0) as [Hzero | Hpos]; cbn [fst].
    + rewrite IH by lia. lia.
    + rewrite IH by lia. lia.
Qed.

Lemma two_digits (k : nat) :
  (k < 60)%nat ->
  String.length (padStart2 (number_to_string (Z.of_nat k))) = 2%nat.
Proof.
  intros Hk.
  do 60 (destruct k as [| k]; [reflexivity |]).
  lia.
Qed.

End Timer.

(** X20: the timer counts down by one a tick and stops at zero: after [n]
    ticks from a non-negative time [t] it shows [max 0 (t - n)], never a
    negative time.  [handleFinish] is called by the tick that finds the
    time at zero, that is by every tick after the first [t], again and
    again.  The clock in the header always shows the seconds with two
    digits, and its two numbers add up to the time. *)
Theorem timer_counts_down_to_zero :
  forall (n : nat) (t : Z),
    let time := InterviewScreen.ticks n t in
    (0 <= t)%Z ->
    time = Z.max 0 (t - Z.of_nat n) /\
    (0 <= time <= t)%Z /\
    snd (InterviewScreen.tick time) = (t <=? Z.of_nat n)%Z /\
    String.length (InterviewScreen.clock_seconds time) = 2%nat /\
    (60 * (time / 60) + Z.rem time 60 = time)%Z.
Proof.
  intros n t time Ht. subst time.
  rewrite (ticks_closed n t Ht).
  set (time := Z.max 0 (t - Z.of_nat n)).
  assert (Htime : (0 <= time)%Z) by (subst time; lia).
  split; [reflexivity |].
  split; [subst time; lia |].
  split.
  { unfold InterviewScreen.tick.
    destruct (Z.leb_spec time 0), (Z.leb_spec t (Z.of_nat n));
      cbn; subst time; try reflexivity; lia. }
  assert (Hrem : Z.rem time 60 = (time mod 60)%Z)
    by (apply Z.rem_mod_nonneg; lia).
  split.
  - unfold InterviewScreen.clock_seconds. rewrite Hrem.
    pose proof (Z.mod_pos_bound time 60 ltac:(lia)) as Hbound.
    rewrite <- (Z2Nat.id (time mod 60)) by lia.
    apply two_digits. lia.
  - rewrite Hrem. symmetry. apply Z.div_mod. lia.
Qed.

Lemma timer_counts_down_to_zero_witness :
  InterviewScreen.ticks 3700 3600 = Z.max 0 (3600 - Z.of_nat 3700).
Proof.
  apply (timer_counts_down_to_zero 3700 3600). lia.
Defined.

(** X21: the screen fetches the feedback from the same URL as
    [getInterviewFeedback] of the client exactly when
    [NEXT_PUBLIC_API_URL] is set to a non-empty text.  When it is not
    set, the client falls back to [http://localhost:8000] while the
    screen asks for [undefined/api/interview/feedback/...]. *)
Theorem feedback_url_agrees_iff_configured :
  forall (NEXT_PUBLIC_API_URL : option string) (interview_id : string),
    (InterviewScreen.feedback_url NEXT_PUBLIC_API_URL interview_id =?
     url (ApiCalls.get_request NEXT_PUBLIC_API_URL
            ("/api/interview/feedback/" ++ interview_id)))
    = truthy_opt NEXT_PUBLIC_API_URL /\
    InterviewScreen.feedback_url None interview_id
    = "undefined/api/interview/feedback/" ++ interview_id /\
    url (ApiCalls.get_request None
           ("/api/interview/feedback/" ++ interview_id))
    = "http://localhost:8000/api/interview/feedback/" ++ interview_id.
Proof.
  intros env interview_id. split; [| split; reflexivity].
  unfold InterviewScreen.feedback_url, ApiCalls.get_request, API_BASE,
    or_else, text_of, truthy_opt.
  cbn [url].
  destruct env as [base |]; [| reflexivity].
  unfold truthy_string. destruct (String.eqb_spec base "") as [-> | _];
    cbn [negb]; [reflexivity |].
  apply String.eqb_refl.
Qed.

(** X22: a task that cannot be generated ends the interview.  When
    [nextTask] gives [null] to [handleNextTask], for whatever reason (the
    tasks are used up, the client threw, the task was invalid), the
    screen goes on to finish the interview; if the server then finishes
    it and answers the feedback request, the feedback is stored and the
    screen shows the report.  The hint counter of the screen is back at
    3 and both dialogs are closed. *)
Theorem failed_next_task_ends_interview :
  forall (apiClient : UseInterview.client)
         (NEXT_PUBLIC_API_URL : option string)
         (fetch_feedback : string -> completion (response json))
         (sc : InterviewScreen.screen) (s : UseInterview.state)
         (log : console) (i : InterviewState.t)
         (finished : UseInterview.FinishResult)
         (res : response json) (fb : json),
    let done :=
      InterviewScreen.handleNextTask apiClient NEXT_PUBLIC_API_URL
        fetch_feedback (sc, (s, log)) in
    UseInterview.interview s = Some i ->
    InterviewState.interview_id i <> "" ->
    fst (UseInterview.nextTask apiClient (s, log)) = Return None ->
    UseInterview.api_finishInterview apiClient
      (InterviewState.interview_id i) = Return finished ->
    fetch_feedback
      (InterviewScreen.feedback_url NEXT_PUBLIC_API_URL
         (InterviewState.interview_id i)) = Return res ->
    ok res = true ->
    parsed res = Some fb ->
    fst done = Return tt /\
    InterviewScreen.feedback (fst (snd done)) = Some fb /\
    InterviewScreen.hintsRemaining (fst (snd done)) = 3%Z /\
    InterviewScreen.showSubmitDialog (fst (snd done)) = false /\
    InterviewScreen.showFinishDialog (fst (snd done)) = false.
Proof.
  intros apiClient env fetch_feedback sc s log i finished res fb done
    Hi Hid Hnull Hfinish Hfetch Hok Hparsed.
  subst done. unfold InterviewScreen.handleNextTask.
  pose proof (nextTask_cases apiClient s log) as [Hkept _].
  destruct (UseInterview.nextTask apiClient (s, log)) as [c [s1 log1]].
  cbn [fst snd] in Hnull, Hkept. subst c.
  unfold InterviewScreen.handleFinish, UseInterview.finishInterview,
    UseInterview.bind, UseInterview.read, UseInterview.try_finally,
    UseInterview.await, UseInterview.ret, UseInterview.setIsLoading,
    UseInterview.setLoadingAction, UseInterview.modify, json_of.
  cbn [fst snd]. rewrite Hkept, Hi, Hfinish. cbn [fst snd].
  rewrite Hkept, Hi. unfold truthy_string.
  destruct (String.eqb_spec (InterviewState.interview_id i) "");
    [contradiction |].
  cbn [negb]. rewrite Hfetch, Hok, Hparsed. cbn.
  repeat split; reflexivity.
Qed.

Lemma failed_next_task_ends_interview_witness :
  InterviewScreen.feedback
    (fst (snd (InterviewScreen.handleNextTask Samples2.finishing None
                 Samples2.feedback_server
                 (InterviewScreen.initial, (Samples.working 3, [])))))
  = Some Samples2.report_body.
Proof.
  assert (Hid : InterviewState.interview_id (Samples.interview_1 3) <> "")
    by (cbn; discriminate).
  exact (proj1 (proj2
    (failed_next_task_ends_interview Samples2.finishing None
       Samples2.feedback_server InterviewScreen.initial
       (Samples.working 3) [] (Samples.interview_1 3)
       {| UseInterview.finished_interview_id := "interview-1";
          UseInterview.finished_status := "completed" |}
       {| ok := true; status := 200; text := "";
          parsed := Some Samples2.report_body |}
       Samples2.report_body eq_refl Hid eq_refl eq_refl eq_refl eq_refl
       eq_refl))).
Defined.

(** X23: the footer of the submit dialog and the guard of [nextTask]
    agree.  For an interview whose [total_tasks] is not zero, the dialog
    offers the next task exactly when [nextTask] would pass its guard;
    when it offers to finish instead, [nextTask] would return [null]
    without calling the client and without touching the hook. *)
Theorem next_task_button_matches_guard :
  forall (apiClient : UseInterview.client) (s : UseInterview.state)
         (log : console) (i : InterviewState.t),
    UseInterview.interview s = Some i ->
    InterviewState.total_tasks i <> 0%Z ->
    InterviewScreen.offers_next_task s =
      negb (UseInterview.taskNumber s + 1
            >? InterviewState.total_tasks i)%Z /\
    (InterviewScreen.offers_next_task s = false ->
     UseInterview.nextTask apiClient (s, log) = (Return None, (s, log))).
Proof.
  intros apiClient s log i Hi Htotal.
  assert (Hoffer : InterviewScreen.offers_next_task s =
                   negb (UseInterview.taskNumber s + 1
                         >? InterviewState.total_tasks i)%Z).
  { unfold InterviewScreen.offers_next_task, InterviewScreen.shown_total,
      truthy_number.
    rewrite Hi.
    destruct (Z.eqb_spec (InterviewState.total_tasks i) 0);
      [contradiction |].
    cbn [negb].
    destruct (Z.ltb_spec (UseInterview.taskNumber s)
                (InterviewState.total_tasks i)),
      (Z.gtb_spec (UseInterview.taskNumber s + 1)
         (InterviewState.total_tasks i)); cbn; try reflexivity; lia. }
  split; [exact Hoffer |].
  rewrite Hoffer. intros Hguard. apply negb_false_iff in Hguard.
  unfold UseInterview.nextTask, UseInterview.bind, UseInterview.read,
    UseInterview.ret.
  cbn [fst snd]. rewrite Hi, Hguard. reflexivity.
Qed.

Lemma next_task_button_matches_guard_witness :
  InterviewScreen.offers_next_task (Samples.working 3) = true.
Proof.
  assert (Htotal : InterviewState.total_tasks (Samples.interview_1 3) <> 0%Z)
    by (cbn; lia).
  rewrite (proj1 (next_task_button_matches_guard Samples.offline
                    (Samples.working 3) [] (Samples.interview_1 3)
                    eq_refl Htotal)).
  reflexivity.
Defined.

(** ** The colours of a score *)

(** X24: the progress bar colours a finished task as the submit dialog
    coloured its score (success from 70, warning from 40), and a task
    that was left without a score as a failed one.  The final report
    uses stricter thresholds (80 and 60): its text and background classes
    always stand for the same colour, and that colour is never better
    than the one the dialog showed; it is worse exactly for scores from
    40 to 59 and from 70 to 79. *)
Theorem score_colours_across_views :
  forall (score current : Z) (scores : list Z) (i : nat),
    (Z.of_nat i < current - 1)%Z ->
    (nth_error scores i = Some score ->
     Views.bar_segment current scores i
     = Views.done_with (Views.dialog_colour score)) /\
    (nth_error scores i = None ->
     Views.bar_segment current scores i
     = Views.done_with Views.destructive) /\
    exists c : Views.colour,
      Views.colour_of_class (Views.getScoreColor score) = Some c /\
      Views.colour_of_class (Views.getScoreBg score) = Some c /\
      (Views.rank c <= Views.rank (Views.dialog_colour score))%nat /\
      (c <> Views.dialog_colour score <->
       (40 <= score < 60)%Z \/ (70 <= score < 80)%Z).
Proof.
  intros score current scores i Hdone.
  unfold Views.bar_segment, Views.dialog_colour, Views.getScoreColor,
    Views.getScoreBg.
  destruct (Z.ltb_spec (Z.of_nat i) (current - 1)) as [_ | Hge]; [| lia].
  split;
    [intros ->; destruct (score >=? 70)%Z, (score >=? 40)%Z; reflexivity |].
  split; [intros ->; reflexivity |].
  rewrite !Z.geb_leb.
  destruct (Z.leb_spec 80 score) as [H80 | H80];
    [exists Views.success | destruct (Z.leb_spec 60 score) as [H60 | H60];
       [exists Views.warning | exists Views.destructive]];
    destruct (Z.leb_spec 70 score) as [H70 | H70];
    destruct (Z.leb_spec 40 score) as [H40 | H40];
    try lia; cbn;
    (split; [reflexivity |]); (split; [reflexivity |]);
    (split; [lia |]);
    (split; [intros Hne; try (exfalso; apply Hne; reflexivity); lia
            | intros Hrange; try lia; discriminate]).
Qed.

Lemma score_colours_across_views_witness :
  Views.bar_segment 3 [75; 30]%Z 0
  = Views.done_with (Views.dialog_colour 75).
Proof.
  apply (score_colours_across_views 75 3 [75; 30]%Z 0);
    [cbn; lia | reflexivity].
Defined.

